(** * Option resolution of the visual-testing CLI: [bin/lib/getOptions.js]

    A shallow embedding of [getOptions] and of the helpers declared next to
    it ([takeLast], [resolveHomeDir]), followed by the properties of the
    resolution procedure.

    JavaScript values are an inductive type with the language's truthiness,
    [||] and [&&]; a thrown [Error] is a result carrying the kind of the
    message and the arguments given to the message renderer; run-time type
    errors of the language (a method called on a value that has none) are a
    separate exception.  The manifest's script table is a finite map. *)

From Stdlib Require Import String Ascii ZArith List Bool DecimalString.
From stdpp Require Import base tactics option list strings gmap.

Open Scope string_scope.
Open Scope list_scope.

(** ** JavaScript values *)

#[warnings="-register-all"]
Inductive JsVal : Type :=
| JUndefined
| JNull
| JBool (b : bool)
| JNum (n : Z)
| JStr (s : string)
| JArr (elems : list JsVal)
| JObj (fields : list (string * JsVal)).

(** [!!v]: the falsy values are [undefined], [null], [false], [0] and the
    empty string; arrays and objects are always truthy.  Numbers are the
    integer ones: [JNum n] is the number n, for the integers that are
    numbers of the language (all of them up to 2^53 in magnitude, and
    beyond that those that a double holds exactly). *)
Definition truthy (v : JsVal) : bool :=
  match v with
  | JUndefined | JNull => false
  | JBool b => b
  | JNum n => negb (n =? 0)%Z
  | JStr s => negb (String.eqb s "")
  | JArr _ | JObj _ => true
  end.

(** [a || b] and [a && b] return one of their operands. *)
Definition js_or (a b : JsVal) : JsVal := if truthy a then a else b.
Definition js_and (a b : JsVal) : JsVal := if truthy a then b else a.

(** [v === ''] *)
Definition is_empty_string (v : JsVal) : bool :=
  match v with JStr "" => true | _ => false end.

(** [v === '' ? true : v], the normalisation of a flag given without value. *)
Definition flagPresent (v : JsVal) : JsVal :=
  if is_empty_string v then JBool true else v.

(** [typeof v === 'string' ? v : dflt] *)
Definition stringOr (v : JsVal) (dflt : string) : string :=
  match v with JStr s => s | _ => dflt end.

(** *** Numbers as text

    [Number::toString] on the integers.  The digits are the fewest that
    still denote the number (a double has 53 significant bits, so beyond
    2^53 the neighbouring integers are not numbers and fewer digits than
    those of the integer are enough); they are printed in full, with zeros
    up to the unit, below 10^21, and in exponent form from there on. *)

Definition decimalText (n : Z) : string := NilZero.string_of_int (Z.to_int n).

(** The integer [c] is nearer to the number [x] than to its neighbours
    among the doubles (an end of the interval counts when the significand
    of [x] is even); distances are taken four times, the neighbour below a
    power of two being half an ulp away. *)
Definition roundsTo (x c : Z) : bool :=
  let bits := (Z.log2 x + 1)%Z in
  if (bits <=? 53)%Z then (c =? x)%Z
  else
    let ulp := (2 ^ (bits - 53))%Z in
    let below := if (x =? 2 ^ (bits - 1))%Z then ulp else (2 * ulp)%Z in
    let above := (2 * ulp)%Z in
    let d := (4 * (c - x))%Z in
    if Z.even (x / ulp)
    then (- below <=? d)%Z && (d <=? above)%Z
    else (- below <? d)%Z && (d <? above)%Z.

(** The multiple of the largest power of ten that still denotes [x]; of
    two such multiples the nearer one, and the even one on a tie. *)
Fixpoint shortest_go (fuel : nat) (x p : Z) : Z :=
  match fuel with
  | O => x
  | S fuel' =>
      let lo := (x / p * p)%Z in
      let hi := (lo + p)%Z in
      if roundsTo x lo && roundsTo x hi then
        if (x - lo <? hi - x)%Z then lo
        else if (hi - x <? x - lo)%Z then hi
        else if Z.even (x / p) then lo else hi
      else if roundsTo x lo then lo
      else if roundsTo x hi then hi
      else shortest_go fuel' x (p / 10)%Z
  end.

Definition shortest (x : Z) : Z :=
  let len := String.length (decimalText x) in
  shortest_go len x (10 ^ Z.of_nat (len - 1))%Z.

Fixpoint dropTrailingZeros (s : string) : string :=
  match s with
  | EmptyString => EmptyString
  | String c s' =>
      match dropTrailingZeros s' with
      | EmptyString =>
          if Ascii.eqb c "0" then EmptyString else String c EmptyString
      | t => String c t
      end
  end.

(** [d.ddde+x] *)
Definition exponentText (v : Z) : string :=
  match decimalText v with
  | String d rest =>
      let fraction := dropTrailingZeros rest in
      String d (match fraction with
                | EmptyString => EmptyString
                | _ => String "." fraction
                end)
      +:+ "e+" +:+ decimalText (Z.of_nat (String.length rest))
  | EmptyString => EmptyString
  end.

Definition numberText (n : Z) : string :=
  if (n =? 0)%Z then "0"
  else
    let v := shortest (Z.abs n) in
    (if (n <? 0)%Z then "-" else "")
    +:+ (if (v <? 10 ^ 21)%Z then decimalText v else exponentText v).

(** String conversion of a template literal [`${v}`]. *)
Fixpoint js_to_string (v : JsVal) : string :=
  match v with
  | JUndefined => "undefined"
  | JNull => "null"
  | JBool true => "true"
  | JBool false => "false"
  | JNum n => numberText n
  | JStr s => s
  | JArr elems =>
      String.concat ","
        (map (fun e => match e with
                       | JUndefined | JNull => ""
                       | _ => js_to_string e
                       end) elems)
  | JObj _ => "[object Object]"
  end.

(** [const takeLast = input => (Array.isArray(input) ? input[input.length - 1] : input)] *)
Definition takeLast (input : JsVal) : JsVal :=
  match input with
  | JArr elems => List.last elems JUndefined
  | _ => input
  end.

(** ** Thrown errors *)

(** The nine messages of [ui/messages/errors], with the arguments the code
    passes to the renderer. *)
Inductive ErrorKind : Type :=
| MissingProjectToken
| InvalidPatchBuild
| DuplicatePatchBuild
| InvalidSingularOptions (labels : list string)
| InvalidExitOnceUploaded
| MissingBuildScriptName (name : string)
| MissingScriptName (name : string)
| MissingStorybookPort
| UnknownStorybookPort (name : string).

Inductive Exception : Type :=
| Failure (kind : ErrorKind)     (* throw new Error(message(...)) *)
| JsTypeError.                   (* raised by the language or by Node *)

Inductive Result (A : Type) : Type :=
| Ok (a : A)
| Raise (e : Exception).
Arguments Ok {A} a.
Arguments Raise {A} e.

Definition bind {A B} (r : Result A) (k : A -> Result B) : Result B :=
  match r with
  | Ok a => k a
  | Raise e => Raise e
  end.

Notation "'try' x <- r ; k" := (bind r (fun x => k))
  (at level 10, x name, r at level 100, k at level 200).

Definition throw {A} (kind : ErrorKind) : Result A := Raise (Failure kind).

(** ** Splitting the patch-build argument *)

(** [s.split('...')]: the occurrences of the separator are found from the
    left and do not overlap; [skip] counts the characters of a separator
    still to be passed over and [cur] holds the current segment. *)
Fixpoint split_go (sep s : string) (skip : nat) (cur : string) : list string :=
  match s with
  | EmptyString => [cur]
  | String c s' =>
      match skip with
      | S k => split_go sep s' k cur
      | O =>
          if String.prefix sep s
          then cur :: split_go sep s' (String.length sep - 1) ""
          else split_go sep s' 0 (cur +:+ String c "")
      end
  end.

Definition split (sep s : string) : list string := split_go sep s 0 "".

(** The string left after its first [k] characters *)
Fixpoint dropChars (k : nat) (s : string) : string :=
  match k, s with
  | S k', String _ s' => dropChars k' s'
  | _, _ => s
  end.

(** [.filter(Boolean)] on an array of strings *)
Definition filterBoolean (segs : list string) : list string :=
  filter (fun seg => seg <> "") segs.

Definition ofOption (o : option string) : JsVal :=
  match o with Some s => JStr s | None => JUndefined end.

(** ** Inputs *)

(** The value of [flags.storybookBuildDir], which the code hands to
    [path.resolve]: absent, one string, or the strings of a repeated flag. *)
Inductive DirFlag : Type :=
| DirAbsent
| DirValue (dir : string)
| DirValues (first : string) (others : list string).

(** The [flags] object delivered by the command-line parser.  A flag that is
    absent reads [JUndefined]; a flag given without a value reads [JStr ""].
    [patchBuild] is a string flag (the code calls [split] on it). *)
Module Flags.
Record t : Type := mk {
  patchBuild : option string;
  projectToken : JsVal;
  appCode : JsVal;
  config : JsVal;
  only : JsVal;
  list : JsVal;
  ci : JsVal;
  skip : JsVal;
  debug : JsVal;
  interactive : JsVal;
  autoAcceptChanges : JsVal;
  exitZeroOnChanges : JsVal;
  exitOnceUploaded : JsVal;
  ignoreLastBuildOnBranch : JsVal;
  preserveMissing : JsVal;
  buildScriptName : JsVal;
  allowConsoleErrors : JsVal;
  scriptName : JsVal;
  exec : JsVal;
  doNotStart : JsVal;
  storybookHttps : JsVal;
  storybookCert : JsVal;
  storybookKey : JsVal;
  storybookCa : JsVal;
  storybookPort : JsVal;
  storybookUrl : JsVal;
  storybookBuildDir : DirFlag;
}.

(** The object [{ name: value, ... }] of the flags that arrive as
    JavaScript values, next to the two typed ones; a flag that is not
    listed is absent. *)
Definition get (l : Datatypes.list (string * JsVal)) (name : string) : JsVal :=
  default JUndefined (snd <$> List.find (fun kv => String.eqb (fst kv) name) l).

Definition ofList (patch : option string) (dir : DirFlag)
    (l : Datatypes.list (string * JsVal)) : t :=
  {| patchBuild := patch;
     projectToken := get l "projectToken";
     appCode := get l "appCode";
     config := get l "config";
     only := get l "only";
     list := get l "list";
     ci := get l "ci";
     skip := get l "skip";
     debug := get l "debug";
     interactive := get l "interactive";
     autoAcceptChanges := get l "autoAcceptChanges";
     exitZeroOnChanges := get l "exitZeroOnChanges";
     exitOnceUploaded := get l "exitOnceUploaded";
     ignoreLastBuildOnBranch := get l "ignoreLastBuildOnBranch";
     preserveMissing := get l "preserveMissing";
     buildScriptName := get l "buildScriptName";
     allowConsoleErrors := get l "allowConsoleErrors";
     scriptName := get l "scriptName";
     exec := get l "exec";
     doNotStart := get l "doNotStart";
     storybookHttps := get l "storybookHttps";
     storybookCert := get l "storybookCert";
     storybookKey := get l "storybookKey";
     storybookCa := get l "storybookCa";
     storybookPort := get l "storybookPort";
     storybookUrl := get l "storybookUrl";
     storybookBuildDir := dir |}.
End Flags.

(** The [options] object built at lines 31-73. *)
Module Options.
Record t : Type := mk {
  projectToken : JsVal;
  config : JsVal;
  only : JsVal;
  list : JsVal;
  fromCI : bool;
  skip : JsVal;
  verbose : bool;
  interactive : bool;
  autoAcceptChanges : JsVal;
  exitZeroOnChanges : JsVal;
  exitOnceUploaded : JsVal;
  ignoreLastBuildOnBranch : JsVal;
  preserveMissingSpecs : JsVal;
  originalArgv : JsVal;
  buildScriptName : JsVal;
  allowConsoleErrors : JsVal;
  scriptName : JsVal;
  exec : JsVal;
  noStart : bool;
  https : JsVal;
  cert : JsVal;
  key : JsVal;
  ca : JsVal;
  port : JsVal;
  storybookUrl : JsVal;
  storybookBuildDir : JsVal;
  createTunnel : bool;
  indexUrl : JsVal;
  tunnelUrl : JsVal;
  patchHeadRef : JsVal;
  patchBaseRef : JsVal;
}.
End Options.

(** The object returned by [getOptions]: [{ ...options, <overrides> }].  The
    properties a return statement may override are fields of their own; any
    other property of the returned object is read from [options]. *)
Module Resolved.
Record t : Type := mk {
  options : Options.t;
  noStart : bool;
  buildScriptName : JsVal;
  https : JsVal;
  url : JsVal;
  scriptName : JsVal;
}.
End Resolved.

(** The manifest read from [package.json]: [scripts] is missing or a table
    from script names to command strings. *)
Record Manifest : Type := {
  scripts : option (gmap string string);
}.

(** What reading a property of the script table gives. *)
Inductive ScriptEntry : Type :=
| NoScript                      (* undefined *)
| Command (cmd : string)        (* an entry of the table *)
| Builtin.                      (* a member inherited from Object.prototype *)

(** The names every plain object answers to through its prototype. *)
Definition objectPrototypeNames : list string :=
  [ "constructor"; "hasOwnProperty"; "isPrototypeOf"; "propertyIsEnumerable";
    "toLocaleString"; "toString"; "valueOf"; "__proto__"; "__defineGetter__";
    "__defineSetter__"; "__lookupGetter__"; "__lookupSetter__" ].

(** [packageJson.scripts && packageJson.scripts[name]] *)
Definition lookupScript (packageJson : Manifest) (name : string) : ScriptEntry :=
  match scripts packageJson with
  | None => NoScript
  | Some table =>
      match table !! name with
      | Some cmd => Command cmd
      | None => if bool_decide (name ∈ objectPrototypeNames) then Builtin else NoScript
      end
  end.

Definition entryTruthy (e : ScriptEntry) : bool :=
  match e with
  | NoScript => false
  | Command cmd => negb (String.eqb cmd "")
  | Builtin => true
  end.

(** ** Node's [url] module

    [parse] and [format] of the legacy parser, on the generic syntax
    [scheme:][//host][path][?query][#fragment] with the scheme in lower
    case.  The model is exact on the strings that the parser takes as they
    are written ([plainUrl] below): the normalisations that the parser
    performs on other strings (trimming of blanks, case folding of scheme
    and host, credentials, validation and length limit of the host name,
    percent-escaping, the scheme [javascript:]) are not part of it, and the
    properties of finalisation that depend on the parser are stated for
    plain strings. *)
Module Url.

Record t : Type := mk {
  protocol : list ascii;            (* with its colon; empty when null *)
  slashes : bool;
  host : list ascii;                (* empty when null *)
  pathname : option (list ascii);   (* None when null *)
  search : list ascii;              (* with its question mark *)
  hash : list ascii;                (* with its hash sign *)
}.

Definition chars (s : string) : list ascii := list_ascii_of_string s.

Definition isChar (c : ascii) (x : ascii) : bool := Ascii.eqb x c.

Definition nonempty (l : list ascii) : bool :=
  match l with [] => false | _ => true end.

(** The longest prefix free of stop characters, and what follows. *)
Fixpoint break (stop : ascii -> bool) (l : list ascii)
  : list ascii * list ascii :=
  match l with
  | [] => ([], [])
  | c :: l' =>
      if stop c then ([], l)
      else let (a, b) := break stop l' in (c :: a, b)
  end.

Definition startsWith (pre l : list ascii) : bool :=
  bool_decide (pre `prefix_of` l).

Definition endsWith (l suf : list ascii) : bool :=
  bool_decide (suf `suffix_of` l).

(** [a-z0-9.+-] *)
Definition schemeChar (c : ascii) : bool :=
  let n := nat_of_ascii c in
  ((97 <=? n)%nat && (n <=? 122)%nat) || ((48 <=? n)%nat && (n <=? 57)%nat)
  || Ascii.eqb c "." || Ascii.eqb c "+" || Ascii.eqb c "-".

(** The match of [/^[a-z0-9.+-]+:/], colon included, and the rest. *)
Definition takeScheme (l : list ascii) : list ascii * list ascii :=
  let (name, rest) := break (fun c => negb (schemeChar c)) l in
  match name, rest with
  | _ :: _, ":"%char :: rest' => (name ++ [":"%char], rest')
  | _, _ => ([], l)
  end.

Definition slashedProtocol (proto : list ascii) : bool :=
  bool_decide (proto ∈ map chars
    ["http:"; "https:"; "ftp:"; "gopher:"; "file:"; "ws:"; "wss:"]).

(** What is left of the query and the fragment: scheme, host and path. *)
Definition parseAuthority (l2 search hash : list ascii) : t :=
  let (proto, r0) := takeScheme l2 in
  let slashes := nonempty proto && startsWith (chars "//") r0 in
  let r1 := if slashes then drop 2 r0 else r0 in
  let hostful := slashes || (nonempty proto && negb (slashedProtocol proto)) in
  let (host, r2) := if hostful then break (isChar "/") r1 else ([], r1) in
  let pathname :=
    if nonempty r2 then Some r2
    else if slashedProtocol proto && nonempty host then Some (chars "/")
    else None in
  mk proto slashes host pathname search hash.

Definition parseChars (l : list ascii) : t :=
  let (l1, hash) := break (isChar "#") l in
  let (l2, search) := break (isChar "?") l1 in
  parseAuthority l2 search hash.

(** The replacements [format] applies to the path and to the query. *)
Fixpoint escapePath (l : list ascii) : list ascii :=
  match l with
  | [] => []
  | c :: l' =>
      (if Ascii.eqb c "#" then chars "%23"
       else if Ascii.eqb c "?" then chars "%3F"
       else [c]) ++ escapePath l'
  end.

Fixpoint escapeSearch (l : list ascii) : list ascii :=
  match l with
  | [] => []
  | c :: l' => (if Ascii.eqb c "#" then chars "%23" else [c]) ++ escapeSearch l'
  end.

Definition withLeading (c : ascii) (l : list ascii) : list ascii :=
  match l with
  | [] => []
  | x :: _ => if Ascii.eqb x c then l else c :: l
  end.

(** [format]: a slashed scheme, or slashes in what was parsed, put [//]
    before the host and a [/] before the path; without slashes and without
    a host, only [file:] gets the [//], and the path stays as it is. *)
Definition formatChars (u : t) : list ascii :=
  let pathname := escapePath (default [] (pathname u)) in
  let slashed := slashes u || slashedProtocol (protocol u) in
  let authority := slashes u || nonempty (host u) in
  let dressed := slashed && authority in
  let host' :=
    if dressed then chars "//" ++ host u
    else if slashed && startsWith (chars "file") (protocol u) then chars "//"
    else host u in
  let pathname' := if dressed then withLeading "/" pathname else pathname in
  protocol u ++ host' ++ pathname'
    ++ withLeading "?" (escapeSearch (search u)) ++ withLeading "#" (hash u).

(** A [file:] URL written without slashes: [format] adds them, and what
    was the beginning of the path reads as a host afterwards. *)
Definition fileHostless (u : t) : bool :=
  negb (slashes u) && slashedProtocol (protocol u)
  && startsWith (chars "file") (protocol u).

Definition parse (s : string) : t := parseChars (chars s).
Definition format (u : t) : string := string_of_list_ascii (formatChars u).

(** [parsedUrl.pathname = p] *)
Definition setPathname (u : t) (p : list ascii) : t :=
  mk (protocol u) (slashes u) (host u) (Some p) (search u) (hash u).

(** The records that [parseChars] produces, for the proofs about parsing
    what was formatted. *)

(** A list is empty or begins with a character that stops. *)
Definition stopsAt (stop : ascii -> bool) (l : list ascii) : Prop :=
  match l with [] => True | c :: _ => stop c = true end.

(** A scheme as [takeScheme] cuts it off: scheme characters and a colon. *)
Definition isScheme (proto : list ascii) : Prop :=
  exists name, name <> [] /\ Forall (fun c => schemeChar c = true) name
               /\ proto = name ++ [":"%char].

Definition free (c : ascii) (l : list ascii) : Prop :=
  Forall (fun x => isChar c x = false) l.

(** The four shapes of a parsed URL with a path: no scheme; scheme and
    [//host]; a slashed scheme other than [file:] without host; another
    scheme with a host that follows the colon. *)
Definition shape (u : t) (p : list ascii) : Prop :=
  (protocol u = [] /\ slashes u = false /\ host u = []
   /\ takeScheme p = ([], p))
  \/ (isScheme (protocol u) /\ slashes u = true /\ free "/" (host u)
      /\ stopsAt (isChar "/") p)
  \/ (isScheme (protocol u) /\ slashes u = false
      /\ slashedProtocol (protocol u) = true /\ host u = []
      /\ startsWith (chars "file") (protocol u) = false
      /\ startsWith (chars "//") p = false)
  \/ (isScheme (protocol u) /\ slashes u = false
      /\ slashedProtocol (protocol u) = false /\ free "/" (host u)
      /\ stopsAt (isChar "/") p
      /\ startsWith (chars "//") (host u ++ p) = false).

Definition wellFormed (u : t) (p : list ascii) : Prop :=
  pathname u = Some p /\ p <> []
  /\ free "#" (protocol u ++ host u ++ p ++ search u)
  /\ free "?" (protocol u ++ host u ++ p)
  /\ stopsAt (isChar "#") (hash u) /\ stopsAt (isChar "?") (search u)
  /\ shape u p.

End Url.

(** Lines 171-177: the path gets the suffix unless it ends with it. *)
Definition suffix : list ascii := Url.chars "iframe.html".

Definition appendSuffix (pathname : list ascii) : list ascii :=
  if Url.endsWith pathname suffix then pathname
  else (if Url.endsWith pathname (Url.chars "/") then pathname
        else pathname ++ Url.chars "/") ++ suffix.

(** Lines 170-183 on a candidate URL: [url.parse] rejects what is not a
    string, and a null path has no [endsWith]. *)
Definition finalizeUrl (storybookUrl : JsVal) : Result string :=
  match storybookUrl with
  | JStr s =>
      let parsedUrl := Url.parse s in
      match Url.pathname parsedUrl with
      | Some pathname =>
          Ok (Url.format (Url.setPathname parsedUrl (appendSuffix pathname)))
      | None => Raise JsTypeError
      end
  | _ => Raise JsTypeError
  end.

(** A notice passed to [log.info]: [inferredOptions({ scriptName, port })]. *)
Inductive Notice : Type :=
| InferredOptions (scriptName : string) (port : JsVal).

(** The argument of [getOptions], with the manifest that [readFileSync]
    returns; [log] tells whether a logger was passed. *)
Record Input : Type := {
  flags : Flags.t;
  argv : JsVal;
  log : bool;
  packageJson : Manifest;
}.

(** ** The surroundings of the module

    The constants of [../constants], the HOME variable of the process, the
    two functions of Node's [path] module that are used, and the helper
    [./getStorybookConfiguration], which reads the value of a switch off a
    command string (the second name is the optional long form). *)
Class Environment : Type := {
  CHROMATIC_CREATE_TUNNEL : JsVal;
  CHROMATIC_PROJECT_TOKEN : JsVal;
  CHROMATIC_INDEX_URL : JsVal;
  CHROMATIC_TUNNEL_URL : JsVal;
  HOME : JsVal;
  path_resolve : string -> string;
  path_resolve_absolute : forall p, path_resolve p <> "";
  path_join : string -> string -> string;
  getStorybookConfiguration : string -> string -> option string -> JsVal;
}.

(** [v !== 'false'] *)
Definition isNotFalseString (v : JsVal) : bool :=
  match v with JStr "false" => false | _ => true end.

Section GetOptions.
Context {env : Environment}.

(** [const resolveHomeDir = filepath =>
      filepath && filepath.startsWith('~')
        ? path.join(process.env.HOME, filepath.slice(1)) : filepath]
    A truthy value that is not a string has no [startsWith]; [path.join]
    rejects an undefined HOME. *)
Definition resolveHomeDir (filepath : JsVal) : Result JsVal :=
  if truthy filepath then
    match filepath with
    | JStr (String "~" rest) =>
        match HOME with
        | JStr home => Ok (JStr (path_join home rest))
        | _ => Raise JsTypeError
        end
    | JStr _ => Ok filepath
    | _ => Raise JsTypeError
    end
  else Ok filepath.

(** Lines 60-66. *)
Definition resolveBuildDir (d : DirFlag) : JsVal :=
  match d with
  | DirAbsent => JUndefined
  | DirValue "" => JUndefined
  | DirValue dir => JStr (path_resolve dir)
  | DirValues first _ => JStr (path_resolve first)
  end.

(** [!!flags.storybookBuildDir] *)
Definition dirGiven (d : DirFlag) : bool :=
  match d with
  | DirAbsent | DirValue "" => false
  | _ => true
  end.

(** Line 29. *)
Definition patchRefs (f : Flags.t) : list string :=
  filterBoolean (split "..." (default "" (Flags.patchBuild f))).

(** Lines 31-73: the option normaliser. *)
Definition normalize (f : Flags.t) (argv : JsVal) : Options.t :=
  {| Options.projectToken :=
       js_or (takeLast (js_or (Flags.projectToken f) (Flags.appCode f)))
             CHROMATIC_PROJECT_TOKEN;
     Options.config := Flags.config f;
     Options.only := Flags.only f;
     Options.list := Flags.list f;
     Options.fromCI := truthy (Flags.ci f);
     Options.skip := flagPresent (Flags.skip f);
     Options.verbose := truthy (Flags.debug f);
     Options.interactive :=
       negb (truthy (Flags.ci f)) && truthy (Flags.interactive f);
     Options.autoAcceptChanges := flagPresent (Flags.autoAcceptChanges f);
     Options.exitZeroOnChanges := flagPresent (Flags.exitZeroOnChanges f);
     Options.exitOnceUploaded := flagPresent (Flags.exitOnceUploaded f);
     Options.ignoreLastBuildOnBranch := Flags.ignoreLastBuildOnBranch f;
     Options.preserveMissingSpecs := Flags.preserveMissing f;
     Options.originalArgv := argv;
     Options.buildScriptName := Flags.buildScriptName f;
     Options.allowConsoleErrors := Flags.allowConsoleErrors f;
     Options.scriptName := flagPresent (Flags.scriptName f);
     Options.exec := Flags.exec f;
     Options.noStart := truthy (Flags.doNotStart f);
     Options.https := Flags.storybookHttps f;
     Options.cert := Flags.storybookCert f;
     Options.key := Flags.storybookKey f;
     Options.ca := Flags.storybookCa f;
     Options.port := Flags.storybookPort f;
     Options.storybookUrl := flagPresent (Flags.storybookUrl f);
     Options.storybookBuildDir := resolveBuildDir (Flags.storybookBuildDir f);
     Options.createTunnel :=
       negb (truthy (Flags.storybookUrl f))
       && isNotFalseString CHROMATIC_CREATE_TUNNEL;
     Options.indexUrl := CHROMATIC_INDEX_URL;
     Options.tunnelUrl := CHROMATIC_TUNNEL_URL;
     Options.patchHeadRef := ofOption (patchRefs f !! 0%nat);
     Options.patchBaseRef := ofOption (patchRefs f !! 1%nat);
  |}.

(** Lines 98-104, in the order of [Object.keys]. *)
Definition singularOpts : list (string * string) :=
  [ ("buildScriptName", "--build-script-name");
    ("scriptName", "--script-name");
    ("exec", "--exec");
    ("storybookUrl", "--storybook-url");
    ("storybookBuildDir", "--storybook-build-dir") ].

(** [options[name]] for the names of [singularOpts]. *)
Definition optionsGet (options : Options.t) (name : string) : JsVal :=
  if String.eqb name "buildScriptName" then Options.buildScriptName options
  else if String.eqb name "scriptName" then Options.scriptName options
  else if String.eqb name "exec" then Options.exec options
  else if String.eqb name "storybookUrl" then Options.storybookUrl options
  else if String.eqb name "storybookBuildDir" then Options.storybookBuildDir options
  else JUndefined.

(** Line 105. *)
Definition foundSingularOpts (options : Options.t) : list string :=
  filter (fun name => truthy (optionsGet options name) = true)
         (map fst singularOpts).

(** [singularOpts[key]] *)
Definition singularLabel (key : string) : string :=
  default "" (snd <$> List.find (fun kv => String.eqb (fst kv) key) singularOpts).

(** [a === b] on primitive values. *)
Definition strictEq (a b : JsVal) : bool :=
  match a, b with
  | JUndefined, JUndefined | JNull, JNull => true
  | JBool x, JBool y => Bool.eqb x y
  | JNum x, JNum y => (x =? y)%Z
  | JStr x, JStr y => String.eqb x y
  | _, _ => false
  end.

(** [getStorybookConfiguration(storybookScript, short, long)]: the helper
    works on a command string. *)
Definition scriptSwitch (storybookScript : ScriptEntry)
    (shortName : string) (longName : option string) : Result JsVal :=
  match storybookScript with
  | Command cmd => Ok (getStorybookConfiguration cmd shortName longName)
  | _ => Raise JsTypeError
  end.

(** [{ cert: c, key: k, ca: a }] *)
Definition tlsObject (cert key ca : JsVal) : JsVal :=
  JObj [("cert", cert); ("key", key); ("ca", ca)].

(** Lines 151-157. *)
Definition inferHttps (https : JsVal) (storybookScript : ScriptEntry)
  : Result JsVal :=
  if truthy https then Ok https
  else
    try found <- scriptSwitch storybookScript "--https" None;
    if truthy found then
      try c <- scriptSwitch storybookScript "--ssl-cert" None;
      try cert <- resolveHomeDir c;
      try k <- scriptSwitch storybookScript "--ssl-key" None;
      try key <- resolveHomeDir k;
      try a <- scriptSwitch storybookScript "--ssl-ca" None;
      try ca <- resolveHomeDir a;
      Ok (tlsObject cert key ca)
    else Ok found.

(** Line 159. *)
Definition inferPort (port : JsVal) (storybookScript : ScriptEntry)
  : Result JsVal :=
  if truthy port then Ok port
  else scriptSwitch storybookScript "-p" (Some "--port").

(** The local variables that lines 137-168 assign. *)
Record Locals : Type := {
  l_https : JsVal;
  l_port : JsVal;
  l_scriptName : JsVal;
  l_storybookUrl : JsVal;
  l_notices : list Notice;
}.

(** Lines 142-165: look the start script up and read its switches. *)
Definition inferFromScript (packageJson : Manifest) (logging : bool)
    (https port scriptName : JsVal) : Result Locals :=
  let scriptName := stringOr scriptName "storybook" in
  let storybookScript := lookupScript packageJson scriptName in
  if negb (entryTruthy storybookScript) then throw (MissingScriptName scriptName)
  else
    try https <- inferHttps https storybookScript;
    try port <- inferPort port storybookScript;
    if negb (truthy port) then throw (UnknownStorybookPort scriptName)
    else
      Ok {| l_https := https; l_port := port;
            l_scriptName := JStr scriptName; l_storybookUrl := JUndefined;
            l_notices :=
              if logging then [InferredOptions scriptName port] else [] |}.

(** Lines 137-168: start Storybook on localhost and make the URL to it. *)
Definition startLocally (packageJson : Manifest) (logging : bool)
    (exec : JsVal) (noStart : bool) (https port scriptName : JsVal)
  : Result Locals :=
  if truthy exec && negb (truthy port) then throw MissingStorybookPort
  else
    try v <-
      (if negb (truthy exec) && (negb (truthy port) || negb noStart)
       then inferFromScript packageJson logging https port scriptName
       else Ok {| l_https := https; l_port := port;
                  l_scriptName := scriptName; l_storybookUrl := JUndefined;
                  l_notices := [] |});
    Ok {| l_https := l_https v; l_port := l_port v;
          l_scriptName := l_scriptName v;
          l_storybookUrl :=
            JStr ((if truthy (l_https v) then "https" else "http")
                  +:+ "://localhost:" +:+ js_to_string (l_port v));
          l_notices := l_notices v |}.

(** [!!flags.patchBuild] *)
Definition patchGiven (f : Flags.t) : bool :=
  negb (String.eqb (default "" (Flags.patchBuild f)) "").

(** Lines 75-77. *)
Definition checkProjectToken (options : Options.t) : Result unit :=
  if negb (truthy (Options.projectToken options))
  then throw MissingProjectToken
  else Ok tt.

(** Lines 79-86. *)
Definition checkPatchBuild (f : Flags.t) (options : Options.t) : Result unit :=
  if patchGiven f then
    if negb (truthy (Options.patchHeadRef options))
       || negb (truthy (Options.patchBaseRef options))
    then throw InvalidPatchBuild
    else if strictEq (Options.patchHeadRef options) (Options.patchBaseRef options)
    then throw DuplicatePatchBuild
    else Ok tt
  else Ok tt.

(** Lines 105-109. *)
Definition checkSingularOptions (options : Options.t) : Result unit :=
  let found := foundSingularOpts options in
  if (1 <? length found)%nat
  then throw (InvalidSingularOptions (map singularLabel found))
  else Ok tt.

(** Lines 116-122. *)
Definition checkExitOnceUploaded (options : Options.t) (noStart : bool)
    (scriptName : JsVal) : Result unit :=
  if noStart && truthy (Options.exitOnceUploaded options)
  then throw InvalidExitOnceUploaded
  else if truthy scriptName && truthy (Options.exitOnceUploaded options)
  then throw InvalidExitOnceUploaded
  else Ok tt.

(** Lines 88-185, after the token and the patch-build arguments have been
    checked.  The result carries the notices sent to the logger. *)
Definition resolve (packageJson : Manifest) (logging : bool)
    (options : Options.t) : Result (Resolved.t * list Notice) :=
  let storybookBuildDir := Options.storybookBuildDir options in
  let exec := Options.exec options in
  let port := Options.port options in
  let storybookUrl := Options.storybookUrl options in
  let noStart := Options.noStart options in
  let scriptName := Options.scriptName options in
  let buildScriptName := Options.buildScriptName options in
  let https :=
    js_and (Options.https options)
           (tlsObject (Options.cert options) (Options.key options)
                      (Options.ca options)) in
  try _ <- checkSingularOptions options;
  let noStart := if truthy storybookUrl then true else noStart in
  try _ <- checkExitOnceUploaded options noStart scriptName;
  if negb (truthy scriptName) && negb (truthy exec) && negb noStart
     && negb (truthy storybookUrl) && negb (truthy port)
  then
    if truthy storybookBuildDir
    then Ok (Resolved.mk options true (Options.buildScriptName options)
               (Options.https options) JUndefined
               (Options.scriptName options), [])
    else
      let buildScriptName := stringOr buildScriptName "build-storybook" in
      if entryTruthy (lookupScript packageJson buildScriptName)
      then Ok (Resolved.mk options true (JStr buildScriptName)
                 (Options.https options) JUndefined
                 (Options.scriptName options), [])
      else throw (MissingBuildScriptName buildScriptName)
  else
    try v <-
      (if negb (truthy storybookUrl)
       then startLocally packageJson logging exec noStart https port scriptName
       else Ok {| l_https := https; l_port := port;
                  l_scriptName := scriptName;
                  l_storybookUrl := storybookUrl; l_notices := [] |});
    try url <- finalizeUrl (l_storybookUrl v);
    Ok (Resolved.mk options noStart (Options.buildScriptName options)
          (l_https v) (JStr url) (l_scriptName v), l_notices v).

(** Lines 28-186. *)
Definition getOptions (input : Input) : Result (Resolved.t * list Notice) :=
  let options := normalize (flags input) (argv input) in
  try _ <- checkProjectToken options;
  try _ <- checkPatchBuild (flags input) options;
  resolve (packageJson input) (log input) options.

End GetOptions.

(** ** A concrete environment *)

(** Modelled from the spec: the helper [./getStorybookConfiguration], whose
    source is not in this module.  The command string is cut into tokens at
    blanks and at [=]; the switch is looked for under its long name and then
    under its short name; a switch that is present gives the token that
    follows it (or [true] when it is the last token, its presence being what
    counts), a switch that is absent gives [undefined]. *)
Module Helper.

Definition separator (c : ascii) : bool :=
  Ascii.eqb c " " || Ascii.eqb c "009" || Ascii.eqb c "010" || Ascii.eqb c "=".

Fixpoint tokens_go (s : string) (cur : string) : list string :=
  match s with
  | EmptyString => [cur]
  | String c s' =>
      if separator c then cur :: tokens_go s' ""
      else tokens_go s' (cur +:+ String c "")
  end.

Definition tokens (s : string) : list string := filterBoolean (tokens_go s "").

Fixpoint after (name : string) (toks : list string) : option JsVal :=
  match toks with
  | [] => None
  | t :: rest =>
      if String.eqb t name
      then Some (match rest with v :: _ => JStr v | [] => JBool true end)
      else after name rest
  end.

Definition getStorybookConfiguration (storybookScript shortName : string)
    (longName : option string) : JsVal :=
  let toks := tokens storybookScript in
  match longName ≫= (fun name => after name toks) with
  | Some v => v
  | None => default JUndefined (after shortName toks)
  end.

End Helper.

(** A POSIX platform for concrete runs: [path.join] puts a slash between its
    arguments and merges repeated slashes, [path.resolve] prefixes a relative
    path with the working directory; dot segments are left alone. *)
Module Posix.

Fixpoint squeeze (s : string) : string :=
match s with
| EmptyString => EmptyString
| String c s' =>
    match s' with
    | String d _ =>
        if Ascii.eqb c "/" && Ascii.eqb d "/" then squeeze s'
        else String c (squeeze s')
    | EmptyString => String c EmptyString
    end
end.

Fixpoint dropSlashes (s : string) : string :=
match s with
| String c s' => if Ascii.eqb c "/" then dropSlashes s' else s
| EmptyString => EmptyString
end.

Definition join (a b : string) : string := squeeze (a +:+ "/" +:+ b).

Definition resolve (cwd p : string) : string :=
String "/" (dropSlashes
  (squeeze (if String.prefix "/" p then p else cwd +:+ "/" +:+ p))).

End Posix.

(** No token and no toggles in the process environment; HOME and the
    working directory are fixed. *)
#[local] Instance sampleEnv : Environment := {|
  CHROMATIC_CREATE_TUNNEL := JUndefined;
  CHROMATIC_PROJECT_TOKEN := JUndefined;
  CHROMATIC_INDEX_URL := JStr "https://index.chromatic.com";
  CHROMATIC_TUNNEL_URL := JStr "https://tunnel.chromaticqa.com";
  HOME := JStr "/home/user";
  path_resolve := Posix.resolve "/project";
  path_resolve_absolute := ltac:(intros p; discriminate);
  path_join := Posix.join;
  getStorybookConfiguration := Helper.getStorybookConfiguration;
|}.

(** ** Vocabulary of the properties *)

(** [Array.isArray(v)] *)
Definition isArray (v : JsVal) : bool :=
  match v with JArr _ => true | _ => false end.

(** The patch-build argument is absent (or empty), or it has two distinct
    references: the checks of lines 79-86 let the input through. *)
Definition patchAccepted (f : Flags.t) : Prop :=
  patchGiven f = false \/
  exists head base rest, patchRefs f = head :: base :: rest /\ head <> base.

(** The kinds of error thrown after line 86. *)
Definition thrownLate (kind : ErrorKind) : Prop :=
  match kind with
  | MissingProjectToken | InvalidPatchBuild | DuplicatePatchBuild => False
  | _ => True
  end.

(** The five singular selectors of a normalised record. *)
Definition selectors (options : Options.t) : list (string * JsVal) :=
  [ ("--build-script-name", Options.buildScriptName options);
    ("--script-name", Options.scriptName options);
    ("--exec", Options.exec options);
    ("--storybook-url", Options.storybookUrl options);
    ("--storybook-build-dir", Options.storybookBuildDir options) ].

(** The labels of the selectors that are truthy. *)
Definition truthySelectors (options : Options.t) : list string :=
  fst <$> filter (fun kv => truthy (snd kv) = true) (selectors options).

(** [{ ...input, packageJson }] *)
Definition withManifest (input : Input) (pj : Manifest) : Input :=
  {| flags := flags input; argv := argv input; log := log input;
     packageJson := pj |}.

(** ** Sample inputs *)

Definition sampleInput (f : Flags.t) (table : list (string * string)) : Input :=
  {| flags := f; argv := JArr []; log := true;
     packageJson := {| scripts := Some (list_to_map table) |} |}.

Definition token : string * JsVal := ("projectToken", JStr "tok").

Definition flagsRepeatedToken : Flags.t :=
  Flags.ofList None DirAbsent
    [("projectToken", JArr [JStr "a"; JStr ""]); ("appCode", JStr "legacy")].

Definition flagsTokenOnly : Flags.t := Flags.ofList None DirAbsent [token].

Definition flagsPatch (patch : string) : Flags.t :=
  Flags.ofList (Some patch) DirAbsent [token].

Definition flagsThreeSelectors : Flags.t :=
  Flags.ofList None DirAbsent
    [token; ("scriptName", JStr ""); ("exec", JStr "serve");
     ("storybookUrl", JStr "http://localhost:6006")].

Definition flagsUrl (url : string) : Flags.t :=
  Flags.ofList None DirAbsent [token; ("storybookUrl", JStr url)].

Definition flagsUrlExit : Flags.t :=
  Flags.ofList None DirAbsent
    [token; ("storybookUrl", JStr "http://localhost:6006");
     ("exitOnceUploaded", JStr "")].

Definition flagsSentinelExit : Flags.t :=
  Flags.ofList None DirAbsent
    [token; ("storybookUrl", JStr ""); ("exitOnceUploaded", JBool true)].

Definition flagsBuildDir : Flags.t :=
  Flags.ofList None (DirValues "storybook-static" ["other"]) [token].

Definition flagsScriptName : Flags.t :=
  Flags.ofList None DirAbsent [token; ("scriptName", JStr "")].

Definition flagsCallerCert : Flags.t :=
  Flags.ofList None DirAbsent
    [token; ("scriptName", JStr ""); ("storybookCert", JStr "./mine.pem")].

Definition flagsCallerTls : Flags.t :=
  Flags.ofList None DirAbsent
    [token; ("scriptName", JStr ""); ("storybookHttps", JBool true);
     ("storybookCert", JStr "./mine.pem"); ("storybookPort", JStr "7007")].

Definition flagsUrlTilde : Flags.t :=
  Flags.ofList None DirAbsent
    [token; ("storybookUrl", JStr "http://localhost:6006");
     ("storybookHttps", JBool true); ("storybookCert", JStr "~/c.pem")].

Definition resolvedUrl : Resolved.t :=
  Resolved.mk (normalize (flagsUrl "http://localhost:6006") (JArr [])) true
    JUndefined JUndefined (JStr "http://localhost:6006/iframe.html") JUndefined.

Definition resolvedCallerTls : Resolved.t :=
  Resolved.mk (normalize flagsCallerTls (JArr [])) false JUndefined
    (tlsObject (JStr "./mine.pem") JUndefined JUndefined)
    (JStr "https://localhost:7007/iframe.html") (JStr "storybook").

Definition plainScript : string := "start-storybook -p 9009".

Definition tlsScript : string :=
  "start-storybook -p 9009 --https --ssl-cert=./c.pem --ssl-key=./k.pem".

(** ** Vocabulary of the further properties *)

(** [{ ...input, log }] *)
Definition withLog (input : Input) (lg : bool) : Input :=
  {| flags := flags input; argv := argv input; log := lg;
     packageJson := packageJson input |}.

Definition mapResult {A B} (f : A -> B) (r : Result A) : Result B :=
  try a <- r; Ok (f a).

(** The configuration of an outcome, the notices put aside. *)
Definition configOf (r : Result (Resolved.t * list Notice)) : Result Resolved.t :=
  mapResult fst r.

(** What lines 137-168 assign, the notices put aside. *)
Definition localsCore (v : Locals) : JsVal * JsVal * JsVal * JsVal :=
  (l_https v, l_port v, l_scriptName v, l_storybookUrl v).

(** The separator occurs somewhere in the string. *)
Fixpoint occursIn (sep s : string) : bool :=
  String.prefix sep s
  || match s with
     | String _ s' => occursIn sep s'
     | EmptyString => false
     end.

Fixpoint endsWithDot (s : string) : bool :=
  match s with
  | EmptyString => false
  | String c EmptyString => Ascii.eqb c "."
  | String _ s' => endsWithDot s'
  end.

(** A port written in decimal digits. *)
Definition isDigit (c : ascii) : bool :=
  let n := nat_of_ascii c in (48 <=? n)%nat && (n <=? 57)%nat.

Definition decimal (s : string) : bool :=
  Url.nonempty (Url.chars s) && forallb isDigit (Url.chars s).

(** Characters that Node's parser leaves as they are: in a host name, and
    in a path, a query or a fragment. *)
Definition hostChar (c : ascii) : bool :=
  let n := nat_of_ascii c in
  ((97 <=? n)%nat && (n <=? 122)%nat) || isDigit c
  || Ascii.eqb c "." || Ascii.eqb c "-".

Definition plainChar (c : ascii) : bool :=
  let n := nat_of_ascii c in
  ((97 <=? n)%nat && (n <=? 122)%nat) || ((65 <=? n)%nat && (n <=? 90)%nat)
  || isDigit c
  || Ascii.eqb c "-" || Ascii.eqb c "." || Ascii.eqb c "_" || Ascii.eqb c "~"
  || Ascii.eqb c "%" || Ascii.eqb c "=" || Ascii.eqb c "&" || Ascii.eqb c "+".

Definition pathChar (c : ascii) : bool := plainChar c || Ascii.eqb c "/".
Definition queryChar (c : ascii) : bool := pathChar c || Ascii.eqb c "?".
Definition fragmentChar (c : ascii) : bool := queryChar c || Ascii.eqb c "#".

(** No run of characters between dots is longer than the limit. *)
Fixpoint labelsWithin (limit run : nat) (h : list ascii) : bool :=
  match h with
  | [] => true
  | c :: h' =>
      if Ascii.eqb c "." then labelsWithin limit 0 h'
      else (S run <=? limit)%nat && labelsWithin limit (S run) h'
  end.

(** A host name that the parser keeps as it is written: lower-case
    letters, digits, dots and hyphens, no label in the IDNA encoding, no
    label of more than 63 characters and no more than 255 characters in
    all. *)
Definition hostName (h : list ascii) : bool :=
  Url.nonempty h && forallb hostChar h
  && negb (occursIn "xn--" (string_of_list_ascii h))
  && labelsWithin 63 0 h
  && (length h <=? 255)%nat.

(** No host, or a host name that may be followed by a colon and a port in
    decimal digits. *)
Definition hostPort (h : list ascii) : bool :=
  match h with
  | [] => true
  | _ =>
      let (name, rest) := Url.break (Url.isChar ":") h in
      hostName name
      && match rest with
         | [] => true
         | _ :: digits => Url.nonempty digits && forallb isDigit digits
         end
  end.

(** The characters of a URL that the parser neither trims, folds nor
    escapes, wherever they stand. *)
Definition urlChar (c : ascii) : bool :=
  let n := nat_of_ascii c in
  ((97 <=? n)%nat && (n <=? 122)%nat) || isDigit c
  || Ascii.eqb c "-" || Ascii.eqb c "." || Ascii.eqb c "_" || Ascii.eqb c "~"
  || Ascii.eqb c "/" || Ascii.eqb c "=" || Ascii.eqb c "&" || Ascii.eqb c "+"
  || Ascii.eqb c ":" || Ascii.eqb c "?" || Ascii.eqb c "#".

(** The strings on which the model of the parser is exact: written in
    those characters, with a host that is kept as it is written, and not
    of the scheme [javascript:]. *)
Definition plainUrl (s : string) : bool :=
  forallb urlChar (Url.chars s)
  && hostPort (Url.host (Url.parse s))
  && negb (bool_decide (Url.protocol (Url.parse s) = Url.chars "javascript:")).

(** A part of a URL that is absent or begins with its mark. *)
Definition marked (mark : ascii) (s : string) : bool :=
  match s with
  | EmptyString => true
  | String c _ => Ascii.eqb c mark
  end.

(** The condition of line 125: Storybook is built. *)
Definition building (options : Options.t) : bool :=
  negb (truthy (Options.scriptName options))
  && negb (truthy (Options.exec options))
  && negb (Options.noStart options)
  && negb (truthy (Options.storybookUrl options))
  && negb (truthy (Options.port options)).

(** The conditions of lines 125, 137 and 142 together: the start script of
    the manifest is looked up. *)
Definition inferring (options : Options.t) : bool :=
  negb (building options)
  && negb (truthy (Options.storybookUrl options))
  && negb (truthy (Options.exec options))
  && (negb (truthy (Options.port options)) || negb (Options.noStart options)).

(** [options.https && { cert, key, ca }] of lines 91-95. *)
Definition callerHttps (options : Options.t) : JsVal :=
  js_and (Options.https options)
         (tlsObject (Options.cert options) (Options.key options)
                    (Options.ca options)).

(** The URL of line 167 after lines 170-183, for a port in decimal digits. *)
Definition localhostUrl (https port : JsVal) : string :=
  (if truthy https then "https" else "http")
  +:+ "://localhost:" +:+ js_to_string port +:+ "/iframe.html".

(** The four validations of lines 75-122 let the input through. *)
Definition validated {env : Environment} (input : Input) : Prop :=
  let options := normalize (flags input) (argv input) in
  truthy (Options.projectToken options) = true
  /\ patchAccepted (flags input)
  /\ length (truthySelectors options) <= 1
  /\ checkExitOnceUploaded options
       (if truthy (Options.storybookUrl options) then true
        else Options.noStart options)
       (Options.scriptName options) = Ok tt.

(** ** Further sample inputs *)

Definition flagsTokenTwice : Flags.t :=
  Flags.ofList None DirAbsent
    [("projectToken", JArr [JStr "old"; JStr "new"]); ("appCode", JStr "legacy")].

Definition flagsExec : Flags.t :=
  Flags.ofList None DirAbsent [token; ("exec", JStr "npm run serve")].

Definition flagsExecPort : Flags.t :=
  Flags.ofList None DirAbsent
    [token; ("exec", JStr "npm run serve"); ("storybookPort", JNum 9001)].

Definition resolvedExecPort : Resolved.t :=
  Resolved.mk (normalize flagsExecPort (JArr [])) false JUndefined JUndefined
    (JStr "http://localhost:9001/iframe.html") JUndefined.

Definition resolvedFromScript : Resolved.t :=
  Resolved.mk (normalize flagsScriptName (JArr [])) false JUndefined JUndefined
    (JStr "http://localhost:9009/iframe.html") (JStr "storybook").

(** * Properties *)

Section Properties.
Context {env : Environment}.

Lemma resolveHomeDir_raises v e : resolveHomeDir v = Raise e -> e = JsTypeError.
Proof.
  unfold resolveHomeDir. intros H.
  repeat case_match; simplify_eq; reflexivity.
Qed.

Lemma scriptSwitch_raises entry short long e :
  scriptSwitch entry short long = Raise e -> e = JsTypeError.
Proof. destruct entry; simpl; intros; simplify_eq; reflexivity. Qed.

Lemma bind_raises {A B} (r : Result A) (k : A -> Result B) e :
  bind r k = Raise e -> r = Raise e \/ exists a, r = Ok a /\ k a = Raise e.
Proof. destruct r; simpl; intros; simplify_eq; eauto. Qed.

Lemma bind_ok {A B} (r : Result A) (k : A -> Result B) b :
  bind r k = Ok b -> exists a, r = Ok a /\ k a = Ok b.
Proof. destruct r; simpl; intros; simplify_eq; eauto. Qed.

Ltac raised :=
  repeat match goal with
  | H : bind _ _ = Raise _ |- _ =>
      apply bind_raises in H; destruct H as [H | (? & ? & H)]
  | H : resolveHomeDir _ = Raise _ |- _ => apply resolveHomeDir_raises in H
  | H : scriptSwitch _ _ _ = Raise _ |- _ => apply scriptSwitch_raises in H
  | H : (if ?b then _ else _) = Raise _ |- _ => destruct b eqn:?
  | H : Ok _ = Raise _ |- _ => discriminate H
  | H : throw _ = Raise _ |- _ => unfold throw in H
  | H : Raise _ = Raise _ |- _ => injection H as H
  end.

Lemma inferHttps_raises https entry e :
  inferHttps https entry = Raise e -> e = JsTypeError.
Proof. unfold inferHttps. intros H. raised; subst; auto. Qed.

Lemma inferPort_raises port entry e :
  inferPort port entry = Raise e -> e = JsTypeError.
Proof. unfold inferPort. intros H. raised; subst; auto. Qed.

Lemma inferFromScript_raises pj lg https port name e :
  inferFromScript pj lg https port name = Raise e ->
  e = JsTypeError
  \/ e = Failure (MissingScriptName (stringOr name "storybook"))
  \/ e = Failure (UnknownStorybookPort (stringOr name "storybook")).
Proof.
  unfold inferFromScript. intros H. raised; subst; auto.
  - apply inferHttps_raises in H. auto.
  - apply inferPort_raises in H. auto.
Qed.

Lemma startLocally_raises pj lg exec noStart https port name e :
  startLocally pj lg exec noStart https port name = Raise e ->
  e = JsTypeError
  \/ e = Failure MissingStorybookPort
  \/ e = Failure (MissingScriptName (stringOr name "storybook"))
  \/ e = Failure (UnknownStorybookPort (stringOr name "storybook")).
Proof.
  unfold startLocally. intros H. raised; subst; auto.
  apply inferFromScript_raises in H. tauto.
Qed.

Lemma finalizeUrl_raises v e : finalizeUrl v = Raise e -> e = JsTypeError.
Proof.
  unfold finalizeUrl. intros H. repeat case_match; simplify_eq; reflexivity.
Qed.

(** The checks written out as the nested conditionals of the source. *)
Lemma resolve_steps pj lg options :
  resolve pj lg options
  =
    let storybookBuildDir := Options.storybookBuildDir options in
    let exec := Options.exec options in
    let port := Options.port options in
    let storybookUrl := Options.storybookUrl options in
    let noStart := Options.noStart options in
    let scriptName := Options.scriptName options in
    let buildScriptName := Options.buildScriptName options in
    let https :=
      js_and (Options.https options)
             (tlsObject (Options.cert options) (Options.key options)
                        (Options.ca options)) in
    let found := foundSingularOpts options in
    if (1 <? length found)%nat
    then throw (InvalidSingularOptions (map singularLabel found))
    else
      let noStart := if truthy storybookUrl then true else noStart in
      if noStart && truthy (Options.exitOnceUploaded options)
      then throw InvalidExitOnceUploaded
      else if truthy scriptName && truthy (Options.exitOnceUploaded options)
      then throw InvalidExitOnceUploaded
      else if negb (truthy scriptName) && negb (truthy exec) && negb noStart
              && negb (truthy storybookUrl) && negb (truthy port)
      then
        if truthy storybookBuildDir
        then Ok (Resolved.mk options true (Options.buildScriptName options)
                   (Options.https options) JUndefined
                   (Options.scriptName options), [])
        else
          let buildScriptName := stringOr buildScriptName "build-storybook" in
          if entryTruthy (lookupScript pj buildScriptName)
          then Ok (Resolved.mk options true (JStr buildScriptName)
                     (Options.https options) JUndefined
                     (Options.scriptName options), [])
          else throw (MissingBuildScriptName buildScriptName)
      else
        try v <-
          (if negb (truthy storybookUrl)
           then startLocally pj lg exec noStart https port scriptName
           else Ok {| l_https := https; l_port := port;
                      l_scriptName := scriptName;
                      l_storybookUrl := storybookUrl; l_notices := [] |});
        try url <- finalizeUrl (l_storybookUrl v);
        Ok (Resolved.mk options noStart (Options.buildScriptName options)
              (l_https v) (JStr url) (l_scriptName v), l_notices v).
Proof.
  unfold resolve, checkSingularOptions, checkExitOnceUploaded. cbv zeta.
  destruct (1 <? length (foundSingularOpts options))%nat; [reflexivity|].
  cbn [bind].
  destruct ((if truthy (Options.storybookUrl options) then true
             else Options.noStart options)
            && truthy (Options.exitOnceUploaded options)); [reflexivity|].
  destruct (truthy (Options.scriptName options)
            && truthy (Options.exitOnceUploaded options)); reflexivity.
Qed.

Lemma getOptions_steps input :
  getOptions input
  =
    let options := normalize (flags input) (argv input) in
    if negb (truthy (Options.projectToken options)) then throw MissingProjectToken
    else if patchGiven (flags input)
            && (negb (truthy (Options.patchHeadRef options))
                || negb (truthy (Options.patchBaseRef options)))
    then throw InvalidPatchBuild
    else if patchGiven (flags input)
            && strictEq (Options.patchHeadRef options) (Options.patchBaseRef options)
    then throw DuplicatePatchBuild
    else resolve (packageJson input) (log input) options.
Proof.
  unfold getOptions, checkProjectToken, checkPatchBuild. cbv zeta.
  destruct (negb (truthy (Options.projectToken _))); [reflexivity|].
  cbn [bind]. destruct (patchGiven (flags input)); [|reflexivity].
  cbn [andb].
  destruct (negb (truthy (Options.patchHeadRef _))
            || negb (truthy (Options.patchBaseRef _))); [reflexivity|].
  destruct (strictEq _ _); reflexivity.
Qed.

(** Past line 86 only the six later kinds of error are thrown. *)
Lemma resolve_raises pj lg options kind :
  resolve pj lg options = Raise (Failure kind) -> thrownLate kind.
Proof.
  rewrite resolve_steps. cbv zeta. intros H. raised; simplify_eq; simpl; auto.
  - apply startLocally_raises in H.
    destruct H as [H | [H | [H | H]]]; simplify_eq; simpl; auto.
  - apply finalizeUrl_raises in H. discriminate.
Qed.


Lemma patchRefs_nonempty f x : x ∈ patchRefs f -> x <> "".
Proof.
  unfold patchRefs, filterBoolean. intros H.
  apply list_elem_of_filter in H. tauto.
Qed.

Lemma truthy_JStr s : truthy (JStr s) = true <-> s <> "".
Proof.
  simpl. destruct (String.eqb_spec s ""); split; intros; try congruence; auto.
Qed.

Lemma selectors_found options :
  truthySelectors options = map singularLabel (foundSingularOpts options).
Proof.
  unfold truthySelectors, foundSingularOpts, selectors, singularOpts.
  simpl.
  destruct (truthy (Options.buildScriptName options)) eqn:E1.
  all: destruct (truthy (Options.scriptName options)) eqn:E2.
  all: destruct (truthy (Options.exec options)) eqn:E3.
  all: destruct (truthy (Options.storybookUrl options)) eqn:E4.
  all: destruct (truthy (Options.storybookBuildDir options)) eqn:E5.
  all: cbn.
  all: rewrite ?E1, ?E2, ?E3, ?E4, ?E5.
  all: reflexivity.
Qed.

Lemma selectors_functional options label v w :
  (label, v) ∈ selectors options -> (label, w) ∈ selectors options -> v = w.
Proof.
  unfold selectors. rewrite !elem_of_cons, !elem_of_nil.
  intros H1 H2. destruct_or!; simplify_eq; reflexivity.
Qed.

Lemma selectors_found_length options :
  length (truthySelectors options) = length (foundSingularOpts options).
Proof. rewrite selectors_found. apply length_map. Qed.

(** What lines 75-86 do, by the shape of the patch-build argument. *)
Lemma getOptions_no_token input :
  truthy (Options.projectToken (normalize (flags input) (argv input))) = false ->
  getOptions input = throw MissingProjectToken.
Proof. intros H. rewrite getOptions_steps. cbv zeta. rewrite H. reflexivity. Qed.

Lemma patch_refs_two f h b rest :
  patchRefs f = h :: b :: rest ->
  truthy (ofOption (patchRefs f !! 0%nat)) = true
  /\ truthy (ofOption (patchRefs f !! 1%nat)) = true
  /\ strictEq (ofOption (patchRefs f !! 0%nat)) (ofOption (patchRefs f !! 1%nat))
     = String.eqb h b.
Proof.
  intros Hrefs. pose proof (patchRefs_nonempty f) as Hne.
  rewrite Hrefs in *. simpl.
  assert (h <> "") by (apply Hne; set_solver).
  assert (b <> "") by (apply Hne; set_solver).
  repeat split; apply truthy_JStr; assumption.
Qed.

Lemma patch_refs_short f :
  length (patchRefs f) < 2 ->
  negb (truthy (ofOption (patchRefs f !! 0%nat)))
  || negb (truthy (ofOption (patchRefs f !! 1%nat))) = true.
Proof.
  destruct (patchRefs f) as [|h [|b rest]]; simpl; intros; try lia; auto.
Qed.

Lemma getOptions_validated input :
  truthy (Options.projectToken (normalize (flags input) (argv input))) = true ->
  patchAccepted (flags input) ->
  getOptions input
  = resolve (packageJson input) (log input)
            (normalize (flags input) (argv input)).
Proof.
  intros Htok Hpatch. rewrite getOptions_steps. cbv zeta. rewrite Htok.
  cbn [negb]. destruct Hpatch as [Hno | (h & b & rest & Hrefs & Hne)].
  - rewrite Hno. reflexivity.
  - destruct (patch_refs_two _ _ _ _ Hrefs) as (Hh & Hb & Heq).
    cbn [Options.patchHeadRef Options.patchBaseRef normalize].
    rewrite Hh, Hb, Heq.
    destruct (String.eqb_spec h b); [contradiction|].
    rewrite !andb_false_r. reflexivity.
Qed.

Lemma resolve_not_singular pj lg options labels :
  length (truthySelectors options) <= 1 ->
  resolve pj lg options <> throw (InvalidSingularOptions labels).
Proof.
  intros H. rewrite selectors_found_length in H.
  rewrite resolve_steps. cbv zeta.
  destruct (Nat.ltb_spec 1 (length (foundSingularOpts options))); [lia|].
  unfold throw. intros Hr. raised; simplify_eq.
  - apply startLocally_raises in Hr.
    destruct Hr as [Hr | [Hr | [Hr | Hr]]]; simplify_eq.
  - apply finalizeUrl_raises in Hr. discriminate.
Qed.

(** C1, as amended.  When the projectToken flag, the appCode flag and the
    environment default are all falsy, resolution fails with
    MissingProjectToken.  Otherwise the first truthy one of the two flags is
    taken and, when it is the array of a repeated flag, reduced to its last
    element; that value is the token if it is truthy, else the environment
    default is; the token check passes exactly when the value so obtained
    is truthy.  For flags that are not arrays this is the first truthy one
    of projectToken flag, appCode flag and environment default. *)
Theorem token_fallback_chain (input : Input) :
  let f := flags input in
  let token :=
    js_or (takeLast (js_or (Flags.projectToken f) (Flags.appCode f)))
          CHROMATIC_PROJECT_TOKEN in
  (truthy (Flags.projectToken f) = false ->
   truthy (Flags.appCode f) = false ->
   truthy CHROMATIC_PROJECT_TOKEN = false ->
   getOptions input = throw MissingProjectToken)
  /\ Options.projectToken (normalize f (argv input)) = token
  /\ (truthy token = false -> getOptions input = throw MissingProjectToken)
  /\ (truthy token = true -> getOptions input <> throw MissingProjectToken)
  /\ (isArray (Flags.projectToken f) = false ->
      isArray (Flags.appCode f) = false ->
      token = js_or (js_or (Flags.projectToken f) (Flags.appCode f))
                    CHROMATIC_PROJECT_TOKEN).
Proof.
  cbv zeta. repeat split.
  - intros Hp Ha He. apply getOptions_no_token.
    cbn [normalize Options.projectToken]. unfold js_or.
    rewrite Hp.
    assert (Hlast : takeLast (Flags.appCode (flags input))
                    = Flags.appCode (flags input)).
    { destruct (Flags.appCode (flags input)); try reflexivity. discriminate. }
    rewrite Hlast, Ha. exact He.
  - intros H. apply getOptions_no_token. exact H.
  - intros H Hthrow. rewrite getOptions_steps in Hthrow. cbv zeta in Hthrow.
    cbn [normalize Options.projectToken] in Hthrow. rewrite H in Hthrow.
    cbn [negb] in Hthrow. unfold throw in Hthrow.
    raised; simplify_eq.
    apply resolve_raises in Hthrow. exact Hthrow.
  - intros Hp Ha. unfold js_or at 2 4.
    destruct (truthy (Flags.projectToken (flags input)));
      [destruct (Flags.projectToken (flags input))
      |destruct (Flags.appCode (flags input))]; simplify_eq; reflexivity.
Qed.

Lemma checkPatchBuild_passes f options :
  checkPatchBuild f options = Ok tt ->
  forall pj lg kind,
    bind (checkPatchBuild f options) (fun _ => resolve pj lg options)
    = throw kind ->
    thrownLate kind.
Proof.
  intros -> pj lg kind. cbn [bind]. apply resolve_raises.
Qed.

(** C2.  When the patchBuild flag is a non-empty string whose segments
    between the separators [...], the empty ones dropped, do not give both a
    head and a base reference, the patch-build check throws
    InvalidPatchBuild; when both are there and equal (as in "a...a") it
    throws DuplicatePatchBuild; when they differ, or when the flag is absent,
    the check passes.  Resolution fails with the error the check throws on
    every input that carries a token (the token check comes first), and
    whenever the check passes resolution raises neither of the two errors. *)
Theorem patch_build_validation (input : Input) :
  let f := flags input in
  let options := normalize f (argv input) in
  (forall s,
     Flags.patchBuild f = Some s -> s <> "" ->
     let refs := filterBoolean (split "..." s) in
     (length refs < 2 -> checkPatchBuild f options = throw InvalidPatchBuild)
     /\ (forall head base rest,
           refs = head :: base :: rest ->
           (head = base ->
            checkPatchBuild f options = throw DuplicatePatchBuild)
           /\ (head <> base -> checkPatchBuild f options = Ok tt)))
  /\ (Flags.patchBuild f = None -> checkPatchBuild f options = Ok tt)
  /\ (forall kind,
        checkPatchBuild f options = throw kind ->
        truthy (Options.projectToken options) = true ->
        getOptions input = throw kind)
  /\ (checkPatchBuild f options = Ok tt ->
      getOptions input <> throw InvalidPatchBuild
      /\ getOptions input <> throw DuplicatePatchBuild).
Proof.
  cbv zeta. split; [|split; [|split]].
  - intros s Hs Hne. cbv zeta.
    assert (Hgiven : patchGiven (flags input) = true).
    { unfold patchGiven. rewrite Hs. simpl.
      destruct (String.eqb_spec s ""); [contradiction | reflexivity]. }
    assert (Hrefs : patchRefs (flags input) = filterBoolean (split "..." s)).
    { unfold patchRefs. rewrite Hs. reflexivity. }
    rewrite <- Hrefs. unfold checkPatchBuild. rewrite Hgiven.
    cbn [normalize Options.patchHeadRef Options.patchBaseRef]. split.
    + intros Hshort. rewrite (patch_refs_short _ Hshort). reflexivity.
    + intros head base rest Hr.
      destruct (patch_refs_two _ _ _ _ Hr) as (Hh & Hb & Heq).
      rewrite Hh, Hb, Heq. cbn [negb orb]. split.
      * intros ->. rewrite String.eqb_refl. reflexivity.
      * intros Hdiff. destruct (String.eqb_spec head base);
          [contradiction | reflexivity].
  - intros Hs. unfold checkPatchBuild, patchGiven. rewrite Hs. reflexivity.
  - intros kind Hthrow Htok. unfold getOptions, checkProjectToken. cbv zeta.
    rewrite Htok. cbn [negb bind]. rewrite Hthrow. reflexivity.
  - intros Hpass. unfold getOptions, checkProjectToken. cbv zeta.
    destruct (negb (truthy (Options.projectToken _))); [split; discriminate|].
    cbn [bind].
    split; intros Hthrow;
      apply (checkPatchBuild_passes _ _ Hpass) in Hthrow; exact Hthrow.
Qed.

Lemma truthySelectors_le1 options :
  length (truthySelectors options) <= 1 ->
  (1 <? length (foundSingularOpts options))%nat = false.
Proof.
  rewrite selectors_found_length. intros H.
  destruct (Nat.ltb_spec 1 (length (foundSingularOpts options))); [lia | reflexivity].
Qed.

(** C3.  When two or more of the five singular selectors are truthy after
    normalisation, the singular-options check throws InvalidSingularOptions
    and the error carries the flag label of every truthy selector (a label
    is listed exactly when its selector is truthy); with at most one truthy
    selector the check passes.  Resolution fails with the error the check
    throws on every input that passed the token and patch-build checks,
    which come first, and whenever the check passes resolution does not
    raise InvalidSingularOptions. *)
Theorem singular_options_check (input : Input) :
  let options := normalize (flags input) (argv input) in
  (2 <= length (truthySelectors options) ->
   checkSingularOptions options
   = throw (InvalidSingularOptions (truthySelectors options)))
  /\ (forall label value,
        (label, value) ∈ selectors options ->
        (label ∈ truthySelectors options <-> truthy value = true))
  /\ (length (truthySelectors options) <= 1 ->
      checkSingularOptions options = Ok tt)
  /\ (forall kind,
        checkSingularOptions options = throw kind ->
        truthy (Options.projectToken options) = true ->
        patchAccepted (flags input) ->
        getOptions input = throw kind)
  /\ (checkSingularOptions options = Ok tt ->
      forall labels, getOptions input <> throw (InvalidSingularOptions labels)).
Proof.
  cbv zeta. split; [|split; [|split; [|split]]].
  - intros H. unfold checkSingularOptions. cbv zeta.
    rewrite selectors_found_length in H.
    destruct (Nat.ltb_spec 1 (length (foundSingularOpts
                (normalize (flags input) (argv input))))); [|lia].
    rewrite selectors_found. reflexivity.
  - intros label value Hsel. unfold truthySelectors. split.
    + intros Hin. apply list_elem_of_fmap in Hin.
      destruct Hin as ([l v] & -> & Hin).
      apply list_elem_of_filter in Hin. destruct Hin as [Ht Hin].
      simpl in *. rewrite <- (selectors_functional _ _ _ _ Hin Hsel). exact Ht.
    + intros Ht. apply list_elem_of_fmap. exists (label, value).
      split; [reflexivity|]. apply list_elem_of_filter. split; assumption.
  - intros H. unfold checkSingularOptions. cbv zeta.
    rewrite (truthySelectors_le1 _ H). reflexivity.
  - intros kind Hthrow Htok Hpatch.
    rewrite (getOptions_validated _ Htok Hpatch). unfold resolve. cbv zeta.
    rewrite Hthrow. reflexivity.
  - intros Hpass labels Hthrow.
    assert (Hle : length (truthySelectors (normalize (flags input) (argv input)))
                  <= 1).
    { destruct (le_gt_dec (length (truthySelectors
                  (normalize (flags input) (argv input)))) 1) as [Hle|Hgt];
        [exact Hle|].
      unfold checkSingularOptions in Hpass. cbv zeta in Hpass.
      rewrite selectors_found_length in Hgt.
      destruct (Nat.ltb_spec 1 (length (foundSingularOpts
                  (normalize (flags input) (argv input))))); [discriminate|lia]. }
    rewrite getOptions_steps in Hthrow. cbv zeta in Hthrow.
    unfold throw in Hthrow. raised; simplify_eq.
    exact (resolve_not_singular _ _ _ _ Hle Hthrow).
Qed.


(** C4.  (a) Whenever resolution returns for an input whose storybookUrl is
    truthy, the returned noStart is true, whatever the doNotStart flag says.
    (b) When exitOnceUploaded is requested and noStart is true (given by the
    flag, or forced by a truthy storybookUrl) or the scriptName selector is
    set, the exitOnceUploaded check throws InvalidExitOnceUploaded, and
    resolution fails with it on every input that passed the token,
    patch-build and singular-selector checks, which come first. *)
Theorem exit_once_uploaded_check (input : Input) :
  let options := normalize (flags input) (argv input) in
  let noStart :=
    if truthy (Options.storybookUrl options) then true
    else truthy (Flags.doNotStart (flags input)) in
  (forall cfg notices,
     truthy (Options.storybookUrl options) = true ->
     getOptions input = Ok (cfg, notices) ->
     Resolved.noStart cfg = true)
  /\ (truthy (Options.exitOnceUploaded options) = true ->
      noStart = true \/ truthy (Options.scriptName options) = true ->
      checkExitOnceUploaded options noStart (Options.scriptName options)
      = throw InvalidExitOnceUploaded)
  /\ (forall kind,
        checkExitOnceUploaded options noStart (Options.scriptName options)
        = throw kind ->
        truthy (Options.projectToken options) = true ->
        patchAccepted (flags input) ->
        length (truthySelectors options) <= 1 ->
        getOptions input = throw kind).
Proof.
  cbv zeta. split; [|split].
  - intros cfg notices Hurl Hok. rewrite getOptions_steps in Hok. cbv zeta in Hok.
    repeat match type of Hok with
           | (if ?b then _ else _) = _ => destruct b; [discriminate Hok|]
           end.
    rewrite resolve_steps in Hok. cbv zeta in Hok. rewrite Hurl in Hok.
    cbn [negb andb] in Hok. rewrite !andb_false_r in Hok.
    repeat match type of Hok with
           | (if ?b then _ else _) = _ => destruct b; [discriminate Hok|]
           end.
    apply bind_ok in Hok. destruct Hok as (v & _ & Hok).
    apply bind_ok in Hok. destruct Hok as (u & _ & Hok).
    simplify_eq. reflexivity.
  - intros Hexit Hcase. unfold checkExitOnceUploaded. rewrite Hexit.
    destruct Hcase as [-> | ->]; [reflexivity|].
    rewrite !andb_true_r.
    destruct (if truthy (Options.storybookUrl _) then true else _); reflexivity.
  - intros kind Hthrow Htok Hpatch Hsel.
    rewrite (getOptions_validated _ Htok Hpatch). unfold resolve. cbv zeta.
    unfold checkSingularOptions. cbv zeta. rewrite (truthySelectors_le1 _ Hsel).
    cbn [bind]. change (Options.noStart (normalize (flags input) (argv input)))
      with (truthy (Flags.doNotStart (flags input))).
    rewrite Hthrow. reflexivity.
Qed.

(** C10, as amended.  On an input whose storybookUrl flag is present with no
    value, that carries a token and passes the patch-build, singular-selector
    and exitOnceUploaded checks, the candidate URL is the boolean true and
    resolution ends in the type error of the URL parser: it neither returns
    a configuration nor fails with one of the nine named kinds. *)
Theorem url_sentinel_type_error (input : Input) :
  let options := normalize (flags input) (argv input) in
  Flags.storybookUrl (flags input) = JStr "" ->
  truthy (Options.projectToken options) = true ->
  patchAccepted (flags input) ->
  length (truthySelectors options) <= 1 ->
  truthy (Options.exitOnceUploaded options) = false ->
  Options.storybookUrl options = JBool true
  /\ getOptions input = Raise JsTypeError
  /\ (forall cfg notices, getOptions input <> Ok (cfg, notices))
  /\ (forall kind, getOptions input <> throw kind).
Proof.
  cbv zeta. intros Hflag Htok Hpatch Hsel Hexit.
  assert (Hurl : Options.storybookUrl (normalize (flags input) (argv input))
                 = JBool true).
  { cbn [normalize Options.storybookUrl]. rewrite Hflag. reflexivity. }
  assert (Hres : getOptions input = Raise JsTypeError).
  { rewrite (getOptions_validated _ Htok Hpatch).
    rewrite resolve_steps. cbv zeta. rewrite (truthySelectors_le1 _ Hsel), Hexit, Hurl.
    cbn [truthy negb andb]. rewrite !andb_false_r. reflexivity. }
  rewrite Hres. repeat split; try assumption; intros; discriminate.
Qed.

(** C5, as amended.  On an input that passed the token, patch-build and
    singular-selector checks and whose scriptName, exec, noStart,
    storybookUrl and port are all falsy: without a storybookBuildDir the
    build script name is the buildScriptName flag when that is a string and
    'build-storybook' otherwise; resolution returns with noStart = true and
    that name when looking the name up in the manifest's scripts gives a
    truthy value, that is a non-empty command (or a member every object
    inherits), and it fails with MissingBuildScriptName carrying the name
    otherwise, in particular when the name is not a key or its command is the
    empty string.  With a storybookBuildDir resolution returns with
    noStart = true whatever the manifest holds. *)
Theorem build_mode (input : Input) :
  let options := normalize (flags input) (argv input) in
  let name := stringOr (Options.buildScriptName options) "build-storybook" in
  truthy (Options.projectToken options) = true ->
  patchAccepted (flags input) ->
  length (truthySelectors options) <= 1 ->
  truthy (Options.scriptName options) = false ->
  truthy (Options.exec options) = false ->
  Options.noStart options = false ->
  truthy (Options.storybookUrl options) = false ->
  truthy (Options.port options) = false ->
  (dirGiven (Flags.storybookBuildDir (flags input)) = false ->
     (entryTruthy (lookupScript (packageJson input) name) = true ->
      getOptions input
      = Ok (Resolved.mk options true (JStr name) (Options.https options)
              JUndefined (Options.scriptName options), []))
     /\ (entryTruthy (lookupScript (packageJson input) name) = false ->
         getOptions input = throw (MissingBuildScriptName name))
     /\ (forall table cmd,
           scripts (packageJson input) = Some table ->
           table !! name = Some cmd ->
           entryTruthy (lookupScript (packageJson input) name)
           = negb (String.eqb cmd ""))
     /\ (name ∉ objectPrototypeNames ->
         (forall table, scripts (packageJson input) = Some table ->
                        table !! name = None) ->
         entryTruthy (lookupScript (packageJson input) name) = false))
  /\ (dirGiven (Flags.storybookBuildDir (flags input)) = true ->
      forall pj,
        getOptions (withManifest input pj)
        = Ok (Resolved.mk options true (Options.buildScriptName options)
                (Options.https options) JUndefined
                (Options.scriptName options), [])).
Proof.
  cbv zeta. intros Htok Hpatch Hsel Hscript Hexec Hns Hurl Hport.
  assert (Hmode : forall pj lg,
    resolve pj lg (normalize (flags input) (argv input))
    = if truthy (Options.storybookBuildDir (normalize (flags input) (argv input)))
      then Ok (Resolved.mk (normalize (flags input) (argv input)) true
                 (Options.buildScriptName (normalize (flags input) (argv input)))
                 (Options.https (normalize (flags input) (argv input)))
                 JUndefined
                 (Options.scriptName (normalize (flags input) (argv input))), [])
      else
        let name := stringOr (Options.buildScriptName
                                (normalize (flags input) (argv input)))
                             "build-storybook" in
        if entryTruthy (lookupScript pj name)
        then Ok (Resolved.mk (normalize (flags input) (argv input)) true
                   (JStr name)
                   (Options.https (normalize (flags input) (argv input)))
                   JUndefined
                   (Options.scriptName (normalize (flags input) (argv input))), [])
        else throw (MissingBuildScriptName name)).
  { intros pj lg. rewrite resolve_steps. cbv zeta.
    rewrite (truthySelectors_le1 _ Hsel), Hscript, Hexec, Hns, Hurl, Hport.
    reflexivity. }
  assert (Hdir : truthy (Options.storybookBuildDir
                           (normalize (flags input) (argv input)))
                 = dirGiven (Flags.storybookBuildDir (flags input))).
  { cbn [normalize Options.storybookBuildDir].
    destruct (Flags.storybookBuildDir (flags input)) as [|dir|first others];
      simpl; try reflexivity.
    - destruct dir; [reflexivity|]. apply truthy_JStr, path_resolve_absolute.
    - apply truthy_JStr, path_resolve_absolute. }
  split.
  - intros Hno. rewrite (getOptions_validated _ Htok Hpatch), Hmode, Hdir, Hno.
    cbv zeta. repeat split.
    + intros ->. reflexivity.
    + intros ->. reflexivity.
    + intros table cmd Ht Hc. unfold lookupScript. rewrite Ht, Hc. reflexivity.
    + intros Hproto Hkey. unfold lookupScript.
      destruct (scripts (packageJson input)) as [table|]; [|reflexivity].
      rewrite (Hkey table eq_refl).
      rewrite bool_decide_eq_false_2 by assumption. reflexivity.
  - intros Hyes pj.
    rewrite (getOptions_validated (withManifest input pj) Htok Hpatch).
    simpl. rewrite Hmode, Hdir, Hyes. reflexivity.
Qed.


(** ** Splitting and joining *)

Lemma append_cons c s t : String c s +:+ t = String c (s +:+ t).
Proof. reflexivity. Qed.

Lemma append_empty_r s : s +:+ "" = s.
Proof. induction s as [|c s IH]; [reflexivity|]. rewrite append_cons, IH. reflexivity. Qed.

Lemma append_assoc s t u : (s +:+ t) +:+ u = s +:+ (t +:+ u).
Proof.
  induction s as [|c s IH]; [reflexivity|]. rewrite !append_cons, IH. reflexivity.
Qed.

Lemma prefix_append sep s :
  String.prefix sep s = true -> s = sep +:+ dropChars (String.length sep) s.
Proof.
  revert s. induction sep as [|a sep IH]; intros s H.
  - destruct s; reflexivity.
  - destruct s as [|b s]; [discriminate H|]. simpl in H.
    destruct (ascii_dec a b) as [->|]; [|discriminate H].
    rewrite append_cons. simpl. f_equal. apply IH. exact H.
Qed.

Lemma split_go_skip sep s k cur :
  split_go sep s k cur = split_go sep (dropChars k s) 0 cur.
Proof.
  revert k. induction s as [|c s IH]; intros k.
  - destruct k; reflexivity.
  - destruct k as [|k]; [reflexivity|]. simpl. apply IH.
Qed.

Lemma split_go_cons sep s k cur :
  exists seg rest, split_go sep s k cur = seg :: rest.
Proof.
  revert k cur. induction s as [|c s IH]; intros k cur; cbn [split_go]; [eauto|].
  destruct k; [|apply IH].
  destruct (String.prefix sep (String c s)); [eauto | apply IH].
Qed.

Lemma dropChars_length s k : String.length (dropChars k s) <= String.length s.
Proof.
  revert s. induction k as [|k IH]; intros s; [destruct s; simpl; lia|].
  destruct s as [|c s]; simpl; [lia|]. specialize (IH s). lia.
Qed.

(** Joining the segments with a non-empty separator gives the string back:
    [s.split(sep).join(sep) === s]. *)
Lemma split_go_join sep n :
  sep <> "" ->
  forall s cur,
    String.length s <= n ->
    String.concat sep (split_go sep s 0 cur) = cur +:+ s.
Proof.
  intros Hsep. induction n as [|n IH]; intros s cur Hlen.
  - destruct s; [|simpl in Hlen; lia]. simpl. rewrite append_empty_r. reflexivity.
  - destruct s as [|c s]; [simpl; rewrite append_empty_r; reflexivity|].
    simpl in Hlen.
    change (split_go sep (String c s) 0 cur)
      with (if String.prefix sep (String c s)
            then cur :: split_go sep s (String.length sep - 1) ""
            else split_go sep s 0 (cur +:+ String c "")).
    destruct (String.prefix sep (String c s)) eqn:Hpre.
    + rewrite split_go_skip.
      destruct (split_go_cons sep (dropChars (String.length sep - 1) s) 0 "")
        as (seg & rest & Heq).
      rewrite Heq. change (String.concat sep (cur :: seg :: rest))
        with (cur +:+ sep +:+ String.concat sep (seg :: rest)).
      rewrite <- Heq, IH by (pose proof (dropChars_length s (String.length sep - 1)); lia).
      apply prefix_append in Hpre.
      destruct sep as [|a sep]; [contradiction|].
      cbn [String.length dropChars] in Hpre.
      replace (String.length (String a sep) - 1) with (String.length sep)
        by (cbn [String.length]; lia).
      rewrite Hpre. reflexivity.
    + rewrite IH by lia. rewrite append_assoc. reflexivity.
Qed.

Lemma split_join sep s : sep <> "" -> String.concat sep (split sep s) = s.
Proof.
  intros Hsep. unfold split. apply (split_go_join sep (String.length s) Hsep). lia.
Qed.

(** ** Inversion of a successful resolution *)

Lemma getOptions_ok input cfg notices :
  getOptions input = Ok (cfg, notices) ->
  resolve (packageJson input) (log input)
          (normalize (flags input) (argv input)) = Ok (cfg, notices).
Proof.
  rewrite getOptions_steps. cbv zeta. intros H.
  repeat match type of H with
         | (if ?b then _ else _) = _ => destruct b; [discriminate H|]
         end.
  exact H.
Qed.

(** The candidate URL and the local variables from which a configuration
    with a [url] was returned. *)
Lemma resolve_ok_url pj lg options cfg notices u :
  resolve pj lg options = Ok (cfg, notices) ->
  Resolved.url cfg = JStr u ->
  let https :=
    js_and (Options.https options)
           (tlsObject (Options.cert options) (Options.key options)
                      (Options.ca options)) in
  let noStart :=
    if truthy (Options.storybookUrl options) then true
    else Options.noStart options in
  exists v,
    (if negb (truthy (Options.storybookUrl options))
     then startLocally pj lg (Options.exec options) noStart https
            (Options.port options) (Options.scriptName options)
     else Ok {| l_https := https; l_port := Options.port options;
                l_scriptName := Options.scriptName options;
                l_storybookUrl := Options.storybookUrl options;
                l_notices := [] |}) = Ok v
    /\ finalizeUrl (l_storybookUrl v) = Ok u
    /\ cfg = Resolved.mk options noStart (Options.buildScriptName options)
               (l_https v) (JStr u) (l_scriptName v)
    /\ notices = l_notices v.
Proof.
  rewrite resolve_steps. cbv zeta. intros H Hu.
  repeat match type of H with
         | (if ?b then throw _ else _) = _ => destruct b; [discriminate H|]
         end.
  match type of H with
  | (if ?b then _ else _) = _ => destruct b
  end.
  - repeat match type of H with
           | (if ?b then _ else _) = _ => destruct b
           end; simplify_eq; discriminate Hu.
  - apply bind_ok in H. destruct H as (v & Hv & H).
    apply bind_ok in H. destruct H as (u' & Hfin & H).
    simplify_eq. simpl in Hu. simplify_eq. eauto.
Qed.

(** Start mode: the locals after lines 137-168. *)
Lemma startLocally_ok pj lg exec noStart https port name v :
  startLocally pj lg exec noStart https port name = Ok v ->
  l_storybookUrl v
  = JStr ((if truthy (l_https v) then "https" else "http")
          +:+ "://localhost:" +:+ js_to_string (l_port v))
  /\ ((truthy exec = true /\ l_https v = https /\ l_port v = port)
      \/ (truthy port = true /\ noStart = true
          /\ l_https v = https /\ l_port v = port)
      \/ (truthy exec = false
          /\ exists w, inferFromScript pj lg https port name = Ok w
                       /\ l_https v = l_https w /\ l_port v = l_port w)).
Proof.
  unfold startLocally. intros H.
  destruct (truthy exec && negb (truthy port)); [discriminate H|].
  apply bind_ok in H. destruct H as (w & Hw & H). simplify_eq. simpl.
  split; [reflexivity|].
  destruct (truthy exec) eqn:Hexec; simpl in Hw.
  - simplify_eq. left. auto.
  - destruct (truthy port) eqn:Hport; simpl in Hw.
    + destruct noStart; simpl in Hw.
      * simplify_eq. right. left. auto.
      * right. right. eauto.
    + right. right. eauto.
Qed.

Lemma inferFromScript_ok pj lg https port name w :
  inferFromScript pj lg https port name = Ok w ->
  inferHttps https (lookupScript pj (stringOr name "storybook")) = Ok (l_https w)
  /\ inferPort port (lookupScript pj (stringOr name "storybook")) = Ok (l_port w).
Proof.
  unfold inferFromScript. intros H.
  destruct (negb (entryTruthy _)); [discriminate H|].
  apply bind_ok in H. destruct H as (h & Hh & H).
  apply bind_ok in H. destruct H as (p & Hp & H).
  destruct (negb (truthy p)); [discriminate H|]. simplify_eq. auto.
Qed.

(** The [https] object read off a script: each path goes through
    [resolveHomeDir]. *)
Lemma inferHttps_from_script https entry result :
  inferHttps https entry = Ok result ->
  truthy https = false ->
  truthy result = true ->
  exists cmd cert key ca,
    entry = Command cmd
    /\ truthy (getStorybookConfiguration cmd "--https" None) = true
    /\ resolveHomeDir (getStorybookConfiguration cmd "--ssl-cert" None) = Ok cert
    /\ resolveHomeDir (getStorybookConfiguration cmd "--ssl-key" None) = Ok key
    /\ resolveHomeDir (getStorybookConfiguration cmd "--ssl-ca" None) = Ok ca
    /\ result = tlsObject cert key ca.
Proof.
  unfold inferHttps. intros H Hfalse Htrue. rewrite Hfalse in H.
  destruct entry as [|cmd|]; try discriminate H. simpl in H.
  destruct (truthy (getStorybookConfiguration cmd "--https" None)) eqn:Hfound.
  - apply bind_ok in H. destruct H as (cert & Hc & H).
    apply bind_ok in H. destruct H as (key & Hk & H).
    apply bind_ok in H. destruct H as (ca & Ha & H).
    simplify_eq. exists cmd, cert, key, ca. auto 10.
  - simplify_eq. congruence.
Qed.

Lemma js_and_truthy a b : truthy a = true -> js_and a b = b.
Proof. unfold js_and. intros ->. reflexivity. Qed.

Lemma js_and_falsy a b : truthy a = false -> js_and a b = a.
Proof. unfold js_and. intros ->. reflexivity. Qed.

(** The resolved [https] of a configuration with a [url], by the caller's
    https flag. *)
Lemma resolved_https input cfg notices u :
  getOptions input = Ok (cfg, notices) ->
  Resolved.url cfg = JStr u ->
  let f := flags input in
  (truthy (Flags.storybookHttps f) = true ->
   Resolved.https cfg
   = tlsObject (Flags.storybookCert f) (Flags.storybookKey f)
               (Flags.storybookCa f))
  /\ (truthy (Flags.storybookHttps f) = false ->
      truthy (Resolved.https cfg) = true ->
      exists cmd cert key ca,
        lookupScript (packageJson input)
          (stringOr (flagPresent (Flags.scriptName f)) "storybook") = Command cmd
        /\ truthy (getStorybookConfiguration cmd "--https" None) = true
        /\ resolveHomeDir (getStorybookConfiguration cmd "--ssl-cert" None) = Ok cert
        /\ resolveHomeDir (getStorybookConfiguration cmd "--ssl-key" None) = Ok key
        /\ resolveHomeDir (getStorybookConfiguration cmd "--ssl-ca" None) = Ok ca
        /\ Resolved.https cfg = tlsObject cert key ca).
Proof.
  intros Hok Hu. cbv zeta. apply getOptions_ok in Hok.
  destruct (resolve_ok_url _ _ _ _ _ _ Hok Hu) as (v & Hv & _ & -> & _).
  cbn [Resolved.https]. clear Hok Hu.
  cbn [normalize Options.https Options.cert Options.key Options.ca
       Options.storybookUrl Options.exec Options.port Options.scriptName
       Options.noStart] in Hv.
  split.
  - intros Hflag. rewrite (js_and_truthy _ _ Hflag) in Hv.
    destruct (negb (truthy (flagPresent (Flags.storybookUrl (flags input))))).
    + apply startLocally_ok in Hv.
      destruct Hv as (_ & [(_ & -> & _) | [(_ & _ & -> & _) | (_ & w & Hw & -> & _)]]);
        try reflexivity.
      apply inferFromScript_ok in Hw. destruct Hw as [Hw _].
      unfold inferHttps in Hw. simpl in Hw. simplify_eq. congruence.
    + simplify_eq. reflexivity.
  - intros Hflag Htrue. rewrite (js_and_falsy _ _ Hflag) in Hv.
    destruct (negb (truthy (flagPresent (Flags.storybookUrl (flags input))))).
    + apply startLocally_ok in Hv.
      destruct Hv as (_ & [(_ & Hh & _) | [(_ & _ & Hh & _) | (_ & w & Hw & Hh & _)]]);
        try congruence.
      apply inferFromScript_ok in Hw. destruct Hw as [Hw _].
      rewrite Hh in *.
      destruct (inferHttps_from_script _ _ _ Hw Hflag Htrue)
        as (cmd & cert & key & ca & ? & ? & ? & ? & ? & ?).
      exists cmd, cert, key, ca. auto 10.
    + simplify_eq. simpl in Htrue. congruence.
Qed.


(** The port of the URL when the caller gave one. *)
Lemma resolved_port input cfg notices u :
  getOptions input = Ok (cfg, notices) ->
  Resolved.url cfg = JStr u ->
  let f := flags input in
  truthy (flagPresent (Flags.storybookUrl f)) = false ->
  truthy (Flags.storybookPort f) = true ->
  finalizeUrl
    (JStr ((if truthy (Resolved.https cfg) then "https" else "http")
           +:+ "://localhost:" +:+ js_to_string (Flags.storybookPort f)))
  = Ok u.
Proof.
  intros Hok Hu. cbv zeta. intros Hurl Hport. apply getOptions_ok in Hok.
  destruct (resolve_ok_url _ _ _ _ _ _ Hok Hu) as (v & Hv & Hfin & -> & _).
  cbn [Resolved.https]. clear Hok Hu.
  cbn [normalize Options.https Options.cert Options.key Options.ca
       Options.storybookUrl Options.exec Options.port Options.scriptName
       Options.noStart] in Hv.
  rewrite Hurl in Hv. cbn [negb] in Hv.
  apply startLocally_ok in Hv. destruct Hv as (Hcand & Hv).
  rewrite Hcand in Hfin.
  assert (Hp : l_port v = Flags.storybookPort (flags input)).
  { destruct Hv as [(_ & _ & ->) | [(_ & _ & _ & ->) | (_ & w & Hw & _ & ->)]];
      try reflexivity.
    apply inferFromScript_ok in Hw. destruct Hw as [_ Hw].
    unfold inferPort in Hw. rewrite Hport in Hw. congruence. }
  rewrite Hp in Hfin. exact Hfin.
Qed.

(** C7, as amended.  In start mode (no storybookUrl, a URL is made for
    localhost): a truthy caller-supplied https flag makes the resolved https
    the object of the caller's cert, key and ca, whatever the script says; a
    truthy caller-supplied port is the port of the URL; when the caller's
    https flag is falsy, a truthy resolved https is built wholly from the
    --ssl-cert, --ssl-key and --ssl-ca switches of the script, and
    caller-supplied cert, key and ca are not part of it. *)
Theorem caller_precedence (input : Input) cfg notices u :
  let f := flags input in
  getOptions input = Ok (cfg, notices) ->
  Resolved.url cfg = JStr u ->
  truthy (flagPresent (Flags.storybookUrl f)) = false ->
  (truthy (Flags.storybookHttps f) = true ->
   Resolved.https cfg
   = tlsObject (Flags.storybookCert f) (Flags.storybookKey f)
               (Flags.storybookCa f))
  /\ (truthy (Flags.storybookPort f) = true ->
      finalizeUrl
        (JStr ((if truthy (Resolved.https cfg) then "https" else "http")
               +:+ "://localhost:" +:+ js_to_string (Flags.storybookPort f)))
      = Ok u)
  /\ (truthy (Flags.storybookHttps f) = false ->
      truthy (Resolved.https cfg) = true ->
      exists cmd cert key ca,
        lookupScript (packageJson input)
          (stringOr (flagPresent (Flags.scriptName f)) "storybook") = Command cmd
        /\ resolveHomeDir (getStorybookConfiguration cmd "--ssl-cert" None) = Ok cert
        /\ resolveHomeDir (getStorybookConfiguration cmd "--ssl-key" None) = Ok key
        /\ resolveHomeDir (getStorybookConfiguration cmd "--ssl-ca" None) = Ok ca
        /\ Resolved.https cfg = tlsObject cert key ca).
Proof.
  cbv zeta. intros Hok Hu Hurl.
  destruct (resolved_https _ _ _ _ Hok Hu) as [Hcaller Hscript].
  split; [exact Hcaller | split].
  - apply (resolved_port _ _ _ _ Hok Hu Hurl).
  - intros Hflag Htrue.
    destruct (Hscript Hflag Htrue)
      as (cmd & cert & key & ca & ? & _ & ? & ? & ? & ?).
    exists cmd, cert, key, ca. auto.
Qed.

(** C8, as amended.  [resolveHomeDir] turns a path that begins with [~] into
    the join of the HOME value and the rest of the path and leaves any other
    path unchanged.  In a resolved configuration with a url, the cert, key
    and ca paths read off the script string have gone through it; the cert,
    key and ca supplied by caller flags are passed on unchanged, also when
    they begin with [~]. *)
Theorem home_dir_expansion :
  (forall home rest,
     HOME = JStr home ->
     resolveHomeDir (JStr (String "~" rest)) = Ok (JStr (path_join home rest)))
  /\ (forall p, String.prefix "~" p = false ->
                resolveHomeDir (JStr p) = Ok (JStr p))
  /\ (forall input cfg notices u,
        getOptions input = Ok (cfg, notices) ->
        Resolved.url cfg = JStr u ->
        let f := flags input in
        (truthy (Flags.storybookHttps f) = false ->
         truthy (Resolved.https cfg) = true ->
         exists cmd cert key ca,
           lookupScript (packageJson input)
             (stringOr (flagPresent (Flags.scriptName f)) "storybook")
           = Command cmd
           /\ resolveHomeDir (getStorybookConfiguration cmd "--ssl-cert" None)
              = Ok cert
           /\ resolveHomeDir (getStorybookConfiguration cmd "--ssl-key" None)
              = Ok key
           /\ resolveHomeDir (getStorybookConfiguration cmd "--ssl-ca" None)
              = Ok ca
           /\ Resolved.https cfg = tlsObject cert key ca)
        /\ (truthy (Flags.storybookHttps f) = true ->
            Resolved.https cfg
            = tlsObject (Flags.storybookCert f) (Flags.storybookKey f)
                        (Flags.storybookCa f))).
Proof.
  split; [|split].
  - intros home rest Hhome. unfold resolveHomeDir. simpl. rewrite Hhome.
    reflexivity.
  - intros p Hp. unfold resolveHomeDir.
    destruct p as [|c p]; [reflexivity|]. simpl in Hp.
    destruct (Ascii.eqb_spec c "~") as [->|Hc].
    + destruct (Ascii.ascii_dec "~" "~") as [_|Hne]; [|contradiction].
      destruct p; discriminate Hp.
    + simpl. destruct c as [[] [] [] [] [] [] [] []]; try reflexivity.
      contradiction.
  - intros input cfg notices u Hok Hu. cbv zeta.
    destruct (resolved_https _ _ _ _ Hok Hu) as [Hcaller Hscript].
    split; [|exact Hcaller].
    intros Hflag Htrue.
    destruct (Hscript Hflag Htrue)
      as (cmd & cert & key & ca & ? & _ & ? & ? & ? & ?).
    exists cmd, cert, key, ca. auto.
Qed.


End Properties.

(** ** The URL model: parsing what was formatted *)

Module UrlFacts.
Import Url.

Lemma break_app stop l :
  fst (break stop l) ++ snd (break stop l) = l.
Proof.
  induction l as [|c l IH]; simpl; [reflexivity|].
  destruct (stop c); simpl; [reflexivity|].
  destruct (break stop l) as [a b]. simpl in *. congruence.
Qed.

Lemma break_free stop l :
  Forall (fun c => stop c = false) (fst (break stop l)).
Proof.
  induction l as [|c l IH]; simpl; [constructor|].
  destruct (stop c) eqn:Hc; simpl; [constructor|].
  destruct (break stop l) as [a b]. simpl in *. constructor; assumption.
Qed.

Lemma break_stops stop l : stopsAt stop (snd (break stop l)).
Proof.
  induction l as [|c l IH]; simpl; [exact I|].
  destruct (stop c) eqn:Hc; simpl; [exact Hc|].
  destruct (break stop l) as [a b]. exact IH.
Qed.

Lemma break_unique stop a b :
  Forall (fun c => stop c = false) a -> stopsAt stop b ->
  break stop (a ++ b) = (a, b).
Proof.
  intros Ha Hb. induction Ha as [|c a Hc Ha IH]; simpl.
  - destruct b as [|c b]; simpl in *; [reflexivity|]. rewrite Hb. reflexivity.
  - rewrite Hc, IH. reflexivity.
Qed.

Lemma nonempty_true l : nonempty l = true <-> l <> [].
Proof. destruct l; simpl; split; intros; congruence. Qed.

Lemma startsWith_slashes l :
  startsWith (chars "//") l = true <-> exists k, l = "/"%char :: "/"%char :: k.
Proof.
  unfold startsWith. rewrite bool_decide_eq_true. reflexivity.
Qed.

Lemma endsWith_true l suf : endsWith l suf = true <-> exists k, l = k ++ suf.
Proof. unfold endsWith. rewrite bool_decide_eq_true. reflexivity. Qed.

(** *** The scheme *)

Lemma takeScheme_cases l :
  (takeScheme l = ([], l))
  \/ (exists proto rest, takeScheme l = (proto, rest) /\ isScheme proto
                         /\ l = proto ++ rest).
Proof.
  unfold takeScheme.
  pose proof (break_app (fun c => negb (schemeChar c)) l) as Happ.
  pose proof (break_free (fun c => negb (schemeChar c)) l) as Hfree.
  destruct (break (fun c => negb (schemeChar c)) l) as [name rest].
  simpl in *.
  destruct name as [|c name]; [left; reflexivity|].
  destruct rest as [|d rest]; [left; reflexivity|].
  destruct (Ascii.ascii_dec d ":") as [->|Hd].
  - right. exists ((c :: name) ++ [":"%char]), rest. repeat split.
    + exists (c :: name). repeat split; [discriminate|].
      eapply Forall_impl; [exact Hfree|]. simpl. intros x Hx.
      destruct (schemeChar x); [reflexivity | discriminate].
    + rewrite <- Happ. rewrite <- app_assoc. reflexivity.
  - left. destruct d as [[] [] [] [] [] [] [] []]; try reflexivity.
    contradiction.
Qed.

Lemma takeScheme_scheme proto rest :
  isScheme proto -> takeScheme (proto ++ rest) = (proto, rest).
Proof.
  intros (name & Hne & Hname & ->). unfold takeScheme.
  rewrite <- app_assoc.
  rewrite (break_unique (fun c => negb (schemeChar c)) name ([":"%char] ++ rest)).
  - destruct name; [contradiction | reflexivity].
  - eapply Forall_impl; [exact Hname|]. simpl. intros x ->. reflexivity.
  - reflexivity.
Qed.

Lemma isScheme_nonempty proto : isScheme proto -> proto <> [].
Proof. intros (name & _ & _ & ->). destruct name; discriminate. Qed.


(** *** Records that [parse] produces *)

Lemma free_app c a b : free c (a ++ b) <-> free c a /\ free c b.
Proof. apply Forall_app. Qed.

Lemma isScheme_free proto c :
  schemeChar c = false -> c <> ":"%char -> isScheme proto -> free c proto.
Proof.
  intros Hc Hcolon (name & _ & Hname & ->). apply free_app. split.
  - eapply Forall_impl; [exact Hname|]. simpl. intros x Hx. unfold isChar.
    destruct (Ascii.eqb_spec x c); [congruence | reflexivity].
  - repeat constructor. unfold isChar.
    destruct (Ascii.eqb_spec ":" c); [congruence | reflexivity].
Qed.

Ltac leaf :=
  unfold wellFormed, free in *;
  cbn [protocol slashes host pathname search hash app] in *;
  rewrite ?app_nil_r in *;
  repeat (progress (rewrite ?Forall_app, ?Forall_cons, ?Forall_nil in * ));
  destruct_and?;
  repeat split; try assumption; try discriminate; try reflexivity.

Lemma parse_wellFormed l p :
  pathname (parseChars l) = Some p -> fileHostless (parseChars l) = false ->
  wellFormed (parseChars l) p.
Proof.
  unfold parseChars, parseAuthority, fileHostless.
  pose proof (break_app (isChar "#") l) as A1.
  pose proof (break_free (isChar "#") l) as F1.
  pose proof (break_stops (isChar "#") l) as S1.
  destruct (break (isChar "#") l) as [l1 hash]. simpl in A1, F1, S1.
  pose proof (break_app (isChar "?") l1) as A2.
  pose proof (break_free (isChar "?") l1) as F2.
  pose proof (break_stops (isChar "?") l1) as S2.
  destruct (break (isChar "?") l1) as [l2 search]. simpl in A2, F2, S2.
  rewrite <- A2 in F1.
  destruct (takeScheme_cases l2) as [Hnone | (proto & r0 & Hsch & Hproto & Hl2)].
  - rewrite Hnone. simpl.
    destruct l2 as [|c l2]; simpl; [discriminate|].
    intros Hp _. injection Hp as <-.
    assert (Hs : shape (mk [] false [] (Some (c :: l2)) search hash) (c :: l2))
      by (left; auto).
    leaf.
  - rewrite Hsch. rewrite (proj2 (nonempty_true proto) (isScheme_nonempty _ Hproto)).
    cbn [andb]. subst l2.
    destruct (startsWith (chars "//") r0) eqn:Hslashes.
    + cbn [orb].
      apply startsWith_slashes in Hslashes. destruct Hslashes as [r1 ->].
      cbn [drop]. rewrite ?drop_0.
      pose proof (break_app (isChar "/") r1) as A3.
      pose proof (break_free (isChar "/") r1) as F3.
      pose proof (break_stops (isChar "/") r1) as S3.
      destruct (break (isChar "/") r1) as [host r2]. simpl in A3, F3, S3.
      subst r1.
      destruct r2 as [|c r2]; cbn [nonempty].
      * destruct (slashedProtocol proto && nonempty host); [|discriminate].
        intros Hp _. injection Hp as <-.
        assert (Hs : shape (mk proto true host (Some (chars "/")) search hash)
                           (chars "/")).
        { right. left. repeat split; try assumption. }
        leaf.
      * intros Hp _. injection Hp as <-.
        assert (Hs : shape (mk proto true host (Some (c :: r2)) search hash)
                           (c :: r2)).
        { right. left. repeat split; try assumption. }
        leaf.
    + cbn [orb]. destruct (slashedProtocol proto) eqn:Hsl; cbn [negb].
      * destruct r0 as [|c r0]; cbn [nonempty andb]; [discriminate|].
        cbn [protocol slashes negb andb]. rewrite Hsl. cbn [andb].
        intros Hp Hfile. injection Hp as <-.
        assert (Hs : shape (mk proto false [] (Some (c :: r0)) search hash)
                           (c :: r0)).
        { right. right. left. repeat split; try assumption. }
        leaf.
      * pose proof (break_app (isChar "/") r0) as A3.
        pose proof (break_free (isChar "/") r0) as F3.
        pose proof (break_stops (isChar "/") r0) as S3.
        destruct (break (isChar "/") r0) as [host r2]. simpl in A3, F3, S3.
        subst r0.
        rewrite andb_false_l.
        destruct r2 as [|c r2]; cbn [nonempty]; [discriminate|].
        intros Hp _. injection Hp as <-.
        assert (Hs : shape (mk proto false host (Some (c :: r2)) search hash)
                           (c :: r2)).
        { right. right. right. repeat split; try assumption. }
        leaf.
Qed.


(** *** Formatting and parsing again *)

Lemma escapePath_free l : free "#" l -> free "?" l -> escapePath l = l.
Proof.
  induction 1 as [|c l Hc _ IH]; intros Hq; [reflexivity|].
  inversion Hq as [|? ? Hc' Hq']; subst. simpl.
  unfold isChar in Hc, Hc'. rewrite Hc, Hc', IH by assumption. reflexivity.
Qed.

Lemma escapeSearch_free l : free "#" l -> escapeSearch l = l.
Proof.
  induction 1 as [|c l Hc _ IH]; [reflexivity|]. simpl.
  unfold isChar in Hc. rewrite Hc, IH. reflexivity.
Qed.

Lemma withLeading_stops c l : stopsAt (isChar c) l -> withLeading c l = l.
Proof.
  destruct l as [|x l]; simpl; [reflexivity|]. unfold isChar. intros ->.
  reflexivity.
Qed.

Lemma startsWith_slashes_free h k :
  free "/" (h :: k) -> forall r, startsWith (chars "//") ((h :: k) ++ r) = false.
Proof.
  intros Hf r. inversion Hf as [|? ? Hh _]; subst.
  destruct (startsWith (chars "//") ((h :: k) ++ r)) eqn:E; [|reflexivity].
  apply startsWith_slashes in E. destruct E as [k' E].
  simpl in E. injection E as -> _. discriminate Hh.
Qed.

Lemma parseChars_assembled a srch hsh :
  free "#" a -> free "#" srch -> free "?" a ->
  stopsAt (isChar "#") hsh -> stopsAt (isChar "?") srch ->
  parseChars (a ++ srch ++ hsh) = parseAuthority a srch hsh.
Proof.
  intros Fa Fs Qa Sh Sq. unfold parseChars.
  rewrite (app_assoc a srch hsh).
  rewrite (break_unique (isChar "#") (a ++ srch) hsh);
    [|apply Forall_app; split; assumption | assumption].
  rewrite (break_unique (isChar "?") a srch) by assumption.
  reflexivity.
Qed.

Lemma parseAuthority_scheme proto r0 srch hsh :
  isScheme proto ->
  parseAuthority (proto ++ r0) srch hsh
  = let slashes := startsWith (chars "//") r0 in
    let r1 := if slashes then drop 2 r0 else r0 in
    let hostful := slashes || negb (slashedProtocol proto) in
    let (host, r2) := if hostful then break (isChar "/") r1 else ([], r1) in
    let pathname :=
      if nonempty r2 then Some r2
      else if slashedProtocol proto && nonempty host then Some (chars "/")
      else None in
    mk proto slashes host pathname srch hsh.
Proof.
  intros Hproto. unfold parseAuthority.
  rewrite (takeScheme_scheme proto _ Hproto).
  rewrite (proj2 (nonempty_true proto) (isScheme_nonempty _ Hproto)).
  reflexivity.
Qed.

Lemma parse_format u p :
  wellFormed u p -> parseChars (formatChars u) = u.
Proof.
  destruct u as [proto sl hst path srch hsh]. unfold wellFormed. simpl.
  intros (-> & Hne & Fh & Fq & Sh & Sq & Hshape).
  unfold free in Fh, Fq.
  repeat rewrite Forall_app in Fh. repeat rewrite Forall_app in Fq.
  destruct Fh as (Fhp & Fhh & Fhpath & Fhs). destruct Fq as (Fqp & Fqh & Fqpath).
  unfold formatChars. cbn [protocol slashes host pathname search hash].
  cbv zeta. change (default [] (Some p)) with p.
  rewrite (escapePath_free p), (escapeSearch_free srch) by assumption.
  rewrite (withLeading_stops "?" srch), (withLeading_stops "#" hsh) by assumption.
  assert (Hp : nonempty p = true) by (apply nonempty_true; assumption).
  assert (Hslash2 : free "#" (chars "//") /\ free "?" (chars "//"))
    by (split; repeat constructor).
  destruct Hslash2 as [Hs2h Hs2q].
  unfold shape in Hshape. cbn [protocol slashes host] in Hshape.
  destruct Hshape as [(-> & -> & -> & Hnone)
                     | [(Hproto & -> & Fsh & Sp)
                       | [(Hproto & -> & Hslashed & -> & Hfile & Hnot)
                         | (Hproto & -> & Hslashed & Fsh & Sp & Hnot)]]].
  - change (slashedProtocol []) with false. cbn [andb orb nonempty app].
    rewrite parseChars_assembled by assumption.
    unfold parseAuthority. rewrite Hnone. cbn [nonempty andb orb]. rewrite Hp.
    reflexivity.
  - cbn [orb andb]. rewrite (withLeading_stops "/" p) by assumption.
    replace (proto ++ (chars "//" ++ hst) ++ p ++ srch ++ hsh)
      with ((proto ++ chars "//" ++ hst ++ p) ++ srch ++ hsh)
      by (rewrite <- !app_assoc; reflexivity).
    rewrite parseChars_assembled;
      try assumption; try (repeat (apply Forall_app; split); assumption).
    rewrite (parseAuthority_scheme _ _ _ _ Hproto). cbv zeta.
    assert (Hs : startsWith (chars "//") (chars "//" ++ hst ++ p) = true)
      by (apply startsWith_slashes; eexists; reflexivity).
    rewrite Hs. cbn [orb]. change (drop 2 (chars "//" ++ hst ++ p)) with (hst ++ p).
    rewrite (break_unique (isChar "/") hst p) by assumption.
    rewrite Hp. reflexivity.
  - rewrite Hslashed, Hfile. cbn [orb andb nonempty app].
    replace (proto ++ p ++ srch ++ hsh) with ((proto ++ p) ++ srch ++ hsh)
      by (rewrite <- !app_assoc; reflexivity).
    rewrite parseChars_assembled;
      try assumption; try (repeat (apply Forall_app; split); assumption).
    rewrite (parseAuthority_scheme _ _ _ _ Hproto). cbv zeta.
    rewrite Hnot, Hslashed. cbn [andb orb negb]. rewrite Hp. reflexivity.
  - rewrite Hslashed. cbn [orb andb].
    replace (proto ++ hst ++ p ++ srch ++ hsh)
      with ((proto ++ hst ++ p) ++ srch ++ hsh)
      by (rewrite <- !app_assoc; reflexivity).
    rewrite parseChars_assembled;
      try assumption; try (repeat (apply Forall_app; split); assumption).
    rewrite (parseAuthority_scheme _ _ _ _ Hproto). cbv zeta.
    rewrite Hnot, Hslashed. cbn [andb orb negb].
    rewrite (break_unique (isChar "/") hst p) by assumption.
    rewrite Hp. reflexivity.
Qed.


(** *** Appending the suffix *)

Lemma appendSuffix_cases p :
  (endsWith p suffix = true /\ appendSuffix p = p)
  \/ (endsWith p (chars "/") = true /\ appendSuffix p = p ++ suffix)
  \/ (endsWith p (chars "/") = false
      /\ appendSuffix p = p ++ chars "/" ++ suffix).
Proof.
  unfold appendSuffix.
  destruct (endsWith p suffix); [left; auto|].
  destruct (endsWith p (chars "/")); [right; left; auto|].
  right. right. rewrite <- app_assoc. auto.
Qed.

Lemma appendSuffix_ends p : endsWith (appendSuffix p) suffix = true.
Proof.
  destruct (appendSuffix_cases p) as [[H ->] | [[_ ->] | [_ ->]]];
    [exact H | |]; apply endsWith_true.
  - exists p. reflexivity.
  - exists (p ++ chars "/"). rewrite <- app_assoc. reflexivity.
Qed.

Lemma appendSuffix_fixed p : endsWith p suffix = true -> appendSuffix p = p.
Proof. unfold appendSuffix. intros ->. reflexivity. Qed.

Lemma appendSuffix_idempotent p : appendSuffix (appendSuffix p) = appendSuffix p.
Proof. apply appendSuffix_fixed, appendSuffix_ends. Qed.

(** What [appendSuffix] adds: nothing, the suffix after a final slash, or a
    slash and the suffix. *)
Lemma appendSuffix_extends p :
  exists t, appendSuffix p = p ++ t
            /\ free "#" t /\ free "?" t
            /\ (t = [] \/ (exists k, p = k ++ chars "/")
                \/ exists t', t = "/"%char :: t').
Proof.
  destruct (appendSuffix_cases p) as [[_ ->] | [[H ->] | [_ ->]]].
  - exists []. rewrite app_nil_r.
    split; [reflexivity|]. split; [constructor|]. split; [constructor|].
    left. reflexivity.
  - exists suffix.
    split; [reflexivity|]. split; [repeat constructor|].
    split; [repeat constructor|].
    right. left. apply endsWith_true. exact H.
  - exists (chars "/" ++ suffix).
    split; [reflexivity|]. split; [repeat constructor|].
    split; [repeat constructor|].
    right. right. eexists. reflexivity.
Qed.

Lemma isScheme_no_slash proto : isScheme proto -> "/"%char ∉ proto.
Proof.
  intros H Hin.
  assert (Hf : free "/" proto) by (apply isScheme_free; [reflexivity | discriminate | exact H]).
  unfold free in Hf. rewrite Forall_forall in Hf. specialize (Hf _ Hin).
  discriminate Hf.
Qed.

Lemma takeScheme_none_app p t :
  takeScheme p = ([], p) ->
  (t = [] \/ (exists k, p = k ++ chars "/") \/ exists t', t = "/"%char :: t') ->
  takeScheme (p ++ t) = ([], p ++ t).
Proof.
  intros Hnone Ht.
  destruct (takeScheme_cases (p ++ t)) as [H | (proto & rest & _ & Hproto & Heq)];
    [exact H | exfalso].
  assert (Hprefix : forall k, p = proto ++ k -> False).
  { intros k ->. rewrite (takeScheme_scheme _ _ Hproto) in Hnone.
    injection Hnone as Hnil _. exact (isScheme_nonempty _ Hproto Hnil). }
  pose proof (isScheme_no_slash _ Hproto) as Hslash.
  apply app_eq_inv in Heq.
  destruct Heq as [(k & Hp & _) | (k & Hpk & Htk)]; [exact (Hprefix _ Hp)|].
  destruct Ht as [-> | [(k0 & ->) | (t' & ->)]].
  - symmetry in Htk. apply app_eq_nil in Htk. destruct Htk as [-> _].
    rewrite app_nil_r in Hpk. apply (Hprefix []). rewrite app_nil_r. congruence.
  - apply Hslash. rewrite Hpk.
    apply elem_of_app. left. apply elem_of_app. right. left.
  - destruct k as [|c k].
    + rewrite app_nil_r in Hpk. apply (Hprefix []). rewrite app_nil_r. congruence.
    + injection Htk as Hc _. subst c. apply Hslash. rewrite Hpk.
      apply elem_of_app. right. left.
Qed.

Lemma appendSuffix_no_slashes p :
  p <> [] -> startsWith (chars "//") p = false ->
  startsWith (chars "//") (appendSuffix p) = false.
Proof.
  intros Hne Hp.
  destruct (startsWith (chars "//") (appendSuffix p)) eqn:E; [|reflexivity].
  apply startsWith_slashes in E. destruct E as [k E].
  destruct (appendSuffix_cases p) as [[_ Heq] | [[Hend Heq] | [Hend Heq]]];
    rewrite Heq in E.
  - rewrite <- Hp. symmetry. apply startsWith_slashes. eauto.
  - destruct p as [|c1 [|c2 p]]; [contradiction | discriminate E |].
    rewrite <- Hp. symmetry. apply startsWith_slashes.
    simpl in E. injection E as -> -> _. eauto.
  - destruct p as [|c1 [|c2 p]]; [contradiction | |].
    + simpl in E. injection E as -> _. discriminate Hend.
    + rewrite <- Hp. symmetry. apply startsWith_slashes.
      simpl in E. injection E as -> -> _. eauto.
Qed.

Lemma wellFormed_appendSuffix u p :
  wellFormed u p ->
  wellFormed (setPathname u (appendSuffix p)) (appendSuffix p).
Proof.
  destruct u as [proto sl hst path srch hsh]. unfold wellFormed, setPathname.
  cbn [protocol slashes host pathname search hash].
  intros (-> & Hne & Fh & Fq & Sh & Sq & Hshape).
  destruct (appendSuffix_extends p) as (t & Heq & Fht & Fqt & Ht).
  assert (Hne' : appendSuffix p <> []).
  { rewrite Heq. destruct p; [contradiction | discriminate]. }
  assert (Hstop : stopsAt (isChar "/") p -> stopsAt (isChar "/") (appendSuffix p)).
  { rewrite Heq. destruct p; [contradiction | auto]. }
  split; [reflexivity|]. split; [exact Hne'|].
  split; [|split; [|split; [exact Sh | split; [exact Sq|]]]].
  - unfold free in *. rewrite Heq. repeat rewrite Forall_app in *. tauto.
  - unfold free in *. rewrite Heq. repeat rewrite Forall_app in *. tauto.
  - unfold shape in *. cbn [protocol slashes host] in *.
    destruct Hshape as [(-> & -> & -> & Hnone)
                       | [(Hproto & -> & Fsh & Sp)
                         | [(Hproto & -> & Hslashed & -> & Hfile & Hnot)
                           | (Hproto & -> & Hslashed & Fsh & Sp & Hnot)]]].
    + left. repeat split. rewrite Heq. apply takeScheme_none_app; assumption.
    + right. left. auto.
    + right. right. left. repeat split; try assumption.
      apply appendSuffix_no_slashes; assumption.
    + right. right. right. repeat split; auto.
      destruct hst as [|h k].
      * apply appendSuffix_no_slashes; assumption.
      * apply startsWith_slashes_free. exact Fsh.
Qed.

(** *** The text of a parsed URL and its characters *)

Lemma format_wellFormed u p :
  wellFormed u p ->
  formatChars u
  = protocol u ++ (if slashes u then chars "//" else []) ++ host u
    ++ p ++ search u ++ hash u.
Proof.
  destruct u as [proto sl hst path srch hsh]. unfold wellFormed.
  cbn [protocol slashes host pathname search hash].
  intros (-> & Hne & Fh & Fq & Sh & Sq & Hshape).
  unfold free in Fh, Fq.
  repeat rewrite Forall_app in Fh. repeat rewrite Forall_app in Fq.
  destruct Fh as (Fhp & Fhh & Fhpath & Fhs). destruct Fq as (Fqp & Fqh & Fqpath).
  unfold formatChars. cbn [protocol slashes host pathname search hash].
  cbv zeta. change (default [] (Some p)) with p.
  rewrite (escapePath_free p), (escapeSearch_free srch) by assumption.
  rewrite (withLeading_stops "?" srch), (withLeading_stops "#" hsh) by assumption.
  unfold shape in Hshape. cbn [protocol slashes host] in Hshape.
  destruct Hshape as [(-> & -> & -> & Hnone)
                     | [(Hproto & -> & Fsh & Sp)
                       | [(Hproto & -> & Hslashed & -> & Hfile & Hnot)
                         | (Hproto & -> & Hslashed & Fsh & Sp & Hnot)]]].
  - reflexivity.
  - cbn [orb andb]. rewrite (withLeading_stops "/" p) by assumption.
    rewrite <- !app_assoc. reflexivity.
  - rewrite Hslashed, Hfile. reflexivity.
  - rewrite Hslashed. reflexivity.
Qed.

Lemma takeScheme_app l : fst (takeScheme l) ++ snd (takeScheme l) = l.
Proof.
  destruct (takeScheme_cases l) as [-> | (proto & rest & -> & _ & ->)];
    reflexivity.
Qed.

(** The parts of a parsed URL are made of the characters of its text. *)
Lemma parse_characters (P : ascii -> Prop) l :
  Forall P l ->
  Forall P (protocol (parseChars l)) /\ Forall P (host (parseChars l))
  /\ Forall P (search (parseChars l)) /\ Forall P (hash (parseChars l))
  /\ forall p, pathname (parseChars l) = Some p -> P "/"%char -> Forall P p.
Proof.
  intros Hl. unfold parseChars, parseAuthority.
  pose proof (break_app (isChar "#") l) as A1.
  destruct (break (isChar "#") l) as [l1 hsh]. simpl in A1.
  pose proof (break_app (isChar "?") l1) as A2.
  destruct (break (isChar "?") l1) as [l2 srch]. simpl in A2.
  pose proof (takeScheme_app l2) as A3.
  destruct (takeScheme l2) as [proto r0]. simpl in A3.
  subst l l1 l2. repeat rewrite Forall_app in Hl.
  destruct Hl as [[[Hproto Hr0] Hsrch] Hhsh].
  assert (Hr1 : Forall P (if nonempty proto && startsWith (chars "//") r0
                          then drop 2 r0 else r0))
    by (destruct (_ && _); [apply Forall_drop|]; assumption).
  set (r1 := if nonempty proto && startsWith (chars "//") r0
             then drop 2 r0 else r0) in *. clearbody r1.
  pose proof (break_app (isChar "/") r1) as A4.
  destruct (_ || _).
  - destruct (break (isChar "/") r1) as [hst r2]. simpl in A4. subst r1.
    apply Forall_app in Hr1. destruct Hr1 as [Hhst Hr2].
    cbn [protocol host search hash pathname]. repeat split; try assumption.
    intros p Hp Hslash. destruct (nonempty r2); [congruence|].
    destruct (_ && _); [|discriminate Hp].
    injection Hp as <-. repeat constructor. exact Hslash.
  - cbn [protocol host search hash pathname]. repeat split; try assumption;
      [constructor|].
    intros p Hp Hslash. destruct (nonempty r1); [congruence|].
    rewrite andb_false_r in Hp. discriminate Hp.
Qed.

End UrlFacts.

Section Resolution.
Context {env : Environment}.

Lemma chars_of_list l : Url.chars (string_of_list_ascii l) = l.
Proof. apply list_ascii_of_string_of_list_ascii. Qed.

Lemma finalizeUrl_idempotent s u :
  Url.fileHostless (Url.parse s) = false ->
  finalizeUrl (JStr s) = Ok u -> finalizeUrl (JStr u) = Ok u.
Proof.
  unfold finalizeUrl, Url.parse, Url.format. intros Hfile H.
  destruct (Url.pathname (Url.parseChars (Url.chars s))) as [p|] eqn:Hp;
    [|discriminate H].
  injection H as <-.
  pose proof (UrlFacts.wellFormed_appendSuffix _ _
                (UrlFacts.parse_wellFormed _ _ Hp Hfile)) as Hwf.
  rewrite chars_of_list, (UrlFacts.parse_format _ _ Hwf).
  cbn [Url.setPathname Url.pathname Url.protocol Url.slashes Url.host
       Url.search Url.hash].
  rewrite UrlFacts.appendSuffix_idempotent. reflexivity.
Qed.

Lemma finalizeUrl_pathname s u :
  Url.fileHostless (Url.parse s) = false ->
  finalizeUrl (JStr s) = Ok u ->
  exists p, Url.pathname (Url.parse s) = Some p
            /\ Url.pathname (Url.parse u) = Some (appendSuffix p).
Proof.
  unfold finalizeUrl, Url.parse, Url.format. intros Hfile H.
  destruct (Url.pathname (Url.parseChars (Url.chars s))) as [p|] eqn:Hp;
    [|discriminate H].
  injection H as <-. exists p. split; [reflexivity|].
  pose proof (UrlFacts.wellFormed_appendSuffix _ _
                (UrlFacts.parse_wellFormed _ _ Hp Hfile)) as Hwf.
  rewrite chars_of_list, (UrlFacts.parse_format _ _ Hwf). reflexivity.
Qed.

Lemma forallb_Forall {A} (P : A -> bool) l :
  forallb P l = true <-> Forall (fun x => P x = true) l.
Proof.
  induction l as [|x l IH]; cbn [forallb].
  - split; [constructor | reflexivity].
  - rewrite andb_true_iff, Forall_cons, IH. reflexivity.
Qed.

(** The url returned for a plain candidate is plain again, with the scheme
    and the host of the candidate. *)
Lemma finalizeUrl_plain s u :
  plainUrl s = true -> Url.fileHostless (Url.parse s) = false ->
  finalizeUrl (JStr s) = Ok u ->
  plainUrl u = true /\ Url.fileHostless (Url.parse u) = false.
Proof.
  unfold plainUrl. intros Hplain Hfile H.
  rewrite !andb_true_iff in Hplain. destruct Hplain as [[Hchars Hhost] Hjs].
  unfold finalizeUrl, Url.parse, Url.format in *.
  destruct (Url.pathname (Url.parseChars (Url.chars s))) as [p|] eqn:Hp;
    [|discriminate H].
  injection H as <-.
  pose proof (UrlFacts.wellFormed_appendSuffix _ _
                (UrlFacts.parse_wellFormed _ _ Hp Hfile)) as Hwf.
  rewrite chars_of_list, (UrlFacts.parse_format _ _ Hwf).
  split; [|exact Hfile].
  cbn [Url.setPathname Url.host Url.protocol]. rewrite Hhost, Hjs.
  rewrite !andb_true_r.
  rewrite (UrlFacts.format_wellFormed _ _ Hwf).
  cbn [Url.setPathname Url.host Url.protocol Url.slashes Url.search Url.hash].
  apply forallb_Forall in Hchars.
  destruct (UrlFacts.parse_characters _ _ Hchars)
    as (Fproto & Fhost & Fsearch & Fhash & Fpath).
  specialize (Fpath _ Hp eq_refl).
  apply forallb_Forall. repeat (apply Forall_app; split); try assumption.
  - destruct (Url.slashes _); repeat constructor.
  - destruct (UrlFacts.appendSuffix_cases p) as [[_ ->] | [[_ ->] | [_ ->]]];
      repeat (apply Forall_app; split); try assumption; repeat constructor.
Qed.

Lemma appendSuffix_nonempty p : appendSuffix p <> [].
Proof.
  pose proof (UrlFacts.appendSuffix_ends p) as H.
  apply UrlFacts.endsWith_true in H. destruct H as [k H]. rewrite H.
  destruct k; discriminate.
Qed.

Lemma escapePath_nonempty p : p <> [] -> Url.escapePath p <> [].
Proof.
  destruct p as [|c p]; [contradiction|]. intros _. cbn [Url.escapePath].
  destruct (Ascii.eqb c "#"); [discriminate|].
  destruct (Ascii.eqb c "?"); discriminate.
Qed.

Lemma withLeading_nonempty c l : l <> [] -> Url.withLeading c l <> [].
Proof.
  destruct l as [|x l]; [contradiction|]. intros _. cbn [Url.withLeading].
  destruct (Ascii.eqb x c); discriminate.
Qed.

Lemma formatChars_nonempty u p :
  Url.pathname u = Some p -> p <> [] -> Url.formatChars u <> [].
Proof.
  intros Hp Hne E. unfold Url.formatChars in E. cbv zeta in E.
  rewrite Hp in E. change (default [] (Some p)) with p in E.
  apply app_eq_nil in E. destruct E as [_ E].
  apply app_eq_nil in E. destruct E as [_ E].
  apply app_eq_nil in E. destruct E as [E _].
  pose proof (escapePath_nonempty p Hne) as Hesc.
  destruct (_ && _) in E; [|contradiction].
  exact (withLeading_nonempty _ _ Hesc E).
Qed.

Lemma finalizeUrl_nonempty s u : finalizeUrl (JStr s) = Ok u -> u <> "".
Proof.
  unfold finalizeUrl, Url.format. intros H Hu.
  destruct (Url.pathname (Url.parse s)) as [p|]; [|discriminate H].
  injection H as H. rewrite Hu in H.
  apply (formatChars_nonempty (Url.setPathname (Url.parse s) (appendSuffix p))
           (appendSuffix p) eq_refl (appendSuffix_nonempty p)).
  destruct (Url.formatChars _); [reflexivity | discriminate H].
Qed.

(** URL mode: what [getOptions] returns for a storybookUrl that is a
    string. *)
Lemma url_mode input s :
  let options := normalize (flags input) (argv input) in
  Flags.storybookUrl (flags input) = JStr s -> s <> "" ->
  truthy (Options.projectToken options) = true ->
  patchAccepted (flags input) ->
  length (truthySelectors options) <= 1 ->
  truthy (Options.exitOnceUploaded options) = false ->
  getOptions input
  = try url <- finalizeUrl (JStr s);
    Ok (Resolved.mk options true (Options.buildScriptName options)
          (js_and (Options.https options)
                  (tlsObject (Options.cert options) (Options.key options)
                             (Options.ca options)))
          (JStr url) (Options.scriptName options), []).
Proof.
  cbv zeta. intros Hflag Hs Htok Hpatch Hsel Hexit.
  assert (Hurl : Options.storybookUrl (normalize (flags input) (argv input))
                 = JStr s).
  { cbn [normalize Options.storybookUrl]. rewrite Hflag.
    destruct s; [contradiction | reflexivity]. }
  assert (Ht : truthy (JStr s) = true) by (apply truthy_JStr; exact Hs).
  rewrite (getOptions_validated _ Htok Hpatch).
  rewrite resolve_steps. cbv zeta. rewrite (truthySelectors_le1 _ Hsel), Hexit, Hurl, Ht.
  cbn [negb andb]. rewrite !andb_false_r. reflexivity.
Qed.

(** The candidate from which the url of a returned configuration was
    made: the storybookUrl of the caller, or the URL of line 167. *)
Lemma resolved_candidate input cfg notices u :
  getOptions input = Ok (cfg, notices) ->
  Resolved.url cfg = JStr u ->
  let options := normalize (flags input) (argv input) in
  exists cand,
    finalizeUrl (JStr cand) = Ok u
    /\ (truthy (Options.storybookUrl options) = true ->
        Options.storybookUrl options = JStr cand)
    /\ (truthy (Options.storybookUrl options) = false ->
        exists port,
          cand = (if truthy (Resolved.https cfg) then "https" else "http")
                 +:+ "://localhost:" +:+ js_to_string port).
Proof.
  intros Hok Hu. cbv zeta. apply getOptions_ok in Hok.
  set (options := normalize (flags input) (argv input)) in *. clearbody options.
  destruct (resolve_ok_url _ _ _ _ _ _ Hok Hu) as (v & Hv & Hfin & -> & _).
  cbn [Resolved.https]. clear Hok Hu.
  destruct (truthy (Options.storybookUrl options)) eqn:Hurl; cbn [negb] in Hv.
  - injection Hv as <-. cbn [l_storybookUrl] in Hfin.
    destruct (Options.storybookUrl options) as [| | | |cand| |] eqn:E;
      try discriminate Hfin.
    exists cand. split; [exact Hfin|]. split; [reflexivity | discriminate].
  - apply startLocally_ok in Hv. destruct Hv as (Hcand & _).
    rewrite Hcand in Hfin. eexists. split; [exact Hfin|].
    split; [discriminate|]. intros _. eexists. reflexivity.
Qed.


Lemma only_scriptName options :
  truthy (Options.scriptName options) = true ->
  length (truthySelectors options) <= 1 ->
  truthy (Options.exec options) = false
  /\ truthy (Options.storybookUrl options) = false.
Proof.
  unfold truthySelectors, selectors. intros Hs.
  destruct (truthy (Options.buildScriptName options)) eqn:E1.
  all: destruct (truthy (Options.exec options)) eqn:E3.
  all: destruct (truthy (Options.storybookUrl options)) eqn:E4.
  all: destruct (truthy (Options.storybookBuildDir options)) eqn:E5.
  all: cbn; rewrite ?Hs, ?E1, ?E3, ?E4, ?E5; cbn.
  all: simpl; intros; try lia; auto.
Qed.

(** C6, as amended.  The helper that reads switches off a command string
    being the one modelled from the spec: for a manifest whose scripts hold
    "storybook": "start-storybook -p 9009", a token, the scriptName selector
    given without a value and no other selector, no port flag, no https
    flag, noStart false and exitOnceUploaded not requested, resolution
    returns in start mode with scriptName "storybook", noStart false and url
    "http://localhost:9009/iframe.html"; the port 9009 read off the script is
    reported in the notice, while the port property of the configuration
    stays the caller's.  When the script also carries
    --https --ssl-cert=./c.pem --ssl-key=./k.pem the resolved https is
    { cert: "./c.pem", key: "./k.pem", ca: undefined } and the url begins
    with https. *)
Theorem start_mode_from_script (input : Input) table :
  let options := normalize (flags input) (argv input) in
  let notices :=
    if log input then [InferredOptions "storybook" (JStr "9009")] else [] in
  (forall cmd short long,
     getStorybookConfiguration cmd short long
     = Helper.getStorybookConfiguration cmd short long) ->
  truthy (Options.projectToken options) = true ->
  patchAccepted (flags input) ->
  Flags.scriptName (flags input) = JStr "" ->
  length (truthySelectors options) <= 1 ->
  truthy (Options.exitOnceUploaded options) = false ->
  truthy (Flags.doNotStart (flags input)) = false ->
  truthy (Flags.storybookPort (flags input)) = false ->
  truthy (Flags.storybookHttps (flags input)) = false ->
  scripts (packageJson input) = Some table ->
  (table !! "storybook" = Some "start-storybook -p 9009" ->
   getOptions input
   = Ok (Resolved.mk options false (Options.buildScriptName options)
           JUndefined (JStr "http://localhost:9009/iframe.html")
           (JStr "storybook"), notices))
  /\ (table !! "storybook"
      = Some "start-storybook -p 9009 --https --ssl-cert=./c.pem --ssl-key=./k.pem" ->
      getOptions input
      = Ok (Resolved.mk options false (Options.buildScriptName options)
              (tlsObject (JStr "./c.pem") (JStr "./k.pem") JUndefined)
              (JStr "https://localhost:9009/iframe.html")
              (JStr "storybook"), notices)).
Proof.
  cbv zeta. intros Henv Htok Hpatch Hname Hsel Hexit Hns Hport Hhttps Htable.
  assert (Hscript : Options.scriptName (normalize (flags input) (argv input))
                    = JBool true).
  { cbn [normalize Options.scriptName]. rewrite Hname. reflexivity. }
  assert (Hst : truthy (Options.scriptName (normalize (flags input) (argv input)))
                = true) by (rewrite Hscript; reflexivity).
  destruct (only_scriptName _ Hst Hsel) as [Hexec Hurl].
  assert (Hres : forall cmd,
    table !! "storybook" = Some cmd -> cmd <> "" ->
    getOptions input
    = try v <- inferFromScript (packageJson input) (log input)
                 (Flags.storybookHttps (flags input))
                 (Flags.storybookPort (flags input)) (JBool true);
      try url <- finalizeUrl
                   (JStr ((if truthy (l_https v) then "https" else "http")
                          +:+ "://localhost:" +:+ js_to_string (l_port v)));
      Ok (Resolved.mk (normalize (flags input) (argv input)) false
            (Options.buildScriptName (normalize (flags input) (argv input)))
            (l_https v) (JStr url) (l_scriptName v), l_notices v)).
  { intros cmd Hcmd Hne. rewrite (getOptions_validated _ Htok Hpatch).
    rewrite resolve_steps. cbv zeta.
    rewrite (truthySelectors_le1 _ Hsel), Hexit, Hurl, Hexec, Hst.
    cbn [negb andb]. rewrite !andb_false_r.
    cbn [normalize Options.noStart Options.port Options.https Options.exec].
    rewrite Hns. cbn [andb]. unfold startLocally.
    cbn [normalize Options.exec] in Hexec. rewrite Hexec, Hport.
    cbn [negb andb orb]. rewrite Hscript.
    rewrite (js_and_falsy _ _ Hhttps).
    destruct (inferFromScript _ _ _ _ _) as [v|e]; reflexivity. }
  assert (Hlookup : forall cmd,
    table !! "storybook" = Some cmd ->
    lookupScript (packageJson input) "storybook" = Command cmd).
  { intros cmd Hcmd. unfold lookupScript. rewrite Htable, Hcmd. reflexivity. }
  split; intros Hcmd; rewrite (Hres _ Hcmd) by discriminate;
    unfold inferFromScript; cbn [stringOr]; rewrite (Hlookup _ Hcmd);
    cbn [entryTruthy negb String.eqb Ascii.eqb Bool.eqb];
    unfold inferHttps, inferPort; rewrite Hhttps, Hport;
    cbn [scriptSwitch bind]; rewrite !Henv.
  - change (Helper.getStorybookConfiguration "start-storybook -p 9009" "--https" None)
      with JUndefined.
    change (Helper.getStorybookConfiguration "start-storybook -p 9009" "-p"
              (Some "--port")) with (JStr "9009").
    cbn [truthy bind negb String.eqb Ascii.eqb Bool.eqb l_https l_port
         l_scriptName l_notices].
    change (finalizeUrl (JStr ("http" +:+ "://localhost:" +:+ js_to_string (JStr "9009"))))
      with (Ok (A:=string) "http://localhost:9009/iframe.html").
    reflexivity.
  - change (Helper.getStorybookConfiguration
              "start-storybook -p 9009 --https --ssl-cert=./c.pem --ssl-key=./k.pem"
              "--https" None) with (JStr "--ssl-cert").
    change (Helper.getStorybookConfiguration
              "start-storybook -p 9009 --https --ssl-cert=./c.pem --ssl-key=./k.pem"
              "--ssl-cert" None) with (JStr "./c.pem").
    change (Helper.getStorybookConfiguration
              "start-storybook -p 9009 --https --ssl-cert=./c.pem --ssl-key=./k.pem"
              "--ssl-key" None) with (JStr "./k.pem").
    change (Helper.getStorybookConfiguration
              "start-storybook -p 9009 --https --ssl-cert=./c.pem --ssl-key=./k.pem"
              "--ssl-ca" None) with JUndefined.
    change (Helper.getStorybookConfiguration
              "start-storybook -p 9009 --https --ssl-cert=./c.pem --ssl-key=./k.pem"
              "-p" (Some "--port")) with (JStr "9009").
    change (resolveHomeDir (JStr "./c.pem")) with (Ok (JStr "./c.pem")).
    change (resolveHomeDir (JStr "./k.pem")) with (Ok (JStr "./k.pem")).
    change (resolveHomeDir JUndefined) with (Ok JUndefined).
    cbn [truthy bind negb String.eqb Ascii.eqb Bool.eqb l_https l_port
         l_scriptName l_notices tlsObject].
    change (finalizeUrl (JStr ("https" +:+ "://localhost:" +:+ js_to_string (JStr "9009"))))
      with (Ok (A:=string) "https://localhost:9009/iframe.html").
    reflexivity.
Qed.
End Resolution.

(** * Further properties *)

Section Normalisation.
Context {env : Environment}.

(** ** The token of a repeated flag *)

Lemma last_snoc_js (l : list JsVal) x d : List.last (l ++ [x]) d = x.
Proof.
  induction l as [|y l IH]; [reflexivity|]. simpl.
  destruct (l ++ [x]) eqn:E; [destruct l; discriminate|]. exact IH.
Qed.

(** X1.  A projectToken flag given several times is an array of the values
    in the order of the command line: its last value is the token when it is
    truthy, whatever the appCode flag and the environment hold; when the
    last value is falsy the token is the environment default, and the
    appCode flag is not consulted. *)
Theorem repeated_token_last_wins (f : Flags.t) (argv : JsVal) earlier last :
  Flags.projectToken f = JArr (earlier ++ [last]) ->
  (truthy last = true -> Options.projectToken (normalize f argv) = last)
  /\ (truthy last = false ->
      Options.projectToken (normalize f argv) = CHROMATIC_PROJECT_TOKEN).
Proof.
  intros Hf. cbn [normalize Options.projectToken]. rewrite Hf.
  unfold js_or. change (truthy (JArr (earlier ++ [last]))) with true.
  cbv iota. cbn [takeLast]. rewrite last_snoc_js.
  split; intros ->; reflexivity.
Qed.

(** ** Home directory expansion: failures *)

(** X2.  [resolveHomeDir] returns a falsy value as it is (an absent path
    stays absent); on a truthy value it fails, with a type error, exactly
    when the value is not a string or when it begins with [~] while HOME is
    not a string. *)
Theorem resolveHomeDir_failures (v : JsVal) :
  (truthy v = false -> resolveHomeDir v = Ok v)
  /\ (truthy v = true ->
      ((exists e, resolveHomeDir v = Raise e)
       <-> (forall s, v <> JStr s)
           \/ (exists rest, v = JStr (String "~" rest)
                            /\ forall home, HOME <> JStr home)))
  /\ (forall e, resolveHomeDir v = Raise e -> e = JsTypeError).
Proof.
  split; [|split].
  - unfold resolveHomeDir. intros ->. reflexivity.
  - intros Ht. unfold resolveHomeDir. rewrite Ht. split.
    + intros [e He].
      destruct v as [| |b|n|s|l|o]; try (left; intros s' ?; discriminate).
      right. destruct s as [|c s]; [discriminate He|].
      destruct (Ascii.ascii_dec c "~") as [->|Hc].
      * exists s. split; [reflexivity|]. intros home Hhome.
        rewrite Hhome in He. discriminate He.
      * exfalso. destruct c as [[] [] [] [] [] [] [] []];
          try discriminate He. contradiction.
    + intros [Hns | (rest & -> & Hhome)].
      * destruct v as [| |b|n|s|l|o]; try (eexists; reflexivity).
        exfalso. exact (Hns s eq_refl).
      * destruct HOME as [| |b|n|s|l|o] eqn:E; try (eexists; reflexivity).
        exfalso. exact (Hhome s eq_refl).
  - apply resolveHomeDir_raises.
Qed.

(** ** The two references of a patch build *)

Lemma split_dots_base base cur :
  occursIn "..." base = false ->
  split_go "..." base 0 cur = [cur +:+ base].
Proof.
  revert cur. induction base as [|c base IH]; intros cur H.
  - simpl. rewrite append_empty_r. reflexivity.
  - cbn [occursIn] in H. apply orb_false_iff in H. destruct H as [Hp Ho].
    cbn [split_go]. rewrite Hp, IH by exact Ho.
    rewrite append_assoc. reflexivity.
Qed.

Lemma prefix_dots_head c head t :
  occursIn "..." (String c head) = false ->
  endsWithDot (String c head) = false ->
  String.prefix "..." (String c head +:+ "..." +:+ t) = false.
Proof.
  intros Ho He. cbn [occursIn] in Ho. apply orb_false_iff in Ho.
  destruct Ho as [Hp _].
  rewrite append_cons. cbn [String.prefix] in Hp |- *.
  destruct (ascii_dec "." c) as [<-|]; [|reflexivity].
  destruct head as [|d head]; [discriminate He|].
  rewrite append_cons. cbn [String.prefix] in Hp |- *.
  destruct (ascii_dec "." d) as [<-|]; [|reflexivity].
  destruct head as [|e head]; [discriminate He|].
  rewrite append_cons. cbn [String.prefix] in Hp |- *.
  destruct (ascii_dec "." e) as [<-|]; [|reflexivity].
  cbn in Hp. destruct head; discriminate Hp.
Qed.

Lemma endsWithDot_tail c d head :
  endsWithDot (String c (String d head)) = endsWithDot (String d head).
Proof. reflexivity. Qed.

Lemma split_dots_head head t cur :
  occursIn "..." head = false ->
  endsWithDot head = false ->
  split_go "..." (head +:+ "..." +:+ t) 0 cur
  = (cur +:+ head) :: split_go "..." t 0 "".
Proof.
  revert cur. induction head as [|c head IH]; intros cur Ho He.
  - rewrite append_empty_r. destruct t as [|x [|y t]]; reflexivity.
  - pose proof (prefix_dots_head c head t Ho He) as Hp.
    rewrite append_cons in *. cbn [split_go]. rewrite Hp.
    cbn [occursIn] in Ho. apply orb_false_iff in Ho. destruct Ho as [_ Ho].
    destruct head as [|d head].
    + rewrite (IH _ Ho eq_refl). rewrite append_assoc. reflexivity.
    + rewrite endsWithDot_tail in He.
      rewrite (IH _ Ho He). rewrite append_assoc. reflexivity.
Qed.

(** X3.  A patchBuild flag written [head...base] gives back the two
    references: when neither is empty, neither contains the separator and
    the head does not end with a dot (the separator is looked for from the
    left), patchHeadRef is the head and patchBaseRef is the base; the check
    then passes when they differ and throws DuplicatePatchBuild when they
    are equal. *)
Theorem patch_build_round_trip (input : Input) (head base : string) :
  let options := normalize (flags input) (argv input) in
  Flags.patchBuild (flags input) = Some (head +:+ "..." +:+ base) ->
  head <> "" -> base <> "" ->
  occursIn "..." head = false -> endsWithDot head = false ->
  occursIn "..." base = false ->
  Options.patchHeadRef options = JStr head
  /\ Options.patchBaseRef options = JStr base
  /\ (head <> base -> checkPatchBuild (flags input) options = Ok tt)
  /\ (head = base ->
      checkPatchBuild (flags input) options = throw DuplicatePatchBuild).
Proof.
  cbv zeta. intros Hflag Hh Hb Hoh Heh Hob.
  assert (Hrefs : patchRefs (flags input) = [head; base]).
  { unfold patchRefs, split. rewrite Hflag.
    change (default "" (Some (head +:+ "..." +:+ base)))
      with (head +:+ "..." +:+ base).
    rewrite (split_dots_head _ _ _ Hoh Heh), (split_dots_base _ _ Hob).
    cbn [String.append]. unfold filterBoolean.
    rewrite !filter_cons_True by assumption. reflexivity. }
  assert (Hgiven : patchGiven (flags input) = true).
  { unfold patchGiven. rewrite Hflag.
    destruct head; [contradiction | reflexivity]. }
  destruct (patch_refs_two _ _ _ _ Hrefs) as (Hth & Htb & Heq).
  unfold checkPatchBuild. rewrite Hgiven.
  cbn [normalize Options.patchHeadRef Options.patchBaseRef] in *.
  rewrite Hth, Htb, Heq. rewrite Hrefs. cbn [negb orb].
  repeat split.
  - intros Hne. destruct (String.eqb_spec head base); [contradiction|reflexivity].
  - intros ->. rewrite String.eqb_refl. reflexivity.
Qed.

End Normalisation.

(** ** URLs with a host: where the suffix goes *)

Module UrlForms.
Import Url.

Lemma chars_app s t : chars (s +:+ t) = chars s ++ chars t.
Proof.
  induction s as [|c s IH]; [reflexivity|]. rewrite append_cons.
  unfold chars in *. simpl. rewrite IH. reflexivity.
Qed.

Lemma string_of_chars s : string_of_list_ascii (chars s) = s.
Proof. apply string_of_list_ascii_of_string. Qed.

Lemma string_of_app a b :
  string_of_list_ascii (a ++ b)
  = string_of_list_ascii a +:+ string_of_list_ascii b.
Proof.
  induction a as [|c a IH]; [reflexivity|]. simpl. rewrite IH. reflexivity.
Qed.

(** Characters accepted by [P] are none of them the character [c]. *)
Lemma free_of (P : ascii -> bool) c l :
  (forall x, P x = true -> isChar c x = false) ->
  forallb P l = true -> free c l.
Proof.
  intros HP. unfold free. induction l as [|x l IH]; intros H; [constructor|].
  cbn [forallb] in H. apply andb_true_iff in H. destruct H as [Hx Hl].
  constructor; [apply HP; exact Hx | apply IH; exact Hl].
Qed.

Ltac by_cases_on_char :=
  let x := fresh "x" in
  intros x; destruct x as [[] [] [] [] [] [] [] []]; vm_compute;
  intros; congruence.

Lemma hostChar_free c :
  c = "/"%char \/ c = "?"%char \/ c = "#"%char ->
  forall x, hostChar x = true -> isChar c x = false.
Proof. intros [-> | [-> | ->]]; by_cases_on_char. Qed.

Lemma isDigit_hostChar x : isDigit x = true -> hostChar x = true.
Proof. revert x. by_cases_on_char. Qed.

Lemma pathChar_free c :
  c = "?"%char \/ c = "#"%char ->
  forall x, pathChar x = true -> isChar c x = false.
Proof. intros [-> | ->]; by_cases_on_char. Qed.

Lemma queryChar_free x : queryChar x = true -> isChar "#" x = false.
Proof. revert x. by_cases_on_char. Qed.

Lemma marked_stops c s : marked c s = true -> stopsAt (isChar c) (chars s).
Proof. destruct s as [|x s]; simpl; [auto|]. unfold isChar. auto. Qed.

(** The text of a record that has an authority. *)
Lemma format_slashes u p :
  wellFormed u p -> slashes u = true ->
  formatChars u
  = protocol u ++ chars "//" ++ host u ++ p ++ search u ++ hash u.
Proof.
  destruct u as [proto sl hst path srch hsh]. unfold wellFormed.
  cbn [protocol slashes host pathname search hash].
  intros (-> & Hne & Fh & Fq & Sh & Sq & Hshape) ->.
  unfold free in Fh, Fq.
  repeat rewrite Forall_app in Fh. repeat rewrite Forall_app in Fq.
  destruct Fh as (Fhp & Fhh & Fhpath & Fhs). destruct Fq as (Fqp & Fqh & Fqpath).
  unfold formatChars. cbn [protocol slashes host pathname search hash].
  cbv zeta. change (default [] (Some p)) with p.
  rewrite (UrlFacts.escapePath_free p), (UrlFacts.escapeSearch_free srch) by assumption.
  rewrite (UrlFacts.withLeading_stops "?" srch), (UrlFacts.withLeading_stops "#" hsh)
    by assumption.
  cbn [orb andb].
  unfold shape in Hshape. cbn [protocol slashes host] in Hshape.
  destruct Hshape as [(_ & Hsl & _) | [(_ & _ & _ & Sp) | [(_ & Hsl & _)
                     | (_ & Hsl & _)]]]; try discriminate Hsl.
  rewrite (UrlFacts.withLeading_stops "/" p) by assumption.
  rewrite <- !app_assoc. reflexivity.
Qed.

(** What the parser makes of [scheme://host], a path, a query and a
    fragment. *)
Lemma parse_authority proto hst path srch hsh :
  isScheme proto -> slashedProtocol proto = true ->
  hst <> [] -> free "/" hst -> free "?" hst -> free "#" hst ->
  stopsAt (isChar "/") path -> free "?" path -> free "#" path ->
  stopsAt (isChar "?") srch -> free "#" srch ->
  stopsAt (isChar "#") hsh ->
  parseChars (proto ++ chars "//" ++ hst ++ path ++ srch ++ hsh)
  = mk proto true hst (Some (if nonempty path then path else chars "/"))
       srch hsh.
Proof.
  intros Hproto Hslashed Hne Fsh Fqh Fhh Sp Fqp Fhp Sq Fhs Sh.
  assert (Fhproto : free "#" proto)
    by (apply UrlFacts.isScheme_free; [reflexivity | discriminate | exact Hproto]).
  assert (Fqproto : free "?" proto)
    by (apply UrlFacts.isScheme_free; [reflexivity | discriminate | exact Hproto]).
  replace (proto ++ chars "//" ++ hst ++ path ++ srch ++ hsh)
    with ((proto ++ chars "//" ++ hst ++ path) ++ srch ++ hsh)
    by (rewrite <- !app_assoc; reflexivity).
  rewrite UrlFacts.parseChars_assembled; try assumption;
    try (repeat (apply Forall_app; split); try assumption; repeat constructor).
  rewrite (UrlFacts.parseAuthority_scheme _ _ _ _ Hproto). cbv zeta.
  assert (Hs : startsWith (chars "//") (chars "//" ++ hst ++ path) = true)
    by (apply UrlFacts.startsWith_slashes; eexists; reflexivity).
  rewrite Hs. cbn [orb].
  change (drop 2 (chars "//" ++ hst ++ path)) with (hst ++ path).
  rewrite (UrlFacts.break_unique (isChar "/") hst path) by assumption.
  rewrite Hslashed, (proj2 (UrlFacts.nonempty_true hst) Hne).
  destruct (nonempty path); reflexivity.
Qed.

End UrlForms.

Lemma http_scheme scheme :
  scheme = "http" \/ scheme = "https" ->
  Url.isScheme (Url.chars (scheme +:+ ":"))
  /\ Url.slashedProtocol (Url.chars (scheme +:+ ":")) = true.
Proof.
  intros [-> | ->]; (split; [|reflexivity]).
  - exists (Url.chars "http").
    split; [discriminate|]. split; [repeat constructor | reflexivity].
  - exists (Url.chars "https").
    split; [discriminate|]. split; [repeat constructor | reflexivity].
Qed.

(** Lines 170-183 on a URL that has an authority: the suffix is added to
    the path, and a missing path counts as [/]. *)
Lemma finalizeUrl_authority proto hst path srch hsh :
  Url.isScheme proto -> Url.slashedProtocol proto = true ->
  hst <> [] -> Url.free "/" hst -> Url.free "?" hst -> Url.free "#" hst ->
  Url.stopsAt (Url.isChar "/") path -> Url.free "?" path -> Url.free "#" path ->
  Url.stopsAt (Url.isChar "?") srch -> Url.free "#" srch ->
  Url.stopsAt (Url.isChar "#") hsh ->
  finalizeUrl
    (JStr (string_of_list_ascii
             (proto ++ Url.chars "//" ++ hst ++ path ++ srch ++ hsh)))
  = Ok (string_of_list_ascii
          (proto ++ Url.chars "//" ++ hst
           ++ appendSuffix (if Url.nonempty path then path else Url.chars "/")
           ++ srch ++ hsh)).
Proof.
  intros Hproto Hslashed Hne Fsh Fqh Fhh Sp Fqp Fhp Sq Fhs Sh.
  unfold finalizeUrl, Url.parse, Url.format. rewrite chars_of_list.
  pose proof (UrlFacts.parse_wellFormed
                (proto ++ Url.chars "//" ++ hst ++ path ++ srch ++ hsh)) as Hwf.
  rewrite (UrlForms.parse_authority proto hst path srch hsh) in Hwf |- *
    by assumption.
  cbn [Url.pathname] in Hwf |- *. specialize (Hwf _ eq_refl eq_refl).
  apply UrlFacts.wellFormed_appendSuffix in Hwf.
  rewrite (UrlForms.format_slashes _ _ Hwf eq_refl). reflexivity.
Qed.

(** The URL made at line 167 for a port in decimal digits, finalised. *)
Lemma finalizeUrl_localhost scheme port :
  scheme = "http" \/ scheme = "https" -> decimal port = true ->
  finalizeUrl (JStr (scheme +:+ "://localhost:" +:+ port))
  = Ok (scheme +:+ "://localhost:" +:+ port +:+ "/iframe.html").
Proof.
  intros Hscheme Hport. unfold decimal in Hport.
  apply andb_true_iff in Hport. destruct Hport as [_ Hdigits].
  destruct (http_scheme _ Hscheme) as [Hproto Hslashed].
  assert (Hfree : forall c, c = "/"%char \/ c = "?"%char \/ c = "#"%char ->
                            Url.free c (Url.chars "localhost:" ++ Url.chars port)).
  { intros c Hc. apply Forall_app. split.
    - destruct Hc as [-> | [-> | ->]]; repeat constructor.
    - apply (UrlForms.free_of isDigit); [|exact Hdigits].
      intros x Hx. apply (UrlForms.hostChar_free c Hc).
      apply UrlForms.isDigit_hostChar. exact Hx. }
  pose proof (finalizeUrl_authority (Url.chars (scheme +:+ ":"))
                (Url.chars "localhost:" ++ Url.chars port) [] [] []
                Hproto Hslashed) as H.
  cbn [Url.nonempty app] in H. rewrite ?app_nil_r in H.
  rewrite !UrlForms.string_of_app, !UrlForms.string_of_chars in H.
  change (appendSuffix (Url.chars "/")) with (Url.chars "/iframe.html") in H.
  rewrite UrlForms.string_of_chars in H.
  destruct Hscheme as [-> | ->]; apply H;
    try (apply Hfree; auto); try exact I; try constructor; discriminate.
Qed.

(** X4.  For an http or https URL with a host name, a path, a query and a
    fragment, written in the characters that the parser leaves as they are
    (the host name in lower-case letters, digits, dots and hyphens, with no
    label in the IDNA encoding or longer than 63 characters, and no more
    than 255 characters in all):
    [iframe.html] is added to the path (after a slash when the path does not
    end with one, and not at all when the path ends with it already), before
    the query and the fragment, which are kept; a URL without a path gets
    the path [/iframe.html]. *)
Theorem url_suffix_before_query (scheme host path query fragment : string) :
  scheme = "http" \/ scheme = "https" ->
  hostName (Url.chars host) = true ->
  marked "/" path = true -> forallb pathChar (Url.chars path) = true ->
  marked "?" query = true -> forallb queryChar (Url.chars query) = true ->
  marked "#" fragment = true ->
  forallb fragmentChar (Url.chars fragment) = true ->
  finalizeUrl
    (JStr (scheme +:+ "://" +:+ host +:+ path +:+ query +:+ fragment))
  = Ok (scheme +:+ "://" +:+ host
        +:+ string_of_list_ascii
              (appendSuffix
                 (Url.chars (if String.eqb path "" then "/" else path)))
        +:+ query +:+ fragment).
Proof.
  intros Hscheme Hname Hpm Hpc Hqm Hqc Hfm _.
  unfold hostName in Hname. rewrite !andb_true_iff in Hname.
  destruct Hname as [[[[Hhost Hhc] _] _] _].
  destruct (http_scheme _ Hscheme) as [Hproto Hslashed].
  pose proof (finalizeUrl_authority (Url.chars (scheme +:+ ":"))
                (Url.chars host) (Url.chars path) (Url.chars query)
                (Url.chars fragment) Hproto Hslashed) as H.
  rewrite !UrlForms.string_of_app, !UrlForms.string_of_chars in H.
  assert (Hp0 : (if Url.nonempty (Url.chars path) then Url.chars path
                 else Url.chars "/")
                = Url.chars (if String.eqb path "" then "/" else path))
    by (destruct path; reflexivity).
  rewrite Hp0 in H.
  destruct Hscheme as [-> | ->]; apply H;
    try (apply UrlForms.marked_stops; assumption);
    try (apply (UrlForms.free_of hostChar); [apply UrlForms.hostChar_free; auto | assumption]);
    try (apply (UrlForms.free_of pathChar); [apply UrlForms.pathChar_free; auto | assumption]);
    try (apply (UrlForms.free_of queryChar); [apply UrlForms.queryChar_free | assumption]);
    destruct host; discriminate.
Qed.

Lemma takeScheme_no_colon l : Url.free ":" l -> Url.takeScheme l = ([], l).
Proof.
  intros Hf.
  destruct (UrlFacts.takeScheme_cases l)
    as [H | (proto & rest & _ & (name & _ & _ & ->) & ->)]; [exact H|].
  exfalso. unfold Url.free in Hf. rewrite !Forall_app in Hf.
  destruct Hf as [[_ Hc] _]. inversion Hc as [|? ? Hx _].
  vm_compute in Hx. discriminate Hx.
Qed.

Lemma pathChar_no_colon x : pathChar x = true -> Url.isChar ":" x = false.
Proof. revert x. UrlForms.by_cases_on_char. Qed.

Lemma hostChar_schemeChar x : hostChar x = true -> Url.schemeChar x = true.
Proof. revert x. UrlForms.by_cases_on_char. Qed.

(** X5.  A storybookUrl without a scheme, written in the characters that the
    parser leaves as they are, is a path: it gets the suffix like any path. *)
Theorem url_without_scheme (s : string) :
  s <> "" -> forallb pathChar (Url.chars s) = true ->
  finalizeUrl (JStr s)
  = Ok (string_of_list_ascii (appendSuffix (Url.chars s))).
Proof.
  intros Hne Hchars.
  assert (Fh : Url.free "#" (Url.chars s))
    by (apply (UrlForms.free_of pathChar);
        [apply UrlForms.pathChar_free; auto | assumption]).
  assert (Fq : Url.free "?" (Url.chars s))
    by (apply (UrlForms.free_of pathChar);
        [apply UrlForms.pathChar_free; auto | assumption]).
  assert (Fc : Url.free ":" (Url.chars s))
    by (apply (UrlForms.free_of pathChar);
        [apply pathChar_no_colon | assumption]).
  assert (Hl : Url.nonempty (Url.chars s) = true)
    by (destruct s; [contradiction | reflexivity]).
  unfold finalizeUrl, Url.parse, Url.format.
  pose proof (UrlFacts.parseChars_assembled (Url.chars s) [] []
                Fh (Forall_nil_2 _) Fq I I) as Hparse.
  rewrite app_nil_r in Hparse. rewrite Hparse.
  unfold Url.parseAuthority. rewrite (takeScheme_no_colon _ Fc).
  cbn [Url.nonempty andb orb]. rewrite Hl.
  cbn [Url.pathname Url.setPathname Url.protocol Url.slashes Url.host
       Url.search Url.hash].
  unfold Url.formatChars, Url.setPathname.
  cbn [Url.pathname Url.protocol Url.slashes Url.host Url.search Url.hash
       Url.nonempty andb orb].
  change (Url.slashedProtocol []) with false. cbn [andb app].
  change (default [] (Some (appendSuffix (Url.chars s))))
    with (appendSuffix (Url.chars s)).
  destruct (UrlFacts.appendSuffix_extends (Url.chars s))
    as (t & Heq & Fht & Fqt & _).
  rewrite UrlFacts.escapePath_free
    by (rewrite Heq; apply Forall_app; split; assumption).
  cbn [Url.escapeSearch Url.withLeading]. rewrite app_nil_r. reflexivity.
Qed.

(** Lines 170-172 on [name:port]: the name is taken for a scheme and the
    port for a host, and no path is left. *)
Lemma finalizeUrl_host_port name port :
  name <> "" -> forallb hostChar (Url.chars name) = true ->
  Url.slashedProtocol (Url.chars (name +:+ ":")) = false ->
  decimal port = true ->
  finalizeUrl (JStr (name +:+ ":" +:+ port)) = Raise JsTypeError.
Proof.
  intros Hne Hname Hslashed Hport. unfold decimal in Hport.
  apply andb_true_iff in Hport. destruct Hport as [_ Hdigits].
  assert (Hfree : forall c, c = "/"%char \/ c = "?"%char \/ c = "#"%char ->
                            Url.free c (Url.chars port)).
  { intros c Hc. apply (UrlForms.free_of isDigit); [|exact Hdigits].
    intros x Hx. apply (UrlForms.hostChar_free c Hc).
    apply UrlForms.isDigit_hostChar. exact Hx. }
  assert (Hproto : Url.isScheme (Url.chars (name +:+ ":"))).
  { exists (Url.chars name). split; [destruct name; [contradiction|discriminate]|].
    split; [|apply UrlForms.chars_app].
    clear -Hname. induction (Url.chars name) as [|x l IH]; [constructor|].
    cbn [forallb] in Hname. apply andb_true_iff in Hname.
    destruct Hname as [Hx Hl].
    constructor; [apply hostChar_schemeChar; exact Hx | apply IH; exact Hl]. }
  assert (Fhn : Url.free "#" (Url.chars (name +:+ ":")))
    by (apply UrlFacts.isScheme_free; [reflexivity | discriminate | exact Hproto]).
  assert (Fqn : Url.free "?" (Url.chars (name +:+ ":")))
    by (apply UrlFacts.isScheme_free; [reflexivity | discriminate | exact Hproto]).
  unfold finalizeUrl, Url.parse.
  replace (Url.chars (name +:+ ":" +:+ port))
    with ((Url.chars (name +:+ ":") ++ Url.chars port) ++ [] ++ [])
    by (rewrite !app_nil_r, <- UrlForms.chars_app, append_assoc; reflexivity).
  rewrite UrlFacts.parseChars_assembled;
    try (apply Forall_app; split; [assumption | apply Hfree; auto]);
    try constructor.
  rewrite (UrlFacts.parseAuthority_scheme _ _ _ _ Hproto). cbv zeta.
  rewrite Hslashed.
  assert (Hs : Url.startsWith (Url.chars "//") (Url.chars port) = false).
  { destruct (Url.startsWith (Url.chars "//") (Url.chars port)) eqn:E;
      [|reflexivity].
    apply UrlFacts.startsWith_slashes in E. destruct E as [k E].
    pose proof (Hfree "/"%char (or_introl eq_refl)) as Hf. rewrite E in Hf.
    inversion Hf as [|? ? Hx _]. discriminate Hx. }
  rewrite Hs. cbn [orb negb].
  pose proof (UrlFacts.break_unique (Url.isChar "/") (Url.chars port) []
                (Hfree "/"%char (or_introl eq_refl)) I) as Hbreak.
  rewrite app_nil_r in Hbreak. rewrite Hbreak. reflexivity.
Qed.

(** ** The modes of resolution *)

Section Modes.
Context {env : Environment}.

Lemma truthy_js_and a b : truthy b = true -> truthy (js_and a b) = truthy a.
Proof. unfold js_and. destruct (truthy a) eqn:E; congruence. Qed.

Lemma truthy_callerHttps options :
  truthy (callerHttps options) = truthy (Options.https options).
Proof. apply truthy_js_and. reflexivity. Qed.

(** Lines 125-185 for an input that the validations let through. *)
Lemma getOptions_modes input :
  validated input ->
  getOptions input
  = let options := normalize (flags input) (argv input) in
    if building options then
      if truthy (Options.storybookBuildDir options)
      then Ok (Resolved.mk options true (Options.buildScriptName options)
                 (Options.https options) JUndefined
                 (Options.scriptName options), [])
      else
        let name := stringOr (Options.buildScriptName options) "build-storybook" in
        if entryTruthy (lookupScript (packageJson input) name)
        then Ok (Resolved.mk options true (JStr name) (Options.https options)
                   JUndefined (Options.scriptName options), [])
        else throw (MissingBuildScriptName name)
    else
      let noStart :=
        if truthy (Options.storybookUrl options) then true
        else Options.noStart options in
      try v <-
        (if negb (truthy (Options.storybookUrl options))
         then startLocally (packageJson input) (log input)
                (Options.exec options) noStart (callerHttps options)
                (Options.port options) (Options.scriptName options)
         else Ok {| l_https := callerHttps options;
                    l_port := Options.port options;
                    l_scriptName := Options.scriptName options;
                    l_storybookUrl := Options.storybookUrl options;
                    l_notices := [] |});
      try url <- finalizeUrl (l_storybookUrl v);
      Ok (Resolved.mk options noStart (Options.buildScriptName options)
            (l_https v) (JStr url) (l_scriptName v), l_notices v).
Proof.
  intros (Htok & Hpatch & Hsel & Hexit). cbv zeta in Hexit.
  rewrite (getOptions_validated _ Htok Hpatch). unfold resolve. cbv zeta.
  unfold checkSingularOptions. cbv zeta. rewrite (truthySelectors_le1 _ Hsel).
  cbn [bind]. rewrite Hexit. cbn [bind]. unfold building, callerHttps.
  destruct (truthy (Options.storybookUrl _)) eqn:Hurl.
  - cbn [negb andb]. rewrite !andb_false_r. reflexivity.
  - reflexivity.
Qed.

(** Lines 137-168 when the start script is looked up. *)
Lemma startLocally_inferring pj lg exec noStart https port name :
  truthy exec = false ->
  negb (truthy port) || negb noStart = true ->
  startLocally pj lg exec noStart https port name
  = try w <- inferFromScript pj lg https port name;
    Ok {| l_https := l_https w; l_port := l_port w;
          l_scriptName := l_scriptName w;
          l_storybookUrl :=
            JStr ((if truthy (l_https w) then "https" else "http")
                  +:+ "://localhost:" +:+ js_to_string (l_port w));
          l_notices := l_notices w |}.
Proof.
  intros Hexec Hcond. unfold startLocally. rewrite Hexec, Hcond. reflexivity.
Qed.

(** Lines 137-168 when the port is given and nothing is looked up. *)
Lemma startLocally_direct pj lg exec noStart https port name :
  truthy exec = true \/ noStart = true ->
  truthy port = true ->
  startLocally pj lg exec noStart https port name
  = Ok {| l_https := https; l_port := port; l_scriptName := name;
          l_storybookUrl :=
            JStr ((if truthy https then "https" else "http")
                  +:+ "://localhost:" +:+ js_to_string port);
          l_notices := [] |}.
Proof.
  intros Hcase Hport. unfold startLocally. rewrite Hport.
  cbn [negb orb]. rewrite andb_false_r.
  destruct Hcase as [-> | ->]; [reflexivity|].
  rewrite andb_false_r. reflexivity.
Qed.

Lemma inferFromScript_inv pj lg https port name w :
  inferFromScript pj lg https port name = Ok w ->
  let script := stringOr name "storybook" in
  entryTruthy (lookupScript pj script) = true
  /\ inferHttps https (lookupScript pj script) = Ok (l_https w)
  /\ inferPort port (lookupScript pj script) = Ok (l_port w)
  /\ truthy (l_port w) = true
  /\ l_scriptName w = JStr script
  /\ l_notices w = if lg then [InferredOptions script (l_port w)] else [].
Proof.
  unfold inferFromScript. cbv zeta. intros H.
  destruct (entryTruthy _) eqn:Hentry; [|discriminate H]. cbn [negb] in H.
  apply bind_ok in H. destruct H as (h & Hh & H).
  apply bind_ok in H. destruct H as (p & Hp & H).
  destruct (truthy p) eqn:Htp; [|discriminate H]. cbn [negb] in H.
  simplify_eq. cbn. auto 10.
Qed.

(** Only one of the five selectors is truthy. *)
Lemma single_selector options :
  length (truthySelectors options) <= 1 ->
  forall a b,
    a ∈ selectors options -> b ∈ selectors options -> a.1 <> b.1 ->
    truthy a.2 = true -> truthy b.2 = false.
Proof.
  unfold truthySelectors, selectors. intros Hlen a b Ha Hb Hne Hta.
  destruct (truthy b.2) eqn:Htb; [exfalso | reflexivity].
  rewrite !elem_of_cons, !elem_of_nil in Ha, Hb.
  destruct (truthy (Options.buildScriptName options)) eqn:E1.
  all: destruct (truthy (Options.scriptName options)) eqn:E2.
  all: destruct (truthy (Options.exec options)) eqn:E3.
  all: destruct (truthy (Options.storybookUrl options)) eqn:E4.
  all: destruct (truthy (Options.storybookBuildDir options)) eqn:E5.
  all: cbn in Hlen; rewrite ?E1, ?E2, ?E3, ?E4, ?E5 in Hlen; simpl in Hlen.
  all: try lia.
  all: destruct_or!; simplify_eq; cbn in *; congruence.
Qed.

Lemma exec_alone options :
  length (truthySelectors options) <= 1 ->
  truthy (Options.exec options) = true ->
  truthy (Options.scriptName options) = false
  /\ truthy (Options.storybookUrl options) = false.
Proof.
  intros Hlen Hexec. split.
  - apply (single_selector _ Hlen ("--exec", Options.exec options)
             ("--script-name", Options.scriptName options));
      [set_solver | set_solver | discriminate | exact Hexec].
  - apply (single_selector _ Hlen ("--exec", Options.exec options)
             ("--storybook-url", Options.storybookUrl options));
      [set_solver | set_solver | discriminate | exact Hexec].
Qed.

End Modes.

(** ** Outcomes of a resolution *)

Section Outcomes.
Context {env : Environment}.

Lemma checkProjectToken_cases options :
  (checkProjectToken options = Ok tt
   /\ truthy (Options.projectToken options) = true)
  \/ checkProjectToken options = throw MissingProjectToken.
Proof.
  unfold checkProjectToken.
  destruct (truthy (Options.projectToken options)); cbn [negb]; auto.
Qed.

Lemma checkPatchBuild_cases f argv :
  (checkPatchBuild f (normalize f argv) = Ok tt /\ patchAccepted f)
  \/ checkPatchBuild f (normalize f argv) = throw InvalidPatchBuild
  \/ checkPatchBuild f (normalize f argv) = throw DuplicatePatchBuild.
Proof.
  unfold checkPatchBuild, patchAccepted.
  destruct (patchGiven f); [|auto].
  cbn [normalize Options.patchHeadRef Options.patchBaseRef].
  destruct (patchRefs f) as [|h [|b rest]] eqn:Hrefs;
    try (right; left; cbn; rewrite ?orb_true_r; reflexivity).
  destruct (patch_refs_two _ _ _ _ Hrefs) as (Hh & Hb & Heq).
  rewrite Hrefs in Hh, Hb, Heq. rewrite Hh, Hb, Heq. cbn [negb orb].
  destruct (String.eqb_spec h b) as [->|Hne]; [auto|].
  left. split; [reflexivity|]. right. exists h, b, rest. auto.
Qed.

Lemma checkSingularOptions_cases options :
  (checkSingularOptions options = Ok tt
   /\ length (truthySelectors options) <= 1)
  \/ exists labels,
       checkSingularOptions options = throw (InvalidSingularOptions labels).
Proof.
  unfold checkSingularOptions. cbv zeta. rewrite selectors_found_length.
  destruct (Nat.ltb_spec 1 (length (foundSingularOpts options)));
    [right; eauto | left; split; [reflexivity | lia]].
Qed.

Lemma checkExitOnceUploaded_cases options noStart name :
  checkExitOnceUploaded options noStart name = Ok tt
  \/ checkExitOnceUploaded options noStart name = throw InvalidExitOnceUploaded.
Proof.
  unfold checkExitOnceUploaded. repeat case_match; auto.
Qed.

(** Resolution stops at one of the four validations of lines 75-122, with
    the error of that validation, or the input is validated. *)
Lemma getOptions_outcome input :
  validated input
  \/ getOptions input = throw MissingProjectToken
  \/ getOptions input = throw InvalidPatchBuild
  \/ getOptions input = throw DuplicatePatchBuild
  \/ (exists labels, getOptions input = throw (InvalidSingularOptions labels))
  \/ getOptions input = throw InvalidExitOnceUploaded.
Proof.
  unfold getOptions, validated. cbv zeta.
  destruct (checkProjectToken_cases (normalize (flags input) (argv input)))
    as [[-> Htok] | ->]; [|auto]. cbn [bind].
  destruct (checkPatchBuild_cases (flags input) (argv input))
    as [[-> Hpatch] | [-> | ->]]; [|auto|auto]. cbn [bind].
  unfold resolve. cbv zeta.
  destruct (checkSingularOptions_cases (normalize (flags input) (argv input)))
    as [[-> Hsel] | [labels ->]]; [|right; right; right; right; left; eauto].
  cbn [bind].
  match goal with
  | |- context [checkExitOnceUploaded ?o ?ns ?name] =>
      destruct (checkExitOnceUploaded_cases o ns name) as [Hexit | Hexit]
  end.
  - left. auto.
  - rewrite Hexit. auto 10.
Qed.

(** An outcome other than the five validation errors is that of a validated
    input. *)
Lemma getOptions_reached input outcome :
  getOptions input = outcome ->
  match outcome with
  | Ok _ | Raise JsTypeError
  | Raise (Failure (MissingBuildScriptName _))
  | Raise (Failure (MissingScriptName _))
  | Raise (Failure MissingStorybookPort)
  | Raise (Failure (UnknownStorybookPort _)) => True
  | _ => False
  end ->
  validated input.
Proof.
  intros H Hkind.
  destruct (getOptions_outcome input)
    as [Hv | [Ho | [Ho | [Ho | [[labels Ho] | Ho]]]]]; [exact Hv | ..];
    rewrite Ho in H; subst outcome; contradiction.
Qed.

Lemma building_exec options :
  truthy (Options.exec options) = true -> building options = false.
Proof. unfold building. intros ->. rewrite !andb_false_r. reflexivity. Qed.

Lemma building_noStart options :
  Options.noStart options = true -> building options = false.
Proof. unfold building. intros ->. rewrite !andb_false_r. reflexivity. Qed.

Lemma building_url options :
  truthy (Options.storybookUrl options) = true -> building options = false.
Proof. unfold building. intros ->. rewrite !andb_false_r. reflexivity. Qed.

Lemma inferring_spec options :
  inferring options = true <->
  building options = false
  /\ truthy (Options.storybookUrl options) = false
  /\ truthy (Options.exec options) = false
  /\ negb (truthy (Options.port options)) || negb (Options.noStart options) = true.
Proof.
  unfold inferring. rewrite !andb_true_iff, !negb_true_iff. tauto.
Qed.

(** Lines 137-185 when the start script is looked up. *)
Lemma getOptions_inferring input :
  validated input ->
  inferring (normalize (flags input) (argv input)) = true ->
  getOptions input
  = let options := normalize (flags input) (argv input) in
    try w <- inferFromScript (packageJson input) (log input)
               (callerHttps options) (Options.port options)
               (Options.scriptName options);
    try url <- finalizeUrl
                 (JStr ((if truthy (l_https w) then "https" else "http")
                        +:+ "://localhost:" +:+ js_to_string (l_port w)));
    Ok (Resolved.mk options (Options.noStart options)
          (Options.buildScriptName options) (l_https w) (JStr url)
          (l_scriptName w), l_notices w).
Proof.
  intros Hv Hinf. apply inferring_spec in Hinf.
  destruct Hinf as (Hb & Hurl & Hexec & Hcond).
  rewrite (getOptions_modes _ Hv). cbv zeta. rewrite Hb, Hurl. cbn [negb].
  rewrite (startLocally_inferring _ _ _ _ _ _ _ Hexec Hcond).
  destruct (inferFromScript _ _ _ _ _) as [w|e]; reflexivity.
Qed.

(** Lines 137-185 when nothing is looked up. *)
Lemma getOptions_not_inferring input :
  validated input ->
  building (normalize (flags input) (argv input)) = false ->
  inferring (normalize (flags input) (argv input)) = false ->
  getOptions input
  = let options := normalize (flags input) (argv input) in
    if truthy (Options.storybookUrl options)
    then
      try url <- finalizeUrl (Options.storybookUrl options);
      Ok (Resolved.mk options true (Options.buildScriptName options)
            (callerHttps options) (JStr url) (Options.scriptName options), [])
    else if truthy (Options.port options)
    then
      try url <- finalizeUrl
                   (JStr ((if truthy (callerHttps options) then "https" else "http")
                          +:+ "://localhost:"
                          +:+ js_to_string (Options.port options)));
      Ok (Resolved.mk options (Options.noStart options)
            (Options.buildScriptName options) (callerHttps options) (JStr url)
            (Options.scriptName options), [])
    else throw MissingStorybookPort.
Proof.
  intros Hv Hb Hinf. rewrite (getOptions_modes _ Hv). cbv zeta. rewrite Hb.
  unfold inferring in Hinf. rewrite Hb in Hinf. cbn [negb andb] in Hinf.
  destruct (truthy (Options.storybookUrl _)) eqn:Hurl; cbn [negb andb] in *.
  - reflexivity.
  - unfold startLocally.
    destruct (truthy (Options.exec _)) eqn:Hexec; cbn [negb andb orb] in *.
    + destruct (truthy (Options.port _)); reflexivity.
    + apply orb_false_iff in Hinf. destruct Hinf as [Hp Hn].
      apply negb_false_iff in Hp. rewrite Hp.
      apply negb_false_iff in Hn. rewrite Hn. reflexivity.
Qed.

(** The three ways through lines 125-185. *)
Lemma mode_cases options :
  (building options = true /\ inferring options = false)
  \/ (building options = false /\ inferring options = true)
  \/ (building options = false /\ inferring options = false).
Proof.
  unfold inferring. destruct (building options); cbn [negb andb]; auto.
  destruct (_ && _ && _); auto.
Qed.

Lemma building_falsy options :
  building options = true ->
  truthy (Options.scriptName options) = false
  /\ truthy (Options.exec options) = false
  /\ Options.noStart options = false
  /\ truthy (Options.storybookUrl options) = false
  /\ truthy (Options.port options) = false.
Proof.
  unfold building. rewrite !andb_true_iff, !negb_true_iff. tauto.
Qed.

(** *** Failures *)

(** X6.  Resolution fails with MissingStorybookPort exactly when the input
    gets through the validations with an exec command and without a port. *)
Theorem exec_requires_port (input : Input) :
  let options := normalize (flags input) (argv input) in
  getOptions input = throw MissingStorybookPort
  <-> validated input
      /\ truthy (Options.exec options) = true
      /\ truthy (Options.port options) = false.
Proof.
  cbv zeta. split.
  - intros H. pose proof (getOptions_reached _ _ H I) as Hv.
    split; [exact Hv|].
    destruct (mode_cases (normalize (flags input) (argv input)))
      as [[Hb Hi] | [[Hb Hi] | [Hb Hi]]].
    + rewrite (getOptions_modes _ Hv) in H. cbv zeta in H. rewrite Hb in H.
      repeat case_match; discriminate H.
    + rewrite (getOptions_inferring _ Hv Hi) in H. cbv zeta in H.
      apply bind_raises in H. destruct H as [H | (w & _ & H)].
      * apply inferFromScript_raises in H.
        destruct H as [H | [H | H]]; discriminate H.
      * apply bind_raises in H. destruct H as [H | (u & _ & H)];
          [apply finalizeUrl_raises in H|]; discriminate H.
    + rewrite (getOptions_not_inferring _ Hv Hb Hi) in H. cbv zeta in H.
      destruct (truthy (Options.storybookUrl _)) eqn:Hurl.
      * apply bind_raises in H. destruct H as [H | (u & _ & H)];
          [apply finalizeUrl_raises in H|]; discriminate H.
      * destruct (truthy (Options.port _)) eqn:Hport.
        -- apply bind_raises in H. destruct H as [H | (u & _ & H)];
             [apply finalizeUrl_raises in H|]; discriminate H.
        -- split; [|reflexivity].
           unfold inferring in Hi. rewrite Hb, Hurl, Hport in Hi.
           cbn [negb andb orb] in Hi. rewrite andb_true_r in Hi.
           apply negb_false_iff in Hi. exact Hi.
  - intros (Hv & Hexec & Hport).
    assert (Hb := building_exec _ Hexec).
    assert (Hi : inferring (normalize (flags input) (argv input)) = false).
    { unfold inferring. rewrite Hexec. cbn [negb]. rewrite andb_false_r.
      reflexivity. }
    pose proof Hv as (Htok & Hpatch & Hsel & Hexit).
    destruct (exec_alone _ Hsel Hexec) as [_ Hurl].
    rewrite (getOptions_not_inferring _ Hv Hb Hi). cbv zeta.
    rewrite Hurl, Hport. reflexivity.
Qed.

(** X7.  Resolution fails with MissingScriptName exactly when the input gets
    through the validations, the start script is to be looked up, and the
    manifest has no command under its name: the scriptName given by the
    caller when that is a string, and 'storybook' otherwise. The error
    carries that name. *)
Theorem missing_script_name (input : Input) (n : string) :
  let options := normalize (flags input) (argv input) in
  let name := stringOr (Options.scriptName options) "storybook" in
  getOptions input = throw (MissingScriptName n)
  <-> validated input
      /\ inferring options = true
      /\ n = name
      /\ entryTruthy (lookupScript (packageJson input) name) = false.
Proof.
  cbv zeta. split.
  - intros H. pose proof (getOptions_reached _ _ H I) as Hv.
    split; [exact Hv|].
    destruct (mode_cases (normalize (flags input) (argv input)))
      as [[Hb Hi] | [[Hb Hi] | [Hb Hi]]].
    + rewrite (getOptions_modes _ Hv) in H. cbv zeta in H. rewrite Hb in H.
      repeat case_match; discriminate H.
    + split; [exact Hi|].
      rewrite (getOptions_inferring _ Hv Hi) in H. cbv zeta in H.
      apply bind_raises in H. destruct H as [H | (w & _ & H)].
      * unfold inferFromScript in H. cbv zeta in H.
        destruct (entryTruthy _) eqn:Hentry; cbn [negb] in H.
        -- exfalso. apply bind_raises in H. destruct H as [H | (h & _ & H)];
             [apply inferHttps_raises in H; discriminate H|].
           apply bind_raises in H. destruct H as [H | (p & _ & H)];
             [apply inferPort_raises in H; discriminate H|].
           destruct (negb (truthy p)); discriminate H.
        -- injection H as <-. auto.
      * apply bind_raises in H. destruct H as [H | (u & _ & H)];
          [apply finalizeUrl_raises in H|]; discriminate H.
    + rewrite (getOptions_not_inferring _ Hv Hb Hi) in H. cbv zeta in H.
      repeat case_match; try discriminate H;
        (apply bind_raises in H; destruct H as [H | (u & _ & H)];
         [apply finalizeUrl_raises in H|]; discriminate H).
  - intros (Hv & Hi & -> & Hentry).
    rewrite (getOptions_inferring _ Hv Hi). cbv zeta.
    unfold inferFromScript. cbv zeta. rewrite Hentry. reflexivity.
Qed.

(** X8.  Resolution fails with MissingBuildScriptName exactly when the input
    gets through the validations, Storybook is to be built, no
    storybookBuildDir was given, and the manifest has no command under the
    name of the build script: the buildScriptName given by the caller when
    that is a string, and 'build-storybook' otherwise. The error carries
    that name. *)
Theorem missing_build_script_name (input : Input) (n : string) :
  let options := normalize (flags input) (argv input) in
  let name := stringOr (Options.buildScriptName options) "build-storybook" in
  getOptions input = throw (MissingBuildScriptName n)
  <-> validated input
      /\ building options = true
      /\ truthy (Options.storybookBuildDir options) = false
      /\ n = name
      /\ entryTruthy (lookupScript (packageJson input) name) = false.
Proof.
  cbv zeta. split.
  - intros H. pose proof (getOptions_reached _ _ H I) as Hv.
    split; [exact Hv|].
    destruct (mode_cases (normalize (flags input) (argv input)))
      as [[Hb Hi] | [[Hb Hi] | [Hb Hi]]].
    + split; [exact Hb|].
      rewrite (getOptions_modes _ Hv) in H. cbv zeta in H. rewrite Hb in H.
      destruct (truthy (Options.storybookBuildDir _)); [discriminate H|].
      destruct (entryTruthy _) eqn:Hentry; [discriminate H|].
      injection H as <-. auto.
    + rewrite (getOptions_inferring _ Hv Hi) in H. cbv zeta in H.
      apply bind_raises in H. destruct H as [H | (w & _ & H)].
      * apply inferFromScript_raises in H.
        destruct H as [H | [H | H]]; discriminate H.
      * apply bind_raises in H. destruct H as [H | (u & _ & H)];
          [apply finalizeUrl_raises in H|]; discriminate H.
    + rewrite (getOptions_not_inferring _ Hv Hb Hi) in H. cbv zeta in H.
      repeat case_match; try discriminate H;
        (apply bind_raises in H; destruct H as [H | (u & _ & H)];
         [apply finalizeUrl_raises in H|]; discriminate H).
  - intros (Hv & Hb & Hdir & -> & Hentry).
    rewrite (getOptions_modes _ Hv). cbv zeta.
    rewrite Hb, Hdir, Hentry. reflexivity.
Qed.

Lemma entryTruthy_command entry :
  entryTruthy entry = true ->
  entry = Builtin \/ exists cmd, entry = Command cmd /\ cmd <> "".
Proof.
  destruct entry as [|cmd|]; simpl; intros H; [discriminate | | auto].
  right. exists cmd. split; [reflexivity|]. intros ->. discriminate H.
Qed.

Lemma entryTruthy_of_command cmd :
  cmd <> "" -> entryTruthy (Command cmd) = true.
Proof.
  intros Hne. simpl. destruct (String.eqb_spec cmd ""); [contradiction|reflexivity].
Qed.

Lemma inferPort_command port cmd :
  inferPort port (Command cmd)
  = Ok (js_or port (getStorybookConfiguration cmd "-p" (Some "--port"))).
Proof. unfold inferPort, js_or. destruct (truthy port); reflexivity. Qed.

(** X9.  Resolution fails with UnknownStorybookPort only when the input gets
    through the validations, the start script is looked up and found, the
    caller gave no port and the script has no -p or --port switch; the error
    carries the name of the script. It does fail so whenever, besides, TLS
    is set by the caller or the script has no --https switch. *)
Theorem unknown_storybook_port (input : Input) :
  let options := normalize (flags input) (argv input) in
  let name := stringOr (Options.scriptName options) "storybook" in
  (forall n,
     getOptions input = throw (UnknownStorybookPort n) ->
     validated input /\ inferring options = true /\ n = name
     /\ truthy (Options.port options) = false
     /\ exists cmd,
          lookupScript (packageJson input) name = Command cmd /\ cmd <> ""
          /\ truthy (getStorybookConfiguration cmd "-p" (Some "--port")) = false)
  /\ (forall cmd,
        validated input -> inferring options = true ->
        lookupScript (packageJson input) name = Command cmd -> cmd <> "" ->
        truthy (Options.port options) = false ->
        truthy (getStorybookConfiguration cmd "-p" (Some "--port")) = false ->
        truthy (Options.https options) = true
        \/ truthy (getStorybookConfiguration cmd "--https" None) = false ->
        getOptions input = throw (UnknownStorybookPort name)).
Proof.
  cbv zeta. split.
  - intros n H. pose proof (getOptions_reached _ _ H I) as Hv.
    split; [exact Hv|].
    destruct (mode_cases (normalize (flags input) (argv input)))
      as [[Hb Hi] | [[Hb Hi] | [Hb Hi]]].
    + rewrite (getOptions_modes _ Hv) in H. cbv zeta in H. rewrite Hb in H.
      repeat case_match; discriminate H.
    + split; [exact Hi|].
      rewrite (getOptions_inferring _ Hv Hi) in H. cbv zeta in H.
      apply bind_raises in H. destruct H as [H | (w & _ & H)].
      * unfold inferFromScript in H. cbv zeta in H.
        destruct (entryTruthy _) eqn:Hentry; cbn [negb] in H;
          [|discriminate H].
        apply bind_raises in H. destruct H as [H | (h & _ & H)];
          [apply inferHttps_raises in H; discriminate H|].
        apply bind_raises in H. destruct H as [H | (p & Hp & H)];
          [apply inferPort_raises in H; discriminate H|].
        destruct (truthy p) eqn:Htp; cbn [negb] in H; [discriminate H|].
        injection H as <-. split; [reflexivity|].
        apply entryTruthy_command in Hentry.
        destruct Hentry as [Hentry | (cmd & Hentry & Hne)]; rewrite Hentry in Hp.
        -- unfold inferPort in Hp.
           destruct (truthy (Options.port _)) eqn:Hport;
             [|discriminate Hp]. exfalso.
           assert (p = Options.port (normalize (flags input) (argv input)))
             by congruence.
           congruence.
        -- rewrite inferPort_command in Hp.
           assert (Hpeq : p = js_or (Options.port (normalize (flags input) (argv input)))
                            (getStorybookConfiguration cmd "-p" (Some "--port")))
             by congruence.
           rewrite Hpeq in Htp. unfold js_or in Htp.
           destruct (truthy (Options.port _)) eqn:Hport; [exfalso; congruence|].
           split; [reflexivity|]. exists cmd. auto.
      * apply bind_raises in H. destruct H as [H | (u & _ & H)];
          [apply finalizeUrl_raises in H|]; discriminate H.
    + rewrite (getOptions_not_inferring _ Hv Hb Hi) in H. cbv zeta in H.
      repeat case_match; try discriminate H;
        (apply bind_raises in H; destruct H as [H | (u & _ & H)];
         [apply finalizeUrl_raises in H|]; discriminate H).
  - intros cmd Hv Hi Hentry Hne Hport Hswitch Htls.
    rewrite (getOptions_inferring _ Hv Hi). cbv zeta.
    unfold inferFromScript. cbv zeta. rewrite Hentry.
    rewrite (entryTruthy_of_command _ Hne). cbn [negb].
    rewrite inferPort_command. unfold js_or. rewrite Hport.
    unfold inferHttps. rewrite truthy_callerHttps.
    destruct Htls as [-> | Hfound].
    + cbn [bind]. rewrite Hswitch. reflexivity.
    + destruct (truthy (Options.https _)); cbn [bind scriptSwitch];
        rewrite ?Hfound; cbn [bind]; rewrite Hswitch; reflexivity.
Qed.

(** *** Start mode *)

Lemma scheme_cases (https : JsVal) :
  (if truthy https then "https" else "http") = "http"
  \/ (if truthy https then "https" else "http") = "https".
Proof. destruct (truthy https); auto. Qed.

Lemma finalize_localhost https port :
  decimal (js_to_string port) = true ->
  finalizeUrl (JStr ((if truthy https then "https" else "http")
                     +:+ "://localhost:" +:+ js_to_string port))
  = Ok (localhostUrl https port).
Proof.
  intros Hport. unfold localhostUrl.
  apply (finalizeUrl_localhost _ _ (scheme_cases https) Hport).
Qed.

(** X10.  When the caller gives the port and Storybook is started by an exec
    command or is running already (doNotStart), nothing is read from the
    manifest: for a port in decimal digits the url is
    http://localhost:PORT/iframe.html, with https when TLS is set by the
    caller; https is the caller's object, scriptName stays as the caller
    gave it, noStart is the doNotStart flag, and nothing is logged. *)
Theorem start_with_given_port (input : Input) :
  let options := normalize (flags input) (argv input) in
  validated input ->
  truthy (Options.storybookUrl options) = false ->
  truthy (Options.exec options) = true \/ Options.noStart options = true ->
  truthy (Options.port options) = true ->
  decimal (js_to_string (Options.port options)) = true ->
  getOptions input
  = Ok (Resolved.mk options (Options.noStart options)
          (Options.buildScriptName options) (callerHttps options)
          (JStr (localhostUrl (callerHttps options) (Options.port options)))
          (Options.scriptName options), []).
Proof.
  cbv zeta. intros Hv Hurl Hcase Hport Hdec.
  assert (Hb : building (normalize (flags input) (argv input)) = false)
    by (destruct Hcase; [apply building_exec | apply building_noStart]; assumption).
  assert (Hi : inferring (normalize (flags input) (argv input)) = false).
  { unfold inferring. rewrite Hport.
    destruct Hcase as [-> | ->]; cbn [negb orb]; rewrite ?andb_false_r; reflexivity. }
  rewrite (getOptions_not_inferring _ Hv Hb Hi). cbv zeta.
  rewrite Hurl, Hport, (finalize_localhost _ _ Hdec). reflexivity.
Qed.

(** X11.  When the start script is looked up and the manifest has a command
    under its name, the configuration is made from what the command says:
    the port is the caller's or else the one of the -p or --port switch; for
    a port in decimal digits the url is http://localhost:PORT/iframe.html,
    with https when the resolved https is truthy; scriptName is the name
    under which the script was found, noStart is the doNotStart flag, and
    the notice with the name and the port is logged when a logger was given. *)
Theorem start_from_script (input : Input) (cmd : string) (https : JsVal) :
  let options := normalize (flags input) (argv input) in
  let name := stringOr (Options.scriptName options) "storybook" in
  let port :=
    js_or (Options.port options)
          (getStorybookConfiguration cmd "-p" (Some "--port")) in
  validated input -> inferring options = true ->
  lookupScript (packageJson input) name = Command cmd -> cmd <> "" ->
  inferHttps (callerHttps options) (Command cmd) = Ok https ->
  truthy port = true -> decimal (js_to_string port) = true ->
  getOptions input
  = Ok (Resolved.mk options (Options.noStart options)
          (Options.buildScriptName options) https
          (JStr (localhostUrl https port)) (JStr name),
        if log input then [InferredOptions name port] else []).
Proof.
  cbv zeta. intros Hv Hi Hentry Hne Hhttps Hport Hdec.
  rewrite (getOptions_inferring _ Hv Hi). cbv zeta.
  unfold inferFromScript. cbv zeta. rewrite Hentry.
  rewrite (entryTruthy_of_command _ Hne). cbn [negb].
  rewrite Hhttps, inferPort_command. cbn [bind]. rewrite Hport.
  cbn [negb bind l_https l_port l_scriptName l_notices].
  rewrite (finalize_localhost _ _ Hdec). reflexivity.
Qed.

(** *** What a returned configuration tells *)

Lemma getOptions_returned input cfg notices :
  getOptions input = Ok (cfg, notices) -> validated input.
Proof. intros H. exact (getOptions_reached _ _ H I). Qed.

(** What a successful finalisation returns: the text of the parsed
    candidate with the path that the rule gives. *)
Lemma finalizeUrl_ok v u :
  finalizeUrl v = Ok u ->
  exists cand p,
    v = JStr cand
    /\ Url.pathname (Url.parse cand) = Some p
    /\ u = Url.format (Url.setPathname (Url.parse cand) (appendSuffix p)).
Proof.
  intros H. destruct v as [| | | |s| |]; try discriminate H.
  unfold finalizeUrl in H.
  destruct (Url.pathname (Url.parse s)) as [p|] eqn:Hp; [|discriminate H].
  injection H as <-. eauto.
Qed.

(** X12.  A configuration is returned only for an input that passed the four
    validations: it carries the normalised options unchanged, among them a
    truthy token and at most one truthy selector; a patch build has two
    distinct references; and when exitOnceUploaded is requested the caller
    gave no scriptName, no storybookUrl and no doNotStart. *)
Theorem returned_configuration_validated (input : Input) cfg notices :
  let options := normalize (flags input) (argv input) in
  getOptions input = Ok (cfg, notices) ->
  Resolved.options cfg = options
  /\ truthy (Options.projectToken options) = true
  /\ patchAccepted (flags input)
  /\ length (truthySelectors options) <= 1
  /\ (truthy (Options.exitOnceUploaded options) = true ->
      truthy (Options.scriptName options) = false
      /\ truthy (Options.storybookUrl options) = false
      /\ Options.noStart options = false).
Proof.
  cbv zeta. intros H. pose proof (getOptions_returned _ _ _ H) as Hv.
  pose proof Hv as (Htok & Hpatch & Hsel & Hexit). cbv zeta in Hexit.
  split; [|split; [exact Htok | split; [exact Hpatch | split; [exact Hsel|]]]].
  - rewrite (getOptions_modes _ Hv) in H. cbv zeta in H.
    destruct (building _).
    + repeat case_match; simplify_eq; reflexivity.
    + apply bind_ok in H. destruct H as (v & _ & H).
      apply bind_ok in H. destruct H as (u & _ & H).
      simplify_eq. reflexivity.
  - intros Hex. unfold checkExitOnceUploaded in Hexit.
    rewrite Hex, !andb_true_r in Hexit.
    destruct (truthy (Options.storybookUrl _));
      destruct (Options.noStart _);
      destruct (truthy (Options.scriptName _));
      try discriminate Hexit; auto.
Qed.


(** X14.  In a returned configuration createTunnel tells whether a URL is
    still to be made reachable: it is false when the caller gave a
    storybookUrl and otherwise true unless the environment sets
    CHROMATIC_CREATE_TUNNEL to 'false'. (The flag given without a value
    never gets this far.) *)
Theorem create_tunnel_without_url (input : Input) cfg notices :
  getOptions input = Ok (cfg, notices) ->
  Options.createTunnel (Resolved.options cfg)
  = negb (truthy (Options.storybookUrl (Resolved.options cfg)))
    && isNotFalseString CHROMATIC_CREATE_TUNNEL.
Proof.
  intros H. pose proof (getOptions_returned _ _ _ H) as Hv.
  assert (Hopt : Resolved.options cfg = normalize (flags input) (argv input)).
  { rewrite (getOptions_modes _ Hv) in H. cbv zeta in H.
    destruct (building _).
    + repeat case_match; simplify_eq; reflexivity.
    + apply bind_ok in H. destruct H as (v & _ & H).
      apply bind_ok in H. destruct H as (u & _ & H).
      simplify_eq. reflexivity. }
  rewrite Hopt. cbn [normalize Options.createTunnel Options.storybookUrl].
  destruct (is_empty_string (Flags.storybookUrl (flags input))) eqn:Hempty.
  - exfalso.
    assert (Hurl : Options.storybookUrl (normalize (flags input) (argv input))
                   = JBool true).
    { cbn [normalize Options.storybookUrl]. unfold flagPresent.
      rewrite Hempty. reflexivity. }
    rewrite (getOptions_modes _ Hv) in H. cbv zeta in H.
    rewrite building_url in H by (rewrite Hurl; reflexivity).
    rewrite Hurl in H. discriminate H.
  - unfold flagPresent. rewrite Hempty. reflexivity.
Qed.

(** X15.  The scriptName of a returned configuration: when the start script
    was looked up it is the name under which the manifest has it (the
    caller's string, or 'storybook'), and the manifest does hold a command
    under that name; in every other case it is the value the caller gave, as
    it was normalised. *)
Theorem resolved_script_name (input : Input) cfg notices :
  let options := normalize (flags input) (argv input) in
  let name := stringOr (Options.scriptName options) "storybook" in
  getOptions input = Ok (cfg, notices) ->
  (inferring options = true ->
   Resolved.scriptName cfg = JStr name
   /\ entryTruthy (lookupScript (packageJson input) name) = true)
  /\ (inferring options = false ->
      Resolved.scriptName cfg = Options.scriptName options).
Proof.
  cbv zeta. intros H. pose proof (getOptions_returned _ _ _ H) as Hv.
  split; intros Hi.
  - rewrite (getOptions_inferring _ Hv Hi) in H. cbv zeta in H.
    apply bind_ok in H. destruct H as (w & Hw & H).
    apply bind_ok in H. destruct H as (u & _ & H).
    apply inferFromScript_inv in Hw. cbv zeta in Hw.
    destruct Hw as (Hentry & _ & _ & _ & Hname & _).
    simplify_eq. cbn [Resolved.scriptName]. auto.
  - destruct (building (normalize (flags input) (argv input))) eqn:Hb.
    + rewrite (getOptions_modes _ Hv) in H. cbv zeta in H. rewrite Hb in H.
      repeat case_match; simplify_eq; reflexivity.
    + rewrite (getOptions_not_inferring _ Hv Hb Hi) in H. cbv zeta in H.
      repeat case_match; try discriminate H;
        apply bind_ok in H; destruct H as (u & _ & H); simplify_eq;
        reflexivity.
Qed.

(** X16.  The logger gets one notice, and only when a logger was given and
    the start script was looked up: the notice carries the name of the
    script and the port, which is truthy and is the port of the resolved
    url. In every other case nothing is logged. *)
Theorem notice_of_inference (input : Input) cfg notices :
  let options := normalize (flags input) (argv input) in
  let name := stringOr (Options.scriptName options) "storybook" in
  getOptions input = Ok (cfg, notices) ->
  (log input && inferring options = false -> notices = [])
  /\ (log input && inferring options = true ->
      exists port u,
        notices = [InferredOptions name port]
        /\ truthy port = true
        /\ Resolved.url cfg = JStr u
        /\ finalizeUrl
             (JStr ((if truthy (Resolved.https cfg) then "https" else "http")
                    +:+ "://localhost:" +:+ js_to_string port)) = Ok u).
Proof.
  cbv zeta. intros H. pose proof (getOptions_returned _ _ _ H) as Hv.
  assert (Hinf : inferring (normalize (flags input) (argv input)) = true ->
                 exists w u,
                   inferFromScript (packageJson input) (log input)
                     (callerHttps (normalize (flags input) (argv input)))
                     (Options.port (normalize (flags input) (argv input)))
                     (Options.scriptName (normalize (flags input) (argv input)))
                   = Ok w
                   /\ finalizeUrl
                        (JStr ((if truthy (l_https w) then "https" else "http")
                               +:+ "://localhost:" +:+ js_to_string (l_port w)))
                      = Ok u
                   /\ Resolved.https cfg = l_https w
                   /\ Resolved.url cfg = JStr u
                   /\ notices = l_notices w).
  { intros Hi. rewrite (getOptions_inferring _ Hv Hi) in H. cbv zeta in H.
    apply bind_ok in H. destruct H as (w & Hw & H).
    apply bind_ok in H. destruct H as (u & Hu & H).
    simplify_eq. exists w, u. auto. }
  split; intros Hlog.
  - destruct (inferring (normalize (flags input) (argv input))) eqn:Hi.
    + destruct (Hinf eq_refl) as (w & u & Hw & _ & _ & _ & ->).
      apply inferFromScript_inv in Hw. cbv zeta in Hw.
      destruct Hw as (_ & _ & _ & _ & _ & ->).
      rewrite andb_true_r in Hlog. rewrite Hlog. reflexivity.
    + destruct (building (normalize (flags input) (argv input))) eqn:Hb.
      * rewrite (getOptions_modes _ Hv) in H. cbv zeta in H. rewrite Hb in H.
        repeat case_match; simplify_eq; reflexivity.
      * rewrite (getOptions_not_inferring _ Hv Hb Hi) in H. cbv zeta in H.
        repeat case_match; try discriminate H;
          apply bind_ok in H; destruct H as (u & _ & H); simplify_eq;
          reflexivity.
  - apply andb_true_iff in Hlog. destruct Hlog as [Hlog Hi].
    destruct (Hinf Hi) as (w & u & Hw & Hu & Hh & Hurl & ->).
    apply inferFromScript_inv in Hw. cbv zeta in Hw.
    destruct Hw as (_ & _ & _ & Hport & _ & ->).
    rewrite Hlog, Hh. exists (l_port w), u. auto.
Qed.

(** *** What resolution does not depend on *)

Lemma inferFromScript_log pj lg lg' https port name :
  mapResult localsCore (inferFromScript pj lg https port name)
  = mapResult localsCore (inferFromScript pj lg' https port name).
Proof.
  unfold inferFromScript. cbv zeta.
  destruct (negb (entryTruthy _)); [reflexivity|].
  destruct (inferHttps _ _) as [h|e]; [|reflexivity]. cbn [bind].
  destruct (inferPort _ _) as [p|e]; [|reflexivity]. cbn [bind].
  destruct (negb (truthy p)); reflexivity.
Qed.

Lemma startLocally_log pj lg lg' exec noStart https port name :
  mapResult localsCore (startLocally pj lg exec noStart https port name)
  = mapResult localsCore (startLocally pj lg' exec noStart https port name).
Proof.
  unfold startLocally.
  destruct (truthy exec && negb (truthy port)); [reflexivity|].
  destruct (negb (truthy exec) && (negb (truthy port) || negb noStart));
    [|reflexivity].
  pose proof (inferFromScript_log pj lg lg' https port name) as H.
  destruct (inferFromScript pj lg https port name) as [v|e],
           (inferFromScript pj lg' https port name) as [v'|e'];
    cbn [mapResult bind] in H |- *; try discriminate H;
    [|injection H as ->; reflexivity].
  unfold localsCore in H |- *. cbn [l_https l_port l_scriptName l_storybookUrl].
  injection H as -> -> -> _. reflexivity.
Qed.

Lemma configOf_locals options noStart (r r' : Result Locals) :
  mapResult localsCore r = mapResult localsCore r' ->
  configOf (try v <- r;
            try url <- finalizeUrl (l_storybookUrl v);
            Ok (Resolved.mk options noStart (Options.buildScriptName options)
                  (l_https v) (JStr url) (l_scriptName v), l_notices v))
  = configOf (try v <- r';
              try url <- finalizeUrl (l_storybookUrl v);
              Ok (Resolved.mk options noStart (Options.buildScriptName options)
                    (l_https v) (JStr url) (l_scriptName v), l_notices v)).
Proof.
  intros H. destruct r as [v|e], r' as [v'|e'];
    cbn [mapResult bind] in H |- *; try discriminate H;
    [|injection H as ->; reflexivity].
  unfold localsCore in H. injection H as -> _ -> ->.
  unfold configOf, mapResult.
  destruct (finalizeUrl (l_storybookUrl v')); reflexivity.
Qed.

(** X17.  Whether a logger is given changes nothing but the notices:
    resolution fails with the same error or returns the same configuration. *)
Theorem log_independence (input : Input) (lg : bool) :
  configOf (getOptions (withLog input lg)) = configOf (getOptions input).
Proof.
  unfold getOptions. cbn [withLog flags argv log packageJson]. cbv zeta.
  destruct (checkProjectToken _) as [[]|e]; [|reflexivity]. cbn [bind].
  destruct (checkPatchBuild _ _) as [[]|e]; [|reflexivity]. cbn [bind].
  unfold resolve. cbv zeta.
  destruct (checkSingularOptions _) as [[]|e]; [|reflexivity]. cbn [bind].
  destruct (checkExitOnceUploaded _ _ _) as [[]|e]; [|reflexivity]. cbn [bind].
  match goal with |- context [if ?b then _ else _] => destruct b end;
    [reflexivity|].
  apply configOf_locals.
  destruct (negb (truthy (Options.storybookUrl _))); [|reflexivity].
  apply startLocally_log.
Qed.

(** X18.  The manifest is consulted only to look a script up: when the start
    script is not looked up, and Storybook is not built or is built into a
    given storybookBuildDir, resolution gives the same outcome whatever the
    manifest holds. *)
Theorem manifest_independence (input : Input) (pj : Manifest) :
  let options := normalize (flags input) (argv input) in
  inferring options = false ->
  (building options = true ->
   truthy (Options.storybookBuildDir options) = true) ->
  getOptions (withManifest input pj) = getOptions input.
Proof.
  cbv zeta. intros Hi Hdir.
  unfold getOptions. cbn [withManifest flags argv log packageJson]. cbv zeta.
  destruct (checkProjectToken _) as [[]|e]; [|reflexivity]. cbn [bind].
  destruct (checkPatchBuild _ _) as [[]|e]; [|reflexivity]. cbn [bind].
  unfold resolve. cbv zeta.
  destruct (checkSingularOptions _) as [[]|e]; [|reflexivity]. cbn [bind].
  destruct (checkExitOnceUploaded _ _ _) as [[]|e]; [|reflexivity]. cbn [bind].
  unfold inferring, building in *.
  set (options := normalize (flags input) (argv input)) in *. clearbody options.
  destruct (truthy (Options.storybookUrl options)) eqn:Hurl;
    cbn [negb andb] in *; rewrite ?andb_false_r in *; cbn [negb andb] in *;
    [reflexivity|].
  unfold startLocally.
  destruct (truthy (Options.scriptName options)),
           (truthy (Options.exec options)),
           (Options.noStart options),
           (truthy (Options.port options));
    cbn [negb andb orb] in *; try discriminate Hi; try reflexivity.
  rewrite (Hdir eq_refl). reflexivity.
Qed.


End Outcomes.

(** ** Concrete runs *)

Example split_samples :
  split "..." "a...b" = ["a"; "b"] /\ split "..." "a" = ["a"]
  /\ split "..." "" = [""] /\ split "..." "a....b" = ["a"; ".b"]
  /\ split "..." "a..." = ["a"; ""]
  /\ filterBoolean (split "..." "...a......b") = ["a"; "b"].
Proof. vm_compute. repeat split. Qed.

Example helper_samples :
  Helper.tokens tlsScript
  = ["start-storybook"; "-p"; "9009"; "--https"; "--ssl-cert"; "./c.pem";
     "--ssl-key"; "./k.pem"]
  /\ Helper.getStorybookConfiguration tlsScript "-p" (Some "--port") = JStr "9009"
  /\ Helper.getStorybookConfiguration tlsScript "--ssl-ca" None = JUndefined.
Proof. vm_compute. repeat split. Qed.

Example url_samples :
  finalizeUrl (JStr "https://example.com/a/b?x=1#top")
  = Ok "https://example.com/a/b/iframe.html?x=1#top"
  /\ finalizeUrl (JStr "http://localhost:6006/") = Ok "http://localhost:6006/iframe.html"
  /\ finalizeUrl (JStr "localhost:6006") = Raise JsTypeError
  /\ finalizeUrl (JBool true) = Raise JsTypeError.
Proof. vm_compute. repeat split. Qed.

(** Repeated projectToken flag whose last occurrence is empty, with an
    appCode: both flags are truthy, yet the token check fails. *)
Lemma token_repeated_flag_counterexample :
  truthy (Flags.projectToken flagsRepeatedToken) = true
  /\ truthy (Flags.appCode flagsRepeatedToken) = true
  /\ getOptions (sampleInput flagsRepeatedToken [])
     = throw MissingProjectToken.
Proof. vm_compute. repeat split. Qed.

Lemma token_fallback_chain_witness :
  getOptions (sampleInput (Flags.ofList None DirAbsent []) [])
  = throw MissingProjectToken
  /\ getOptions (sampleInput flagsTokenOnly []) <> throw MissingProjectToken.
Proof.
  split.
  - apply (proj1 (token_fallback_chain
                    (sampleInput (Flags.ofList None DirAbsent []) [])));
      reflexivity.
  - apply (proj1 (proj2 (proj2 (proj2 (token_fallback_chain
                                         (sampleInput flagsTokenOnly [])))))).
    reflexivity.
Defined.

Lemma patch_build_validation_witness :
  getOptions (sampleInput (flagsPatch "a...a") []) = throw DuplicatePatchBuild
  /\ getOptions (sampleInput (flagsPatch "a") []) = throw InvalidPatchBuild
  /\ getOptions (sampleInput flagsTokenOnly []) <> throw InvalidPatchBuild.
Proof.
  split; [|split].
  - destruct (patch_build_validation (sampleInput (flagsPatch "a...a") []))
      as (Hcheck & _ & Hfail & _).
    apply Hfail; [|reflexivity].
    apply (proj2 (Hcheck "a...a" eq_refl ltac:(discriminate)) "a" "a" []);
      reflexivity.
  - destruct (patch_build_validation (sampleInput (flagsPatch "a") []))
      as (Hcheck & _ & Hfail & _).
    apply Hfail; [|reflexivity].
    apply (proj1 (Hcheck "a" eq_refl ltac:(discriminate))). vm_compute. lia.
  - destruct (patch_build_validation (sampleInput flagsTokenOnly []))
      as (_ & Habsent & _ & Hpass).
    apply Hpass, Habsent. reflexivity.
Defined.

Lemma singular_options_check_witness :
  getOptions (sampleInput flagsThreeSelectors [])
  = throw (InvalidSingularOptions ["--script-name"; "--exec"; "--storybook-url"]).
Proof.
  destruct (singular_options_check (sampleInput flagsThreeSelectors []))
    as (Hcheck & _ & _ & Hfail & _).
  apply Hfail; [|reflexivity|left; reflexivity].
  apply Hcheck. vm_compute. lia.
Defined.

Lemma exit_once_uploaded_check_witness :
  getOptions (sampleInput (flagsUrl "http://localhost:6006") [])
  = Ok (resolvedUrl, [])
  /\ Resolved.noStart resolvedUrl = true
  /\ getOptions (sampleInput flagsUrlExit []) = throw InvalidExitOnceUploaded.
Proof.
  assert (H : getOptions (sampleInput (flagsUrl "http://localhost:6006") [])
              = Ok (resolvedUrl, []))
    by (vm_compute; reflexivity).
  split; [exact H|]. split.
  - exact (proj1 (exit_once_uploaded_check (env := sampleEnv)
                    (sampleInput (flagsUrl "http://localhost:6006") []))
             _ _ eq_refl H).
  - destruct (exit_once_uploaded_check (sampleInput flagsUrlExit []))
      as (_ & Hcheck & Hfail).
    apply Hfail.
    + apply Hcheck; [reflexivity | left; reflexivity].
    + reflexivity.
    + left. reflexivity.
    + vm_compute. lia.
Defined.

(** The storybookUrl flag without a value, a token, and exitOnceUploaded:
    resolution fails with one of the nine named kinds. *)
Lemma url_sentinel_counterexample :
  Flags.storybookUrl flagsSentinelExit = JStr ""
  /\ truthy (Options.projectToken (normalize flagsSentinelExit (JArr []))) = true
  /\ getOptions (sampleInput flagsSentinelExit []) = throw InvalidExitOnceUploaded.
Proof. vm_compute. repeat split. Qed.

Lemma url_sentinel_type_error_witness :
  getOptions (sampleInput (flagsUrl "") []) = Raise JsTypeError.
Proof.
  apply (url_sentinel_type_error (sampleInput (flagsUrl "") [])).
  - reflexivity.
  - reflexivity.
  - left. reflexivity.
  - vm_compute. lia.
  - reflexivity.
Defined.

(** A manifest whose build-storybook script is the empty string: the name is
    a key of the scripts mapping, yet resolution fails. *)
Lemma build_script_empty_counterexample :
  (list_to_map [("build-storybook", "")] : gmap string string)
    !! "build-storybook" = Some ""
  /\ getOptions (sampleInput flagsTokenOnly [("build-storybook", "")])
     = throw (MissingBuildScriptName "build-storybook").
Proof. vm_compute. repeat split. Qed.

Lemma build_mode_witness :
  getOptions (sampleInput flagsTokenOnly
                [("build-storybook", "build-storybook -o out")])
  = Ok (Resolved.mk (normalize flagsTokenOnly (JArr [])) true
          (JStr "build-storybook") JUndefined JUndefined JUndefined, [])
  /\ getOptions (sampleInput flagsTokenOnly [("storybook", plainScript)])
     = throw (MissingBuildScriptName "build-storybook")
  /\ getOptions (sampleInput flagsBuildDir [])
     = Ok (Resolved.mk (normalize flagsBuildDir (JArr [])) true
             JUndefined JUndefined JUndefined JUndefined, []).
Proof.
  split; [|split].
  - apply (build_mode
             (sampleInput flagsTokenOnly
                [("build-storybook", "build-storybook -o out")])
             eq_refl (or_introl eq_refl)); try reflexivity.
    vm_compute. lia.
  - apply (build_mode (sampleInput flagsTokenOnly [("storybook", plainScript)])
             eq_refl (or_introl eq_refl)); try reflexivity.
    vm_compute. lia.
  - refine (proj2 (build_mode (env := sampleEnv) (sampleInput flagsBuildDir [])
                     eq_refl (or_introl eq_refl) _
                     eq_refl eq_refl eq_refl eq_refl eq_refl)
              eq_refl (packageJson (sampleInput flagsBuildDir []))).
    vm_compute. lia.
Defined.

(** A token and a storybook script, with no selector flag at all: resolution takes
    the build branch and fails. *)
Lemma no_selector_counterexample :
  foundSingularOpts (normalize flagsTokenOnly (JArr [])) = []
  /\ getOptions (sampleInput flagsTokenOnly [("storybook", plainScript)])
     = throw (MissingBuildScriptName "build-storybook").
Proof. vm_compute. repeat split. Qed.

Lemma start_mode_from_script_witness :
  getOptions (sampleInput flagsScriptName [("storybook", plainScript)])
  = Ok (Resolved.mk (normalize flagsScriptName (JArr [])) false JUndefined
          JUndefined (JStr "http://localhost:9009/iframe.html")
          (JStr "storybook"), [InferredOptions "storybook" (JStr "9009")])
  /\ getOptions (sampleInput flagsScriptName [("storybook", tlsScript)])
     = Ok (Resolved.mk (normalize flagsScriptName (JArr [])) false JUndefined
             (tlsObject (JStr "./c.pem") (JStr "./k.pem") JUndefined)
             (JStr "https://localhost:9009/iframe.html")
             (JStr "storybook"), [InferredOptions "storybook" (JStr "9009")]).
Proof.
  split.
  - refine (proj1 (start_mode_from_script (env := sampleEnv)
                     (sampleInput flagsScriptName [("storybook", plainScript)])
                     (list_to_map [("storybook", plainScript)])
                     (fun _ _ _ => eq_refl) eq_refl (or_introl eq_refl) eq_refl
                     _ eq_refl eq_refl eq_refl eq_refl eq_refl) _).
    + vm_compute. lia.
    + vm_compute. reflexivity.
  - refine (proj2 (start_mode_from_script (env := sampleEnv)
                     (sampleInput flagsScriptName [("storybook", tlsScript)])
                     (list_to_map [("storybook", tlsScript)])
                     (fun _ _ _ => eq_refl) eq_refl (or_introl eq_refl) eq_refl
                     _ eq_refl eq_refl eq_refl eq_refl eq_refl) _).
    + vm_compute. lia.
    + vm_compute. reflexivity.
Defined.

(** A cert given by the caller without the https flag, and a script with
    --https and its own cert: the resolved https carries the script's cert. *)
Lemma caller_cert_counterexample :
  Flags.storybookCert flagsCallerCert = JStr "./mine.pem"
  /\ getOptions (sampleInput flagsCallerCert
                   [("storybook", "start-storybook -p 9009 --https --ssl-cert=./c.pem")])
     = Ok (Resolved.mk (normalize flagsCallerCert (JArr [])) false JUndefined
             (tlsObject (JStr "./c.pem") JUndefined JUndefined)
             (JStr "https://localhost:9009/iframe.html") (JStr "storybook"),
           [InferredOptions "storybook" (JStr "9009")]).
Proof. split; [reflexivity|]. vm_compute. reflexivity. Qed.

Lemma caller_precedence_witness :
  getOptions (sampleInput flagsCallerTls [("storybook", tlsScript)])
  = Ok (resolvedCallerTls, [InferredOptions "storybook" (JStr "7007")])
  /\ Resolved.https resolvedCallerTls
     = tlsObject (JStr "./mine.pem") JUndefined JUndefined
  /\ finalizeUrl (JStr "https://localhost:7007")
     = Ok "https://localhost:7007/iframe.html".
Proof.
  assert (H : getOptions (sampleInput flagsCallerTls [("storybook", tlsScript)])
              = Ok (resolvedCallerTls, [InferredOptions "storybook" (JStr "7007")]))
    by (vm_compute; reflexivity).
  split; [exact H|].
  destruct (caller_precedence (env := sampleEnv) _ _ _
              "https://localhost:7007/iframe.html" H eq_refl eq_refl)
    as (Hhttps & Hport & _).
  split; [exact (Hhttps eq_refl) | exact (Hport eq_refl)].
Defined.

(** A cert path beginning with [~] given by the caller, with the https flag:
    it reaches the resolved configuration as it was given. *)
Lemma caller_tilde_counterexample :
  getOptions (sampleInput flagsUrlTilde [])
  = Ok (Resolved.mk (normalize flagsUrlTilde (JArr [])) true JUndefined
          (tlsObject (JStr "~/c.pem") JUndefined JUndefined)
          (JStr "http://localhost:6006/iframe.html") JUndefined, []).
Proof. vm_compute. reflexivity. Qed.

Lemma home_dir_expansion_witness :
  resolveHomeDir (JStr "~/k.pem") = Ok (JStr "/home/user/k.pem")
  /\ resolveHomeDir (JStr "./k.pem") = Ok (JStr "./k.pem").
Proof.
  split.
  - apply (proj1 (home_dir_expansion (env := sampleEnv)) "/home/user" "/k.pem").
    reflexivity.
  - apply (proj1 (proj2 (home_dir_expansion (env := sampleEnv)))). reflexivity.
Defined.



(** ** Concrete runs of the further properties *)

Ltac validation :=
  unfold validated; cbv zeta;
  split; [reflexivity | split; [left; reflexivity
                               | split; [vm_compute; lia | reflexivity]]].

Lemma repeated_token_last_wins_witness :
  Options.projectToken (normalize flagsTokenTwice (JArr [])) = JStr "new".
Proof.
  apply (proj1 (repeated_token_last_wins (env := sampleEnv) flagsTokenTwice
                  (JArr []) [JStr "old"] (JStr "new") eq_refl)).
  reflexivity.
Defined.

Lemma resolveHomeDir_failures_witness :
  resolveHomeDir JUndefined = Ok JUndefined
  /\ exists e, resolveHomeDir (JBool true) = Raise e.
Proof.
  split.
  - apply (proj1 (resolveHomeDir_failures (env := sampleEnv) JUndefined)).
    reflexivity.
  - apply (proj2 (proj1 (proj2 (resolveHomeDir_failures (env := sampleEnv)
                                  (JBool true))) eq_refl)).
    left. intros s Hs. discriminate Hs.
Defined.

Lemma patch_build_round_trip_witness :
  Options.patchHeadRef (normalize (flagsPatch "main...release-1.2") (JArr []))
  = JStr "main"
  /\ Options.patchBaseRef (normalize (flagsPatch "main...release-1.2") (JArr []))
     = JStr "release-1.2".
Proof.
  destruct (patch_build_round_trip (env := sampleEnv)
              (sampleInput (flagsPatch "main...release-1.2") [])
              "main" "release-1.2" eq_refl)
    as (Hhead & Hbase & _); try reflexivity; try discriminate.
  split; [exact Hhead | exact Hbase].
Defined.

Lemma exec_requires_port_witness :
  getOptions (sampleInput flagsExec []) = throw MissingStorybookPort.
Proof.
  apply (proj2 (exec_requires_port (env := sampleEnv) (sampleInput flagsExec []))).
  split; [validation | split; reflexivity].
Defined.

Lemma missing_script_name_witness :
  getOptions (sampleInput flagsScriptName [])
  = throw (MissingScriptName "storybook").
Proof.
  apply (proj2 (missing_script_name (env := sampleEnv)
                  (sampleInput flagsScriptName []) "storybook")).
  split; [validation | repeat split].
Defined.

Lemma missing_build_script_name_witness :
  getOptions (sampleInput flagsTokenOnly [])
  = throw (MissingBuildScriptName "build-storybook").
Proof.
  apply (proj2 (missing_build_script_name (env := sampleEnv)
                  (sampleInput flagsTokenOnly []) "build-storybook")).
  split; [validation | repeat split].
Defined.

Lemma unknown_storybook_port_witness :
  getOptions (sampleInput flagsScriptName [("storybook", "start-storybook")])
  = throw (UnknownStorybookPort "storybook").
Proof.
  apply (proj2 (unknown_storybook_port (env := sampleEnv)
                  (sampleInput flagsScriptName [("storybook", "start-storybook")]))
           "start-storybook").
  - validation.
  - reflexivity.
  - vm_compute. reflexivity.
  - discriminate.
  - reflexivity.
  - reflexivity.
  - right. reflexivity.
Defined.

Lemma start_with_given_port_witness :
  getOptions (sampleInput flagsExecPort []) = Ok (resolvedExecPort, []).
Proof.
  apply (start_with_given_port (env := sampleEnv) (sampleInput flagsExecPort [])).
  - validation.
  - reflexivity.
  - left. reflexivity.
  - reflexivity.
  - reflexivity.
Defined.

Lemma start_from_script_witness :
  getOptions (sampleInput flagsScriptName [("storybook", plainScript)])
  = Ok (resolvedFromScript, [InferredOptions "storybook" (JStr "9009")]).
Proof.
  apply (start_from_script (env := sampleEnv)
           (sampleInput flagsScriptName [("storybook", plainScript)])
           plainScript JUndefined).
  - validation.
  - reflexivity.
  - vm_compute. reflexivity.
  - discriminate.
  - reflexivity.
  - reflexivity.
  - reflexivity.
Defined.

Lemma returned_configuration_validated_witness :
  getOptions (sampleInput flagsExecPort []) = Ok (resolvedExecPort, [])
  /\ Resolved.options resolvedExecPort = normalize flagsExecPort (JArr [])
  /\ length (truthySelectors (normalize flagsExecPort (JArr []))) <= 1.
Proof.
  assert (H : getOptions (sampleInput flagsExecPort []) = Ok (resolvedExecPort, []))
    by (vm_compute; reflexivity).
  destruct (returned_configuration_validated (env := sampleEnv) _ _ _ H)
    as (Hopt & _ & _ & Hsel & _).
  split; [exact H | split; [exact Hopt | exact Hsel]].
Defined.


Lemma create_tunnel_without_url_witness :
  getOptions (sampleInput (flagsUrl "http://localhost:6006") [])
  = Ok (resolvedUrl, [])
  /\ Options.createTunnel (Resolved.options resolvedUrl) = false.
Proof.
  assert (H : getOptions (sampleInput (flagsUrl "http://localhost:6006") [])
              = Ok (resolvedUrl, []))
    by (vm_compute; reflexivity).
  split; [exact H|].
  exact (create_tunnel_without_url (env := sampleEnv) _ _ _ H).
Defined.

Lemma resolved_script_name_witness :
  getOptions (sampleInput flagsScriptName [("storybook", plainScript)])
  = Ok (resolvedFromScript, [InferredOptions "storybook" (JStr "9009")])
  /\ Resolved.scriptName resolvedFromScript = JStr "storybook"
  /\ Resolved.scriptName resolvedExecPort = JUndefined.
Proof.
  assert (H1 : getOptions (sampleInput flagsScriptName [("storybook", plainScript)])
               = Ok (resolvedFromScript, [InferredOptions "storybook" (JStr "9009")]))
    by (vm_compute; reflexivity).
  assert (H2 : getOptions (sampleInput flagsExecPort []) = Ok (resolvedExecPort, []))
    by (vm_compute; reflexivity).
  split; [exact H1 | split].
  - exact (proj1 (proj1 (resolved_script_name (env := sampleEnv) _ _ _ H1) eq_refl)).
  - exact (proj2 (resolved_script_name (env := sampleEnv) _ _ _ H2) eq_refl).
Defined.

Lemma notice_of_inference_witness :
  getOptions (sampleInput flagsExecPort []) = Ok (resolvedExecPort, [])
  /\ exists port u,
       [InferredOptions "storybook" (JStr "9009")]
       = [InferredOptions "storybook" port]
       /\ truthy port = true
       /\ Resolved.url resolvedFromScript = JStr u
       /\ finalizeUrl (JStr ("http" +:+ "://localhost:" +:+ js_to_string port))
          = Ok u.
Proof.
  assert (H1 : getOptions (sampleInput flagsScriptName [("storybook", plainScript)])
               = Ok (resolvedFromScript, [InferredOptions "storybook" (JStr "9009")]))
    by (vm_compute; reflexivity).
  assert (H2 : getOptions (sampleInput flagsExecPort [])
               = Ok (resolvedExecPort, @nil Notice)).
  { assert (H : exists notices,
                  getOptions (sampleInput flagsExecPort [])
                  = Ok (resolvedExecPort, notices))
      by (eexists; vm_compute; reflexivity).
    destruct H as [notices H].
    rewrite (proj1 (notice_of_inference (env := sampleEnv) _ _ _ H) eq_refl) in H.
    exact H. }
  split; [exact H2|].
  exact (proj2 (notice_of_inference (env := sampleEnv) _ _ _ H1) eq_refl).
Defined.

Lemma manifest_independence_witness :
  getOptions (withManifest (sampleInput flagsExecPort []) {| scripts := None |})
  = getOptions (sampleInput flagsExecPort []).
Proof.
  apply (manifest_independence (env := sampleEnv) (sampleInput flagsExecPort [])).
  - reflexivity.
  - intros H. discriminate H.
Defined.

Lemma url_suffix_before_query_witness :
  finalizeUrl (JStr "https://example.com/a/b?x=1#top")
  = Ok "https://example.com/a/b/iframe.html?x=1#top".
Proof.
  apply (url_suffix_before_query "https" "example.com" "/a/b" "?x=1" "#top");
    try reflexivity. right. reflexivity.
Defined.

Lemma url_without_scheme_witness :
  finalizeUrl (JStr "storybook-static") = Ok "storybook-static/iframe.html".
Proof.
  apply (url_without_scheme "storybook-static"); [discriminate | reflexivity].
Defined.

